(** * nationwide-export-to-bq: the bank-statement loader of [main.py]

    A shallow embedding of the script and of the library calls it makes.
    Python text is a [string] of bytes in UTF-8: every predicate the
    script applies to text (splitting at commas, stripping quote marks,
    the class [[^0-9.]], the [.csv] suffix) looks at ASCII characters only, and
    every byte of a longer code point is above 127, so the byte view and
    the code-point view agree on them.

    The script runs in a [World]: the directory and its files, a clock,
    the remote table, the console and a trace of what the run did to the
    outside.  A computation is a function from worlds to a result (a
    value or a raised exception) and a new world.  A load job is either
    accepted as a whole or refused as a whole.  The two queries of the
    deduplicator are taken to complete: a failure of the store while it
    counts or rewrites the table is outside the model, and what is proved
    below of a run that fails is stated of a failure of the loop over the
    files, which is where the model can fail.  Amounts are the decimals
    the number parser of pandas keeps (17 digits), exact where the
    library rounds to a binary double. *)

From Stdlib Require Import String Ascii List ZArith QArith Bool Lia DecimalString.
Import ListNotations.
Open Scope string_scope.

(** ** Python text primitives *)

Module Py.

(** [s.split(c)] for a one-character separator: never an empty list. *)
Fixpoint split (c : ascii) (s : string) : list string :=
  match s with
  | EmptyString => [EmptyString]
  | String a rest =>
      if Ascii.eqb a c then EmptyString :: split c rest
      else match split c rest with
           | f :: fs => String a f :: fs
           | [] => [String a EmptyString]
           end
  end.

Fixpoint lstrip (c : ascii) (s : string) : string :=
  match s with
  | EmptyString => EmptyString
  | String a rest => if Ascii.eqb a c then lstrip c rest else s
  end.

Fixpoint rstrip (c : ascii) (s : string) : string :=
  match s with
  | EmptyString => EmptyString
  | String a rest =>
      match rstrip c rest with
      | EmptyString => if Ascii.eqb a c then EmptyString else String a EmptyString
      | r => String a r
      end
  end.

(** [s.strip(c)]: every leading and every trailing [c] goes. *)
Definition strip (c : ascii) (s : string) : string := rstrip c (lstrip c s).

(** [s.endswith(suffix)], an exact, case-sensitive comparison. *)
Definition endswith (s suffix : string) : bool :=
  (String.length suffix <=? String.length s)%nat &&
  String.eqb
    (substring (String.length s - String.length suffix) (String.length suffix) s)
    suffix.

(** [s.replace(a, b)] for one-character [a] and [b]. *)
Fixpoint replace_char (a b : ascii) (s : string) : string :=
  match s with
  | EmptyString => EmptyString
  | String x rest =>
      String (if Ascii.eqb x a then b else x) (replace_char a b rest)
  end.

Definition lower_ascii (a : ascii) : ascii :=
  let n := nat_of_ascii a in
  if ((65 <=? n) && (n <=? 90))%nat then ascii_of_nat (n + 32) else a.

(** [s.lower()] on a text written in ASCII.  The letters A to Z are
    lowered and every other byte is kept, so a capital letter outside
    ASCII stays as it is where Python lowers it too.  No letter outside
    ASCII is lowered by Python to an ASCII letter that occurs in a
    column name of the schema (the only ones that give ASCII letters
    give an i followed by a dot above, or a k), so the model and Python
    agree on whether a lowered name is one of those names. *)
Fixpoint lower (s : string) : string :=
  match s with
  | EmptyString => EmptyString
  | String a rest => String (lower_ascii a) (lower rest)
  end.

Definition newline : ascii := "010"%char.
Definition dquote : ascii := "034"%char.

(** [file.readline()] on the text of a file opened in text mode: the first
    line with its terminator, or everything when there is none. *)
Fixpoint readline (content : string) : string :=
  match content with
  | EmptyString => EmptyString
  | String a rest =>
      if Ascii.eqb a newline then String a EmptyString
      else String a (readline rest)
  end.

(** The lines of a text without their terminators; a final terminator
    opens no further line. *)
Fixpoint splitlines (content : string) : list string :=
  match content with
  | EmptyString => []
  | String a rest =>
      if Ascii.eqb a newline then EmptyString :: splitlines rest
      else match splitlines rest with
           | l :: ls => String a l :: ls
           | [] => [String a EmptyString]
           end
  end.

(** [os.path.join(a, b)] on a POSIX system. *)
Definition path_join (a b : string) : string :=
  match b with
  | String "/"%char _ => b
  | _ => a ++ "/" ++ b
  end.

End Py.

(** ** Values, columns and frames *)

Inductive exn :=
| IndexError
| KeyError (key : string)
| AttributeError
| ValueError
| TypeError
| EmptyDataError
| ParserError
| FileNotFoundError (path : string)
| LoadJobError.

Inductive result (A : Type) :=
| Ok (a : A)
| Raise (e : exn).
Arguments Ok {A} a.
Arguments Raise {A} e.

Record Date := mkDate { year : Z; month : Z; day : Z }.

Inductive Dtype := float64 | int64 | uint64 | bool_ | object | datetime64.

(** What one slot of a column can hold.  [CNaN] is the missing marker,
    [CDate] a Python date object, [CTimestamp] a parsed date (midnight of
    that day), [CNaT] the missing date.  A [CFloat] carries the exact
    decimal value, in lowest terms; its rounding to a binary double is not
    modelled.  [CInf] is an infinite float. *)
Inductive cell :=
| CStr (s : string)
| CNaN
| CFloat (q : Q)
| CInf (negative : bool)
| CInt (z : Z)
| CBool (b : bool)
| CDate (d : Date)
| CTimestamp (d : Date)
| CNaT.

Record Series := mkSeries { dtype : Dtype; values : list cell }.

(** Columns in order; names may repeat once columns are renamed. *)
Record DataFrame := mkFrame { nrows : nat; columns : list (string * Series) }.

Definition dtype_eqb (a b : Dtype) : bool :=
  match a, b with
  | float64, float64 | int64, int64 | uint64, uint64
  | bool_, bool_ | object, object | datetime64, datetime64 => true
  | _, _ => false
  end.

(** ** The pandas calls of the script

    Each definition gives the documented behaviour of one library call on
    the inputs this script can pass to it. *)

Module pd.

Import Py.

Definition digit_of (a : ascii) : option Z :=
  let n := nat_of_ascii a in
  if ((48 <=? n) && (n <=? 57))%nat then Some (Z.of_nat (n - 48)) else None.

Definition is_digit (a : ascii) : bool :=
  match digit_of a with Some _ => true | None => false end.

Fixpoint all_digits (s : string) : bool :=
  match s with
  | EmptyString => true
  | String a rest => is_digit a && all_digits rest
  end.

Fixpoint digits_value (acc : Z) (s : string) : Z :=
  match s with
  | EmptyString => acc
  | String a rest =>
      digits_value (10 * acc + match digit_of a with Some d => d | None => 0 end) rest
  end.

Definition nonempty (s : string) : bool :=
  match s with EmptyString => false | _ => true end.

Definition is_some {A : Type} (o : option A) : bool :=
  match o with Some _ => true | None => false end.

(** A number read from text.  An integer literal keeps its exact value
    beside the float the parser makes of it. *)
Inductive number := NInt (z : Z) (q : Q) | NDec (q : Q).

(** White space as the C parsers see it. *)
Definition is_space (a : ascii) : bool :=
  let n := nat_of_ascii a in
  (n =? 32)%nat || ((9 <=? n) && (n <=? 13))%nat.

Fixpoint ltrim (s : string) : string :=
  match s with
  | EmptyString => EmptyString
  | String a rest => if is_space a then ltrim rest else s
  end.

Fixpoint rtrim (s : string) : string :=
  match s with
  | EmptyString => EmptyString
  | String a rest =>
      match rtrim rest with
      | EmptyString => if is_space a then EmptyString else String a EmptyString
      | r => String a r
      end
  end.

Definition trim (s : string) : string := rtrim (ltrim s).

(** The longest run of digits a text begins with, and what follows it. *)
Fixpoint take_digits (s : string) : string * string :=
  match s with
  | EmptyString => (EmptyString, EmptyString)
  | String a rest =>
      if is_digit a
      then let (d, r) := take_digits rest in (String a d, r)
      else (EmptyString, s)
  end.

(** The parser keeps the first 17 digits it meets. *)
Definition MAX_DIGITS : nat := 17.

(** What may follow the digits: nothing, or an exponent of one to 17
    digits, up to the end of the text.  [None] when something else
    follows. *)
Definition exponent_of (s : string) : option (option Z) :=
  match s with
  | EmptyString => Some None
  | String a r =>
      if Ascii.eqb a "e"%char || Ascii.eqb a "E"%char then
        let '(neg, d) := match r with
                         | String "-"%char d => (true, d)
                         | String "+"%char d => (false, d)
                         | _ => (false, r)
                         end in
        if all_digits d && nonempty d && (String.length d <=? MAX_DIGITS)%nat
        then Some (Some (if neg then (- digits_value 0 d)%Z else digits_value 0 d))
        else None
      else None
  end.

(** The first value too large for a double. *)
Definition DOUBLE_LIMIT : Z := 2 ^ 1024.

(** The mantissa [m] scaled by the power [e] of ten, in lowest terms. *)
Definition scale (m e : Z) : Q :=
  if (e <? 0)%Z then Qred (m # Z.to_pos (10 ^ (- e))) else (m * 10 ^ e) # 1.

(** The float of the digits [i] before and [f] after the point and the
    exponent [e]: the first 17 digits make the mantissa, an integer digit
    beyond them counts as a power of ten, a decimal beyond them is
    dropped.  A power of ten above 308, or a value too large for a double,
    is an error.  The value is the exact decimal of what is kept; its
    rounding to a binary double is not modelled. *)
Definition float_of_digits (i f : string) (e : Z) : option Q :=
  let kept := substring 0 MAX_DIGITS (i ++ f) in
  let beyond := (String.length i - MAX_DIGITS)%nat in
  let decimals := Nat.min (String.length f) (MAX_DIGITS - String.length i) in
  let e' := (Z.of_nat beyond - Z.of_nat decimals + e)%Z in
  let q := scale (digits_value 0 kept) e' in
  if (308 <? e')%Z || Qle_bool (DOUBLE_LIMIT # 1) q then None else Some q.

Definition split_sign (t : string) : bool * string :=
  match t with
  | String "-"%char r => (true, r)
  | String "+"%char r => (false, r)
  | _ => (false, t)
  end.

(** The digits before the point, whether there is a point, the digits
    after it, and what follows them. *)
Definition mantissa (s : string) : string * bool * string * string :=
  let (i, r1) := take_digits s in
  match r1 with
  | String "."%char r => let (f, r2) := take_digits r in (i, true, f, r2)
  | _ => (i, false, EmptyString, r1)
  end.

(** A numeric literal as the C parser of pandas reads it (the function
    behind [pd.to_numeric] on text and behind the float columns of
    [read_csv]): white space around it, an optional sign, digits with at
    most one point and a digit on at least one side of it, an optional
    exponent.  Without point and exponent it is an integer literal. *)
Definition parse_number (s : string) : option number :=
  let (neg, body) := split_sign (trim s) in
  let '(i, point, f, r2) := mantissa body in
  if nonempty (i ++ f) then
    match exponent_of r2 with
    | None => None
    | Some ex =>
        match float_of_digits i f (match ex with Some e => e | None => 0%Z end) with
        | None => None
        | Some q =>
            let q := if neg then Qopp q else q in
            if point || is_some ex then Some (NDec q)
            else Some (NInt (if neg then (- digits_value 0 i)%Z else digits_value 0 i) q)
        end
    end
  else None.

(** The float a number is. *)
Definition number_value (n : number) : Q :=
  match n with NInt _ q => q | NDec q => q end.

(** *** The text accessor and its regular-expression replace *)

Inductive kind := KStr | KBool | KNum | KDate | KNull.

Definition kind_of (c : cell) : kind :=
  match c with
  | CStr _ => KStr
  | CBool _ => KBool
  | CInt _ | CFloat _ | CInf _ => KNum
  | CDate _ | CTimestamp _ | CNaT => KDate
  | CNaN => KNull
  end.

Definition kind_eqb (a b : kind) : bool :=
  match a, b with
  | KStr, KStr | KBool, KBool | KNum, KNum | KDate, KDate | KNull, KNull => true
  | _, _ => false
  end.

Definition is_null (c : cell) : bool := kind_eqb (kind_of c) KNull.

(** The accessor [.str] first infers what an object column holds, missing
    slots aside: nothing at all, text, or a mixture of kinds is accepted;
    values that are all booleans, all numbers or all dates (the missing
    date counts as a date) are refused with the error that the accessor
    is for text values only. *)
Definition text_like (vals : list cell) : bool :=
  match filter (fun c => negb (is_null c)) vals with
  | [] => true
  | c :: rest =>
      kind_eqb (kind_of c) KStr
      || negb (forallb (fun c' => kind_eqb (kind_of c') (kind_of c)) rest)
  end.

Definition str_accessor (s : Series) : result (list cell) :=
  if dtype_eqb (dtype s) object && text_like (values s)
  then Ok (values s) else Raise AttributeError.

(** The characters the class [[^0-9.]] does not match. *)
Definition numeric_char (a : ascii) : bool := is_digit a || Ascii.eqb a "."%char.

(** [re.sub('[^0-9.]', '', s)] *)
Fixpoint sub_non_numeric (s : string) : string :=
  match s with
  | EmptyString => EmptyString
  | String a rest =>
      if numeric_char a then String a (sub_non_numeric rest)
      else sub_non_numeric rest
  end.

(** [.str.replace('[^0-9.]', '', regex=True)]: text is rewritten, any other
    slot becomes missing ([None]). *)
Definition str_replace_non_numeric (vals : list cell) : list (option string) :=
  map (fun c => match c with
                | CStr s => Some (sub_non_numeric s)
                | _ => None
                end) vals.

(** *** [pd.to_numeric] on a column of text and missing slots *)

Inductive ErrorsMode := errors_raise | errors_coerce.

Definition to_numeric_slot (errors : ErrorsMode) (v : option string)
  : result (option number) :=
  match v with
  | None => Ok None
  | Some EmptyString => Ok None
  | Some s =>
      match parse_number s with
      | Some n => Ok (Some n)
      | None =>
          match errors with
          | errors_coerce => Ok None
          | errors_raise => Raise ValueError
          end
      end
  end.

Fixpoint collect {A B : Type} (f : A -> result B) (l : list A) : result (list B) :=
  match l with
  | [] => Ok []
  | a :: rest =>
      match f a with
      | Raise e => Raise e
      | Ok b =>
          match collect f rest with
          | Raise e => Raise e
          | Ok bs => Ok (b :: bs)
          end
      end
  end.

Definition INT64_MIN : Z := - 2 ^ 63.
Definition INT64_MAX : Z := 2 ^ 63 - 1.
Definition UINT64_MAX : Z := 2 ^ 64 - 1.

Definition int_within (lo hi : Z) (v : option number) : bool :=
  match v with
  | Some (NInt z _) => (lo <=? z)%Z && (z <=? hi)%Z
  | _ => false
  end.

Definition float_cell (v : option number) : cell :=
  match v with Some n => CFloat (number_value n) | None => CNaN end.

Definition int_cell (v : option number) : cell :=
  match v with Some (NInt z _) => CInt z | _ => CNaN end.

(** The result is an integer column when every slot is an integer that
    fits, a float column otherwise. *)
Definition numeric_series (nums : list (option number)) : Series :=
  if forallb (int_within INT64_MIN INT64_MAX) nums
  then mkSeries int64 (map int_cell nums)
  else if forallb (int_within 0 UINT64_MAX) nums
  then mkSeries uint64 (map int_cell nums)
  else mkSeries float64 (map float_cell nums).

Definition to_numeric (vals : list (option string)) (errors : ErrorsMode)
  : result Series :=
  match collect (to_numeric_slot errors) vals with
  | Ok nums => Ok (numeric_series nums)
  | Raise e => Raise e
  end.

(** *** [pd.to_datetime] with the format [%d %b %Y]

    The library turns the format into a regular expression, matched
    without regard to letter case against the whole text, code point by
    code point: [%d] is [3[0-1]|[1-2]\d|0[1-9]|[1-9]| [1-9]], a blank is
    [\s+], [%b] is one of the twelve English abbreviations, [%Y] is
    [\d\d\d\d].  The classes [\s] and [\d] are the Unicode ones. *)

Definition continuation (a : ascii) : option N :=
  let b := N_of_ascii a in
  if ((128 <=? b) && (b <? 192))%N then Some (b - 128)%N else None.

(** The code points of a text in UTF-8; [None] when the bytes are not
    UTF-8. *)
Fixpoint code_points (s : string) : option (list N) :=
  match s with
  | EmptyString => Some []
  | String a r =>
      let b := N_of_ascii a in
      if (b <? 128)%N then option_map (cons b) (code_points r)
      else
        match r with
        | EmptyString => None
        | String a1 r1 =>
            match continuation a1 with
            | None => None
            | Some c1 =>
                if ((192 <=? b) && (b <? 224))%N
                then option_map (cons ((b - 192) * 64 + c1)%N) (code_points r1)
                else
                  match r1 with
                  | EmptyString => None
                  | String a2 r2 =>
                      match continuation a2 with
                      | None => None
                      | Some c2 =>
                          if ((224 <=? b) && (b <? 240))%N
                          then option_map
                                 (cons (((b - 224) * 64 + c1) * 64 + c2)%N)
                                 (code_points r2)
                          else
                            match r2 with
                            | EmptyString => None
                            | String a3 r3 =>
                                match continuation a3 with
                                | None => None
                                | Some c3 =>
                                    if ((240 <=? b) && (b <? 248))%N
                                    then option_map
                                           (cons ((((b - 240) * 64 + c1) * 64 + c2) * 64
                                                  + c3)%N)
                                           (code_points r3)
                                    else None
                                end
                            end
                      end
                  end
            end
        end
  end.

(** The class [\s]: the code points Python counts as white space. *)
Definition unicode_space (c : N) : bool :=
  (((9 <=? c) && (c <=? 13)) || ((28 <=? c) && (c <=? 32))
   || (c =? 133) || (c =? 160) || (c =? 5760)
   || ((8192 <=? c) && (c <=? 8202))
   || (c =? 8232) || (c =? 8233) || (c =? 8239) || (c =? 8287) || (c =? 12288))%N.

(** The class [\d]: each run of ten decimal digits of Unicode 15 starts at
    one of these code points. *)
Definition decimal_runs : list N :=
  [48; 1632; 1776; 1984; 2406; 2534; 2662; 2790; 2918; 3046; 3174; 3302;
   3430; 3558; 3664; 3792; 3872; 4160; 4240; 6112; 6160; 6470; 6608; 6784;
   6800; 6992; 7088; 7232; 7248; 42528; 43216; 43264; 43472; 43504; 43600;
   44016; 65296; 66720; 68912; 69734; 69872; 69942; 70096; 70384; 70736;
   70864; 71248; 71360; 71472; 71904; 72016; 72784; 73040; 73120; 73552;
   92768; 92864; 93008; 120782; 120792; 120802; 120812; 120822; 123200;
   123632; 124144; 125264; 130032]%N.

Definition unicode_digit (c : N) : option Z :=
  match find (fun r => ((r <=? c) && (c <? r + 10))%N) decimal_runs with
  | Some r => Some (Z.of_N (c - r))
  | None => None
  end.

Definition ascii_digit (c : N) : option Z :=
  if ((48 <=? c) && (c <=? 57))%N then Some (Z.of_N (c - 48)) else None.

Fixpoint skip_spaces (s : list N) : list N :=
  match s with
  | [] => []
  | c :: rest => if unicode_space c then skip_spaces rest else s
  end.

(** One or more white-space characters, as a blank in the format asks. *)
Definition spaces1 (s : list N) : option (list N) :=
  match s with
  | c :: rest => if unicode_space c then Some (skip_spaces rest) else None
  | [] => None
  end.

(** [%d]: the first alternative that matches.  A later alternative would
    leave a digit where the blank has to follow, so no other is tried. *)
Definition parse_day (s : list N) : option (Z * list N) :=
  match s with
  | [] => None
  | a :: rest =>
      let one :=
        match ascii_digit a with
        | Some x => if (1 <=? x)%Z then Some (x, rest) else None
        | None => None
        end in
      match rest with
      | [] => one
      | b :: rest' =>
          match ascii_digit a with
          | Some x =>
              if (x =? 3)%Z then
                match ascii_digit b with
                | Some y => if (y <=? 1)%Z then Some (30 + y, rest')%Z else one
                | None => one
                end
              else if ((1 <=? x) && (x <=? 2))%Z then
                match unicode_digit b with
                | Some y => Some (10 * x + y, rest')%Z
                | None => one
                end
              else if (x =? 0)%Z then
                match ascii_digit b with
                | Some y => if (1 <=? y)%Z then Some (y, rest') else None
                | None => None
                end
              else one
          | None =>
              if (a =? 32)%N then
                match ascii_digit b with
                | Some y => if (1 <=? y)%Z then Some (y, rest') else None
                | None => None
                end
              else None
          end
      end
  end.

Definition month_names : list string :=
  ["jan"; "feb"; "mar"; "apr"; "may"; "jun";
   "jul"; "aug"; "sep"; "oct"; "nov"; "dec"].

Fixpoint index_of (x : string) (l : list string) (i : Z) : option Z :=
  match l with
  | [] => None
  | y :: rest => if String.eqb x y then Some i else index_of x rest (i + 1)%Z
  end.

(** The small letter of an ASCII letter of either case. *)
Definition fold_case (c : N) : option ascii :=
  if ((65 <=? c) && (c <=? 90))%N then Some (ascii_of_N (c + 32))
  else if ((97 <=? c) && (c <=? 122))%N then Some (ascii_of_N c)
  else None.

(** [%b]: an abbreviated English month name in any letter case.  The
    expression also takes the long s for an s, but the library then looks
    the lowered text up among the twelve names and raises the same error
    as for a text that does not match. *)
Definition parse_month (s : list N) : option (Z * list N) :=
  match s with
  | a :: b :: c :: rest =>
      match fold_case a, fold_case b, fold_case c with
      | Some x, Some y, Some z =>
          match index_of (String x (String y (String z EmptyString))) month_names 1 with
          | Some m => Some (m, rest)
          | None => None
          end
      | _, _, _ => None
      end
  | _ => None
  end.

(** [%Y]: exactly four digits, and nothing after them. *)
Definition parse_year_end (s : list N) : option Z :=
  match s with
  | [a; b; c; d] =>
      match unicode_digit a, unicode_digit b, unicode_digit c, unicode_digit d with
      | Some x, Some y, Some z, Some u => Some (1000 * x + 100 * y + 10 * z + u)%Z
      | _, _, _, _ => None
      end
  | _ => None
  end.

Definition is_leap (y : Z) : bool :=
  ((y mod 4 =? 0) && (negb (y mod 100 =? 0) || (y mod 400 =? 0)))%Z.

Definition days_in_month (y m : Z) : Z :=
  if (m =? 2)%Z then (if is_leap y then 29 else 28)
  else if ((m =? 4) || (m =? 6) || (m =? 9) || (m =? 11))%Z then 30 else 31.

(** A date exists in the calendar and fits a nanosecond time stamp. *)
Definition valid_date (d : Date) : bool :=
  let code := (year d * 10000 + month d * 100 + day d)%Z in
  ((1 <=? day d) && (day d <=? days_in_month (year d) (month d))
   && (16770922 <=? code) && (code <=? 22620411))%Z.

Definition strptime (s : string) : option Date :=
  match code_points s with
  | None => None
  | Some s0 =>
      match parse_day s0 with
      | None => None
      | Some (d, s1) =>
          match spaces1 s1 with
          | None => None
          | Some s2 =>
              match parse_month s2 with
              | None => None
              | Some (m, s3) =>
                  match spaces1 s3 with
                  | None => None
                  | Some s4 =>
                      match parse_year_end s4 with
                      | None => None
                      | Some y =>
                          let date := mkDate y m d in
                          if valid_date date then Some date else None
                      end
                  end
              end
          end
      end
  end.

(** Text that stands for a missing date. *)
Definition nat_string (s : string) : bool :=
  existsb (String.eqb s) [""; "NaT"; "nat"; "NAT"; "nan"; "NaN"; "NAN"].

(** A float that no 64-bit integer holds. *)
Definition beyond_int64 (q : Q) : bool :=
  Qle_bool (2 ^ 63 # 1) q || Qle_bool q (- 2 ^ 63 # 1).

(** One slot: missing stays missing (and raises nothing); text must match
    the format.  A number is turned into text first and so never
    matches, with one exception: the integer [-2^63] is the library's own
    mark of a missing date, and a float column is cast to 64-bit integers
    before, where the cast of an infinity or of a float out of range
    gives that integer (on x86-64).  A boolean in an object column is
    turned into text too. *)
Definition to_datetime_slot (c : cell) : result cell :=
  match c with
  | CNaN | CNaT => Ok CNaT
  | CStr s =>
      if nat_string s then Ok CNaT
      else match strptime s with
           | Some d => Ok (CTimestamp d)
           | None => Raise ValueError
           end
  | CDate d | CTimestamp d => Ok (CTimestamp d)
  | CInt z => if (z =? INT64_MIN)%Z then Ok CNaT else Raise ValueError
  | CFloat q => if beyond_int64 q then Ok CNaT else Raise ValueError
  | CInf _ => Ok CNaT
  | CBool _ => Raise ValueError
  end.

(** [pd.to_datetime(col, format='%d %b %Y')]: a boolean column is refused
    for its type; otherwise the default is to raise on the first slot
    that does not convert. *)
Definition to_datetime (s : Series) : result Series :=
  if dtype_eqb (dtype s) bool_ then Raise TypeError else
  match collect to_datetime_slot (values s) with
  | Ok cells => Ok (mkSeries datetime64 cells)
  | Raise e => Raise e
  end.

(** *** [pd.read_csv(path, skiprows=n)]

    The tokenizer cuts the text into lines, a line break inside a quoted
    field belonging to the field.  The first [n] lines are dropped, blank
    lines are passed over, the next line names the columns and the others
    are rows.  Fields are separated by commas and may be quoted.  Line
    terminators are line feeds.  When the first row has more fields than
    the header has names, its first fields are row labels and the names
    go with the fields after them; a later row with more fields than
    that is a parser error, one with fewer is filled up with missing
    fields. *)

Inductive field_state := StartField | InField | InQuoted | QuoteInQuoted.

Definition cons_char (a : ascii) (fs : list string) : list string :=
  match fs with
  | f :: rest => String a f :: rest
  | [] => [String a EmptyString]
  end.

Fixpoint csv_fields (st : field_state) (s : string) : list string :=
  match s with
  | EmptyString => [EmptyString]
  | String a rest =>
      let comma := Ascii.eqb a ","%char in
      let quote := Ascii.eqb a dquote in
      match st with
      | StartField =>
          if quote then csv_fields InQuoted rest
          else if comma then EmptyString :: csv_fields StartField rest
          else cons_char a (csv_fields InField rest)
      | InField =>
          if comma then EmptyString :: csv_fields StartField rest
          else cons_char a (csv_fields InField rest)
      | InQuoted =>
          if quote then csv_fields QuoteInQuoted rest
          else cons_char a (csv_fields InQuoted rest)
      | QuoteInQuoted =>
          if quote then cons_char a (csv_fields InQuoted rest)
          else if comma then EmptyString :: csv_fields StartField rest
          else cons_char a (csv_fields InField rest)
      end
  end.

(** The state after one character that does not end the line.  In a line
    that is dropped, a quote opens a quoted stretch wherever it stands
    and commas count for nothing. *)
Definition next_state (dropped : bool) (st : field_state) (a : ascii) : field_state :=
  let comma := Ascii.eqb a ","%char && negb dropped in
  let quote := Ascii.eqb a dquote in
  match st with
  | StartField =>
      if quote then InQuoted else if comma then StartField else InField
  | InField =>
      if quote && dropped then InQuoted else if comma then StartField else InField
  | InQuoted =>
      if quote then QuoteInQuoted else InQuoted
  | QuoteInQuoted =>
      if quote then InQuoted else if comma then StartField else InField
  end.

Definition in_quotes (st : field_state) : bool :=
  match st with InQuoted => true | _ => false end.

(** The lines of a text as the tokenizer cuts them, without their
    terminators; the first [skip] of them are read as lines to drop.  A
    final terminator opens no further line. *)
Fixpoint logical_lines (skip : nat) (st : field_state) (content : string)
  : list string :=
  match content with
  | EmptyString => []
  | String a rest =>
      if Ascii.eqb a newline && negb (in_quotes st)
      then EmptyString :: logical_lines (Nat.pred skip) StartField rest
      else match logical_lines skip (next_state (0 <? skip)%nat st a) rest with
           | l :: ls => String a l :: ls
           | [] => [String a EmptyString]
           end
  end.

(** Whether the text ends inside a quoted field of a line that is kept. *)
Fixpoint open_quote (skip : nat) (st : field_state) (content : string) : bool :=
  match content with
  | EmptyString => (skip =? 0)%nat && in_quotes st
  | String a rest =>
      if Ascii.eqb a newline && negb (in_quotes st)
      then open_quote (Nat.pred skip) StartField rest
      else open_quote skip (next_state (0 <? skip)%nat st a) rest
  end.

Fixpoint blank_line (s : string) : bool :=
  match s with
  | EmptyString => true
  | String a rest =>
      (Ascii.eqb a " "%char || Ascii.eqb a "009"%char) && blank_line rest
  end.

(** The field texts read as missing. *)
Definition na_values : list string :=
  [""; "#N/A"; "#N/A N/A"; "#NA"; "-1.#IND"; "-1.#QNAN"; "-NaN"; "-nan";
   "1.#IND"; "1.#QNAN"; "<NA>"; "N/A"; "NA"; "NULL"; "NaN"; "None"; "n/a";
   "nan"; "null"].

Definition is_na (s : string) : bool := existsb (String.eqb s) na_values.

Definition parse_bool (s : string) : option bool :=
  if existsb (String.eqb s) ["True"; "TRUE"; "true"] then Some true
  else if existsb (String.eqb s) ["False"; "FALSE"; "false"] then Some false
  else None.

(** The spellings of infinity, in any letter case. *)
Definition parse_inf (s : string) : option bool :=
  let t := lower s in
  if existsb (String.eqb t) ["inf"; "+inf"; "infinity"; "+infinity"] then Some false
  else if existsb (String.eqb t) ["-inf"; "-infinity"] then Some true
  else None.

Definition is_int_literal (s : string) : bool :=
  match parse_number s with Some (NInt _ _) => true | _ => false end.

Definition is_int64_literal (s : string) : bool :=
  int_within INT64_MIN INT64_MAX (parse_number s).

Definition is_float_literal (s : string) : bool :=
  is_some (parse_number s) || is_some (parse_inf s).

Definition float_field (s : string) : cell :=
  match parse_number s with
  | Some n => CFloat (number_value n)
  | None => match parse_inf s with
            | Some neg => CInf neg
            | None => CNaN
            end
  end.

(** The first field, if any, that is not an integer of 64 bits. *)
Definition first_non_int64 (present : list string) : option string :=
  find (fun s => negb (is_int64_literal s)) present.

Definition text_cells (slots : list (option string)) : list cell :=
  map (fun f => match f with Some s => CStr s | None => CNaN end) slots.

(** The type of a column is found from its fields, missing ones aside.
    The integer reader goes through them in order; it yields an integer
    column when every field is an integer of 64 bits and none is
    missing.  When it stops at an integer too large for 64 bits, the
    column is one of unsigned integers if every field is one and none is
    missing, and a text column otherwise.  Else the fields are read as
    floats, then as booleans, else kept as text.  A column without rows
    is an object column; a boolean column with gaps is an object column
    of booleans and missing markers. *)
Definition infer_column (fields : list (option string)) : Series :=
  let slots := map (fun f => match f with
                             | Some s => if is_na s then None else Some s
                             | None => None
                             end) fields in
  let present := flat_map (fun f => match f with Some s => [s] | None => [] end) slots in
  let gaps := existsb (fun f => negb (is_some f)) slots in
  let numbers := map (fun f => match f with
                               | Some s => parse_number s
                               | None => None
                               end) slots in
  match fields with
  | [] => mkSeries object []
  | _ =>
      match first_non_int64 present with
      | None =>
          if gaps
          then mkSeries float64 (map float_cell numbers)
          else mkSeries int64 (map int_cell numbers)
      | Some s =>
          if is_int_literal s then
            if forallb (fun n => int_within 0 UINT64_MAX n) numbers
            then mkSeries uint64 (map int_cell numbers)
            else mkSeries object (text_cells slots)
          else if forallb is_float_literal present then
            mkSeries float64
              (map (fun f => match f with
                             | Some s => float_field s
                             | None => CNaN
                             end) slots)
          else if forallb (fun s => is_some (parse_bool s)) present then
            mkSeries (if gaps then object else bool_)
              (map (fun f => match f with
                             | Some s => match parse_bool s with
                                         | Some b => CBool b
                                         | None => CNaN
                                         end
                             | None => CNaN
                             end) slots)
          else
            mkSeries object (text_cells slots)
      end
  end.

Definition nat_to_string (n : nat) : string :=
  NilEmpty.string_of_uint (Nat.to_uint n).

Definition count_occ_string (x : string) (l : list string) : nat :=
  List.length (filter (String.eqb x) l).

(** Column names: an empty one is numbered, a repeated one gets the count
    of its earlier occurrences as a suffix. *)
Fixpoint mangle_names (seen : list string) (i : nat) (names : list string)
  : list string :=
  match names with
  | [] => []
  | n :: rest =>
      let n0 := match n with
                | EmptyString => "Unnamed: " ++ nat_to_string i
                | _ => n
                end in
      let k := count_occ_string n0 seen in
      (match k with
       | O => n0
       | _ => n0 ++ "." ++ nat_to_string k
       end) :: mangle_names (n0 :: seen) (S i) rest
  end.

(** The fields a row is expected to have, and how many of them are row
    labels. *)
Definition row_width (names : list string) (records : list (list string)) : nat :=
  match records with
  | [] => List.length names
  | r :: _ => Nat.max (List.length names) (List.length r)
  end.

Definition leading_cols (names : list string) (records : list (list string)) : nat :=
  row_width names records - List.length names.

Definition read_csv (content : string) (skiprows : nat) : result DataFrame :=
  if open_quote skiprows StartField content then Raise ParserError else
  match filter (fun l => negb (blank_line l))
          (skipn skiprows (logical_lines skiprows StartField content)) with
  | [] => Raise EmptyDataError
  | header :: rows =>
      let names := mangle_names [] 0 (csv_fields StartField header) in
      let records := map (csv_fields StartField) rows in
      let lead := leading_cols names records in
      if existsb (fun r => (row_width names records <? List.length r)%nat) records
      then Raise ParserError
      else
        Ok (mkFrame (List.length records)
              (map (fun '(i, name) =>
                      (name,
                       infer_column (map (fun r => nth_error r (lead + i)) records)))
                   (combine (seq 0 (List.length names)) names)))
  end.

End pd.

Import Py.

(** *** Frames *)

Definition column_named (name : string) (data : DataFrame) : list Series :=
  map snd (filter (fun p => String.eqb (fst p) name) (columns data)).

(** [data[name]]: a missing name raises; a name carried by several columns
    yields a frame, not a column, and the next attribute or conversion
    asked of it raises. *)
Definition getitem (data : DataFrame) (name : string) : result Series :=
  match column_named name data with
  | [] => Raise (KeyError name)
  | [s] => Ok s
  | _ => Raise AttributeError
  end.

(** [data[name] = col]: replaces the columns of that name where they
    stand, or adds a last column. *)
Definition setitem (data : DataFrame) (name : string) (col : Series) : DataFrame :=
  match column_named name data with
  | [] => mkFrame (nrows data) (columns data ++ [(name, col)])
  | _ =>
      mkFrame (nrows data)
        (map (fun p => if String.eqb (fst p) name then (name, col) else p)
             (columns data))
  end.

(** A scalar assigned to a column fills every row with that one object. *)
Definition broadcast (data : DataFrame) (c : cell) : Series :=
  mkSeries object (repeat c (nrows data)).

(** [data.columns.str.replace(' ', '_').str.lower()] *)
Definition normalize_name (name : string) : string :=
  lower (replace_char " "%char "_"%char name).

Definition rename_columns (data : DataFrame) : DataFrame :=
  mkFrame (nrows data)
    (map (fun p => (normalize_name (fst p), snd p)) (columns data)).

(** ** The remote table *)

Inductive FieldType := STRING | FLOAT64 | DATE.

Record SchemaField := mkField { field_name : string; field_type : FieldType }.

Definition schema : list SchemaField :=
  [ mkField "account_name" STRING;
    mkField "date" DATE;
    mkField "transaction_type" STRING;
    mkField "description" STRING;
    mkField "paid_out" FLOAT64;
    mkField "paid_in" FLOAT64;
    mkField "balance" FLOAT64;
    mkField "date_uploaded" DATE ].

Inductive BqValue :=
| BNull
| BString (s : string)
| BFloat (x : Q)
| BInf (negative : bool)
| BDate (d : Date).

(** A stored row: one value per schema field, in schema order. *)
Definition Row := list BqValue.

(** The value stored for a slot of a column that the field takes (see
    [fits] below); a missing slot is stored as NULL. *)
Definition bq_cast (t : FieldType) (c : cell) : BqValue :=
  match t, c with
  | STRING, CStr s => BString s
  | FLOAT64, CFloat x => BFloat x
  | FLOAT64, CInf neg => BInf neg
  | FLOAT64, CInt z => BFloat (z # 1)
  | FLOAT64, CBool b => BFloat (if b then 1 else 0)
  | DATE, CDate d => BDate d
  | DATE, CTimestamp d => BDate d
  | _, _ => BNull
  end.

Definition frame_row (data : DataFrame) (i : nat) : Row :=
  map (fun f =>
         match column_named (field_name f) data with
         | s :: _ => bq_cast (field_type f) (nth i (values s) CNaN)
         | [] => BNull
         end) schema.

Definition frame_rows (data : DataFrame) : list Row :=
  map (frame_row data) (seq 0 (nrows data)).

(** A load job needs each schema field to name exactly one column. *)
Definition schema_fits (data : DataFrame) : bool :=
  forallb (fun f => (List.length (column_named (field_name f) data) =? 1)%nat) schema.

(** The columns the client converts to a field type: text and gaps for a
    string field; floats, integers or booleans for a float field; parsed
    dates, or date objects and gaps, for a date field. *)
Definition fits (t : FieldType) (s : Series) : bool :=
  match t with
  | STRING =>
      dtype_eqb (dtype s) object
      && forallb (fun c => match c with CStr _ | CNaN => true | _ => false end)
           (values s)
  | FLOAT64 =>
      dtype_eqb (dtype s) float64 || dtype_eqb (dtype s) int64
      || dtype_eqb (dtype s) uint64 || dtype_eqb (dtype s) bool_
  | DATE =>
      dtype_eqb (dtype s) datetime64
      || (dtype_eqb (dtype s) object
          && forallb (fun c => match c with CDate _ | CNaN => true | _ => false end)
               (values s))
  end.

(** The conversion of the frame refuses a column of another kind. *)
Definition types_fit (data : DataFrame) : bool :=
  forallb (fun f => forallb (fits (field_type f)) (column_named (field_name f) data))
    schema.

Definition Date_eq_dec (a b : Date) : {a = b} + {a <> b}.
Proof. decide equality; apply Z.eq_dec. Defined.

Definition Q_eq_dec (a b : Q) : {a = b} + {a <> b}.
Proof. decide equality; [apply Pos.eq_dec | apply Z.eq_dec]. Defined.

Definition BqValue_eq_dec (a b : BqValue) : {a = b} + {a <> b}.
Proof.
  decide equality;
    [apply string_dec | apply Q_eq_dec | apply bool_dec | apply Date_eq_dec].
Defined.

Definition Row_eq_dec : forall a b : Row, {a = b} + {a <> b} :=
  list_eq_dec BqValue_eq_dec.

(** [SELECT DISTINCT *]: one copy of every row. *)
Definition select_distinct (t : list Row) : list Row := nodup Row_eq_dec t.

(** ** The world the script runs in *)

Inductive Msg :=
| MsgDtype (d : Dtype)
| MsgUploaded (file_path : string)
| MsgAllProcessed
| MsgDuplicatesRemoved (n : Z).

(** What a run does to the outside, in order. *)
Inductive Event :=
| Opened (file_path : string)
| LoadJob (rows : list Row)
| DedupCalled.

Record World := mkWorld {
  listing : option (list string);      (* the entries of the directory, if it exists *)
  files : string -> option string;     (* the text of each file *)
  clock : nat -> Date;                 (* the date shown at each reading *)
  reads : nat;                         (* readings of the clock so far *)
  load_accepts : DataFrame -> bool;    (* the store's verdict on a load job *)
  table : list Row;                    (* the remote table *)
  console : list Msg;                  (* printed lines, oldest first *)
  trace : list Event                   (* oldest first *)
}.

Definition set_reads (n : nat) (w : World) : World :=
  mkWorld (listing w) (files w) (clock w) n (load_accepts w)
          (table w) (console w) (trace w).

Definition set_table (t : list Row) (w : World) : World :=
  mkWorld (listing w) (files w) (clock w) (reads w) (load_accepts w)
          t (console w) (trace w).

Definition set_console (c : list Msg) (w : World) : World :=
  mkWorld (listing w) (files w) (clock w) (reads w) (load_accepts w)
          (table w) c (trace w).

Definition set_trace (t : list Event) (w : World) : World :=
  mkWorld (listing w) (files w) (clock w) (reads w) (load_accepts w)
          (table w) (console w) t.

(** A computation reads and changes the world and returns or raises; what
    it did before raising stays done. *)
Definition M (A : Type) : Type := World -> result A * World.

Definition ret {A : Type} (a : A) : M A := fun w => (Ok a, w).

Definition bind {A B : Type} (c : M A) (k : A -> M B) : M B :=
  fun w =>
    match c w with
    | (Ok a, w') => k a w'
    | (Raise e, w') => (Raise e, w')
    end.

Notation "x <- c ;; k" := (bind c (fun x => k))
  (at level 61, c at next level, right associativity).
Notation "c ;; k" := (bind c (fun _ => k))
  (at level 61, right associativity).

Definition lift {A : Type} (r : result A) : M A := fun w => (r, w).

Definition print (m : Msg) : M unit :=
  fun w => (Ok tt, set_console (console w ++ [m]) w).

Definition log (e : Event) : M unit :=
  fun w => (Ok tt, set_trace (trace w ++ [e]) w).

Fixpoint for_each {A : Type} (l : list A) (body : A -> M unit) : M unit :=
  match l with
  | [] => ret tt
  | a :: rest => body a ;; for_each rest body
  end.

(** [open(file_path, 'r')] and reading the text. *)
Definition open_read (file_path : string) : M string :=
  fun w =>
    match files w file_path with
    | Some content => (Ok content, set_trace (trace w ++ [Opened file_path]) w)
    | None => (Raise (FileNotFoundError file_path), w)
    end.

(** [datetime.now().date()]: one reading of the clock. *)
Definition now_date : M Date :=
  fun w => (Ok (clock w (reads w)), set_reads (S (reads w)) w).

(** [os.listdir(path)], for the one directory of the world. *)
Definition listdir (path : string) : M (list string) :=
  fun w =>
    match listing w with
    | Some entries => (Ok entries, w)
    | None => (Raise (FileNotFoundError path), w)
    end.

(** [client.load_table_from_dataframe(...)] with the append disposition,
    followed by [job.result()]: all rows are added, or an error is raised
    and no row is added.  The job is refused when a schema field names no
    column of the frame or several, when a column is not of a kind its
    field takes, or when the store says so. *)
Definition load_table_from_dataframe (data : DataFrame) : M unit :=
  fun w =>
    if schema_fits data && types_fit data && load_accepts w data
    then (Ok tt, set_trace (trace w ++ [LoadJob (frame_rows data)])
                   (set_table (table w ++ frame_rows data) w))
    else (Raise LoadJobError, w).

(** ** The script *)

Definition CSV_DIRECTORY : string := "exports".

Definition extract_account_name (summary_row : string) : result string :=
  match nth_error (split ","%char summary_row) 1 with
  | Some field => Ok (strip dquote field)
  | None => Raise IndexError
  end.

Definition currency_to_float (currency_series : Series) : M Series :=
  if dtype_eqb (dtype currency_series) float64 then
    ret currency_series
  else if dtype_eqb (dtype currency_series) object then
    vals <- lift (pd.str_accessor currency_series) ;;
    let cleaned_series := pd.str_replace_non_numeric vals in
    lift (pd.to_numeric cleaned_series pd.errors_coerce)
  else
    print (MsgDtype (dtype currency_series)) ;;
    ret currency_series.

(** The column work of [process_csv_file], from the frame just read to the
    frame handed to the load job. *)
Definition normalize (account_name : string) (data : DataFrame) : M DataFrame :=
  let data := setitem data "account_name" (broadcast data (CStr account_name)) in
  today <- now_date ;;
  let data := setitem data "date_uploaded" (broadcast data (CDate today)) in
  let data := rename_columns data in
  paid_out <- lift (getitem data "paid_out") ;;
  paid_out <- currency_to_float paid_out ;;
  let data := setitem data "paid_out" paid_out in
  paid_in <- lift (getitem data "paid_in") ;;
  paid_in <- currency_to_float paid_in ;;
  let data := setitem data "paid_in" paid_in in
  balance <- lift (getitem data "balance") ;;
  balance <- currency_to_float balance ;;
  let data := setitem data "balance" balance in
  date <- lift (getitem data "date") ;;
  date <- lift (pd.to_datetime date) ;;
  ret (setitem data "date" date).

Definition process_csv_file (file_path : string) : M unit :=
  content <- open_read file_path ;;
  account_name <- lift (extract_account_name (readline content)) ;;
  data <- lift (pd.read_csv content 4) ;;
  data <- normalize account_name data ;;
  load_table_from_dataframe data ;;
  print (MsgUploaded file_path).

(** [SELECT COUNT( * )]: the query is taken to complete. *)
Definition get_table_row_count : M Z :=
  fun w => (Ok (Z.of_nat (List.length (table w))), w).

(** [CREATE OR REPLACE TABLE t AS SELECT DISTINCT * FROM t]: the query is
    taken to complete. *)
Definition rewrite_distinct : M unit :=
  fun w => (Ok tt, set_table (select_distinct (table w)) w).

(** The first step records the call in the trace; the others are the
    statements of the function. *)
Definition remove_duplicates : M unit :=
  log DedupCalled ;;
  initial_count <- get_table_row_count ;;
  rewrite_distinct ;;
  final_count <- get_table_row_count ;;
  let duplicates_removed := (initial_count - final_count)%Z in
  print (MsgDuplicatesRemoved duplicates_removed).

(** The loop over the directory. *)
Definition process_directory (entries : list string) : M unit :=
  for_each entries (fun filename =>
    if endswith filename ".csv"
    then process_csv_file (path_join CSV_DIRECTORY filename)
    else ret tt).

(** The module-level code after the definitions. *)
Definition main : M unit :=
  entries <- listdir CSV_DIRECTORY ;;
  process_directory entries ;;
  print MsgAllProcessed ;;
  remove_duplicates.

(** ** Sample inputs *)

(** A quoted field, and the line terminator. *)
Definition quoted (s : string) : string := String dquote (s ++ String dquote EmptyString).
Definition nl : string := String newline EmptyString.

(** A statement as the bank exports it: three summary lines, a blank line,
    the header and the rows. *)
Definition statement (rows : string) : string :=
  quoted "Account Name:" ++ "," ++ quoted "My Account" ++ nl ++
  quoted "Account Balance:" ++ "," ++ quoted "£1,239.56" ++ nl ++
  quoted "Available Balance:" ++ "," ++ quoted "£1,239.56" ++ nl ++
  nl ++
  quoted "Date" ++ "," ++ quoted "Transaction type" ++ "," ++
  quoted "Description" ++ "," ++ quoted "Paid out" ++ "," ++
  quoted "Paid in" ++ "," ++ quoted "Balance" ++ nl ++
  rows.

Definition row (date kind description paid_out paid_in balance : string) : string :=
  quoted date ++ "," ++ quoted kind ++ "," ++ quoted description ++ "," ++
  quoted paid_out ++ "," ++ quoted paid_in ++ "," ++ quoted balance ++ nl.

(** A directory [exports] holding the given files. *)
Definition world_of (entries : list (string * string)) (clock : nat -> Date) : World :=
  mkWorld (Some (map fst entries))
    (fun path =>
       match find (fun e => String.eqb (path_join "exports" (fst e)) path) entries with
       | Some e => Some (snd e)
       | None => None
       end)
    clock 0 (fun _ => true) [] [] [].

(** A directory with one statement whose summary line has no comma. *)
Definition world_bad_summary : World :=
  world_of [("a.csv", "Account Name: My Account" ++ nl)] (fun _ => mkDate 2024 1 5).

(** Two statements, processed on either side of midnight. *)
Definition world_midnight : World :=
  world_of
    [("a.csv", statement (row "05 Jan 2024" "Visa" "TESCO" "£50.00" "" "£1,239.56"));
     ("b.csv", statement (row "06 Jan 2024" "Transfer" "From A" "" "£5.00" "£1,244.56"))]
    (fun n => match n with O => mkDate 2024 1 31 | _ => mkDate 2024 2 1 end).

(** Two statements, of two rows and of one row, and a clock that shows one
    day at its first two readings and the next day afterwards. *)
Definition world_two_statements : World :=
  world_of
    [("a.csv", statement (row "05 Jan 2024" "Visa" "TESCO" "£50.00" "" "£1,239.56"
                          ++ row "06 Jan 2024" "Visa" "CAFE" "£4.56" "" "£1,235.00"));
     ("b.csv", statement (row "06 Jan 2024" "Transfer" "From A" "" "£5.00" "£1,244.56"))]
    (fun n => if (n <? 2)%nat then mkDate 2024 1 31 else mkDate 2024 2 1).

(** A statement whose summary line has no comma, followed in the
    directory by a statement in good order. *)
Definition world_stopped : World :=
  world_of
    [("a.csv", "Account Name: My Account" ++ nl);
     ("b.csv", statement (row "06 Jan 2024" "Transfer" "From A" "" "£5.00" "£1,244.56"))]
    (fun _ => mkDate 2024 1 5).

(** A statement that ends with its header line, and a store that takes a
    load job only when it has no rows. *)
Definition world_header_only : World :=
  mkWorld (Some ["a.csv"])
    (fun path => if String.eqb path "exports/a.csv" then Some (statement "") else None)
    (fun _ => mkDate 2024 1 5) 0 (fun data => (nrows data =? 0)%nat) [] [] [].

(** One statement whose one row has a description of two lines. *)
Definition world_long_description : World :=
  world_of
    [("a.csv", statement (row "05 Jan 2024" "Visa" ("TESCO" ++ nl ++ "EXPRESS")
                            "£50.00" "" "£1,239.56"))]
    (fun _ => mkDate 2024 1 5).

(** One statement, and a clock that shows one day. *)
Definition world_one_statement : World :=
  world_of
    [("a.csv", statement (row "05 Jan 2024" "Visa" "TESCO" "£50.00" "" "£1,239.56"))]
    (fun _ => mkDate 2024 1 5).

(** A directory without any statement. *)
Definition world_no_csv : World :=
  world_of [("notes.txt", "hello"); ("OLD.CSV", statement "")] (fun _ => mkDate 2024 1 5).

(** The frame read from a statement that ends with its header line. *)
Definition header_frame (header : string) : DataFrame :=
  mkFrame 0
    (map (fun name => (name, mkSeries object []))
         (pd.mangle_names [] 0 (pd.csv_fields pd.StartField header))).


(** A statement whose paid-out fields read True and empty. *)
Definition statement_boolean_amounts : string :=
  statement (row "05 Jan 2024" "Visa" "TESCO" "True" "" "£1,189.56"
             ++ row "06 Jan 2024" "Transfer" "From A" "" "£5.00" "£1,194.56").

(** Four lines and nothing after them. *)
Definition statement_four_lines : string :=
  quoted "Account Name:" ++ "," ++ quoted "My Account" ++ nl ++
  quoted "Account Balance:" ++ "," ++ quoted "£1,239.56" ++ nl ++
  quoted "Available Balance:" ++ "," ++ quoted "£1,239.56" ++ nl ++
  nl.

(** A column of text. *)
Definition text_column (texts : list string) : Series :=
  mkSeries object (map CStr texts).

(** The number a numeric slot stands for. *)
Definition cell_value (c : cell) : option Q :=
  match c with
  | CFloat x => Some x
  | CInt z => Some (z # 1)
  | _ => None
  end.

(** A world with no directory and no file, an empty table, a clock that
    always shows one day and a store that accepts every job. *)
Definition quiet_world : World :=
  mkWorld None (fun _ => None) (fun _ => mkDate 2024 1 5) 0 (fun _ => true) [] [] [].

(** The numbers the text branch of [currency_to_float] reads, slot by slot. *)
Definition cleaned_numbers (vals : list cell) : list (option pd.number) :=
  map (fun v => match v with
                | Some t => pd.parse_number t
                | None => None
                end) (pd.str_replace_non_numeric vals).

(** Whether a character occurs in a text. *)
Fixpoint contains (c : ascii) (s : string) : bool :=
  match s with
  | EmptyString => false
  | String a rest => Ascii.eqb a c || contains c rest
  end.

(** The frame of [process_csv_file] once the two derived columns are
    added and the columns renamed. *)
Definition prepared (account_name : string) (today : Date) (data : DataFrame)
  : DataFrame :=
  rename_columns
    (setitem (setitem data "account_name" (broadcast data (CStr account_name)))
       "date_uploaded"
       (broadcast (setitem data "account_name" (broadcast data (CStr account_name)))
          (CDate today))).

(** Readings of a trace. *)
Definition dedup_calls (evs : list Event) : nat :=
  List.length (filter (fun e => match e with DedupCalled => true | _ => false end) evs).

Definition opened_paths (evs : list Event) : list string :=
  flat_map (fun e => match e with Opened p => [p] | _ => [] end) evs.

(** The events of one file that was read and uploaded. *)
Definition file_block (b : string * list Row) : list Event :=
  [Opened (fst b); LoadJob (snd b)].

(** The entries the loop hands to [process_csv_file], as paths. *)
Definition selected_paths (entries : list string) : list string :=
  map (path_join CSV_DIRECTORY) (filter (fun f => endswith f ".csv") entries).

(** Two worlds that differ at most in the console and the clock readings. *)
Definition same_store (w w' : World) : Prop :=
  listing w' = listing w /\ files w' = files w /\ clock w' = clock w
  /\ load_accepts w' = load_accepts w /\ table w' = table w /\ trace w' = trace w.

(** The surroundings of a run, which no step changes. *)
Definition same_env (w w' : World) : Prop :=
  listing w' = listing w /\ files w' = files w /\ clock w' = clock w
  /\ load_accepts w' = load_accepts w.

(** Every column of a frame is the empty object column. *)
Definition blank_columns (data : DataFrame) : Prop :=
  nrows data = 0%nat /\ forall s, In s (map snd (columns data)) -> s = mkSeries object [].

(** The field of a stored row that holds the upload date. *)
Definition date_uploaded_of (r : Row) : BqValue := nth 7 r BNull.

(** Whether a text begins, or ends, with a character. *)
Definition starts_with (c : ascii) (s : string) : bool :=
  match s with
  | String a _ => Ascii.eqb a c
  | EmptyString => false
  end.

Fixpoint ends_with (c : ascii) (s : string) : bool :=
  match s with
  | EmptyString => false
  | String a EmptyString => Ascii.eqb a c
  | String _ rest => ends_with c rest
  end.

(** How often a character occurs in a text, and whether a text holds a
    digit. *)
Fixpoint count_char (c : ascii) (s : string) : nat :=
  match s with
  | EmptyString => 0
  | String a rest => (if Ascii.eqb a c then 1 else 0) + count_char c rest
  end.

Fixpoint has_digit (s : string) : bool :=
  match s with
  | EmptyString => false
  | String a rest => pd.is_digit a || has_digit rest
  end.

(** The diagnostic lines of the normalizer. *)
Definition is_diagnostic (m : Msg) : bool :=
  match m with MsgDtype _ => true | _ => false end.

(** How many columns of a frame carry a name once names are normalised. *)
Definition count_normalized (name : string) (data : DataFrame) : nat :=
  List.length
    (filter (fun p => String.eqb (normalize_name (fst p)) name) (columns data)).

(** The columns a statement itself has to bring. *)
Definition statement_columns : list string :=
  ["date"; "transaction_type"; "description"; "paid_out"; "paid_in"; "balance"].

(** Two worlds with the same directory, files and store verdicts. *)
Definition same_inputs (w1 w2 : World) : Prop :=
  listing w1 = listing w2 /\ files w1 = files w2
  /\ load_accepts w1 = load_accepts w2.

(** The clock shows one date at every reading made between a world and a
    later one. *)
Definition shows (today : Date) (w w' : World) : Prop :=
  forall n, (reads w <= n < reads w')%nat -> clock w n = today.

(** A computation that never turns the clock back nor changes the
    surroundings, and that, from two worlds with the same inputs in each
    of which every reading it makes shows the one date, ends the same
    way and appends the same rows to the table. *)
Definition agrees {A : Type} (today : Date) (c : M A) : Prop :=
  (forall w, (reads w <= reads (snd (c w)))%nat /\ same_env w (snd (c w)))
  /\ forall w1 w2,
       same_inputs w1 w2 ->
       shows today w1 (snd (c w1)) -> shows today w2 (snd (c w2)) ->
       fst (c w1) = fst (c w2)
       /\ exists rows,
            table (snd (c w1)) = (table w1 ++ rows)%list
            /\ table (snd (c w2)) = (table w2 ++ rows)%list.

(** The console of the second world is that of the first with diagnostic
    lines added. *)
Definition diagnostics_added (w w' : World) : Prop :=
  exists msgs, console w' = (console w ++ msgs)%list
               /\ forallb is_diagnostic msgs = true.

(** The field of a stored row that holds the account name. *)
Definition account_name_of (r : Row) : BqValue := nth 0 r BNull.

(** The lines printed while files are processed, and the paths named in
    the upload lines among them. *)
Definition is_file_message (m : Msg) : bool :=
  match m with MsgDtype _ | MsgUploaded _ => true | _ => false end.

Definition uploaded_paths (msgs : list Msg) : list string :=
  flat_map (fun m => match m with MsgUploaded p => [p] | _ => [] end) msgs.

(** How many digits a text holds. *)
Fixpoint count_digits (s : string) : nat :=
  match s with
  | EmptyString => 0
  | String a rest => (if pd.is_digit a then 1 else 0) + count_digits rest
  end.

(** The number that a text of digits and points spells: its digits read
    in base ten, those after the point as decimals.  A text without a
    digit, or with several points, spells none. *)
Definition amount (u : string) : option Q :=
  match split "."%char u with
  | [i] => if pd.nonempty i then Some (pd.digits_value 0 i # 1) else None
  | [i; f] =>
      if pd.nonempty (i ++ f)
      then Some (Qred (pd.digits_value 0 (i ++ f)
                         # Z.to_pos (10 ^ Z.of_nat (String.length f))))
      else None
  | _ => None
  end.





(** The lines of a statement that [read_csv] keeps. *)
Definition kept_lines (content : string) : list string :=
  filter (fun l => negb (pd.blank_line l))
    (skipn 4 (pd.logical_lines 4 pd.StartField content)).

(** Whether a text is written in ASCII. *)
Fixpoint is_ascii (s : string) : bool :=
  match s with
  | EmptyString => true
  | String a rest => (nat_of_ascii a <? 128)%nat && is_ascii rest
  end.

(** The same two statements, and a clock that shows one day at its first
    four readings and the next day afterwards. *)
Definition world_rerun : World :=
  world_of
    [("a.csv", statement (row "05 Jan 2024" "Visa" "TESCO" "£50.00" "" "£1,239.56"
                          ++ row "06 Jan 2024" "Visa" "CAFE" "£4.56" "" "£1,235.00"));
     ("b.csv", statement (row "06 Jan 2024" "Transfer" "From A" "" "£5.00" "£1,244.56"))]
    (fun n => if (n <? 4)%nat then mkDate 2024 1 31 else mkDate 2024 2 1).

(** Whether a text holds a capital ASCII letter. *)
Fixpoint has_capital (s : string) : bool :=
  match s with
  | EmptyString => false
  | String a rest =>
      ((65 <=? nat_of_ascii a) && (nat_of_ascii a <=? 90))%nat || has_capital rest
  end.

(** * Properties *)

(** ** Text lemmas *)

Lemma digit_not_point a : pd.is_digit a = true -> Ascii.eqb a "."%char = false.
Proof.
  intros H. destruct (Ascii.eqb_spec a "."%char) as [->|]; [discriminate H | reflexivity].
Qed.

Lemma all_digits_app s t :
  pd.all_digits (s ++ t) = pd.all_digits s && pd.all_digits t.
Proof.
  induction s as [|a s IH]; simpl; [reflexivity|].
  rewrite IH. now rewrite andb_assoc.
Qed.

Lemma split_digits f : pd.all_digits f = true -> split "."%char f = [f].
Proof.
  induction f as [|a f IH]; simpl; [reflexivity|].
  intros H. apply andb_true_iff in H as [Ha Hf].
  rewrite (digit_not_point _ Ha), (IH Hf). reflexivity.
Qed.

Lemma split_at_point i f :
  pd.all_digits i = true -> pd.all_digits f = true ->
  split "."%char (i ++ "." ++ f) = [i; f].
Proof.
  intros Hi Hf. induction i as [|a i IH]; simpl.
  - now rewrite (split_digits _ Hf).
  - simpl in Hi. apply andb_true_iff in Hi as [Ha Hi].
    rewrite (digit_not_point _ Ha). simpl in IH. now rewrite (IH Hi).
Qed.

Lemma sub_non_numeric_app s t :
  pd.sub_non_numeric (s ++ t) = pd.sub_non_numeric s ++ pd.sub_non_numeric t.
Proof.
  induction s as [|a s IH]; simpl; [reflexivity|].
  destruct (pd.numeric_char a); simpl; now rewrite IH.
Qed.

Lemma sub_non_numeric_digits s :
  pd.all_digits s = true -> pd.sub_non_numeric s = s.
Proof.
  induction s as [|a s IH]; simpl; [reflexivity|].
  intros H. apply andb_true_iff in H as [Ha Hs].
  unfold pd.numeric_char. rewrite Ha. simpl. now rewrite (IH Hs).
Qed.

Lemma string_app_assoc (a b c : string) : (a ++ b) ++ c = a ++ (b ++ c).
Proof. induction a as [|x a IH]; simpl; [reflexivity | now rewrite IH]. Qed.

Lemma string_app_nil (a : string) : a ++ "" = a.
Proof. induction a as [|x a IH]; simpl; [reflexivity | now rewrite IH]. Qed.

Lemma string_length_app (a b : string) :
  String.length (a ++ b) = (String.length a + String.length b)%nat.
Proof. induction a as [|x a IH]; simpl; [reflexivity | now rewrite IH]. Qed.

(** *** Texts of digits and points *)

Lemma numeric_not_space x : pd.numeric_char x = true -> pd.is_space x = false.
Proof.
  destruct x as [[] [] [] [] [] [] [] []]; intros H;
    try reflexivity; discriminate H.
Qed.

Lemma split_sign_numeric x r :
  pd.numeric_char x = true -> pd.split_sign (String x r) = (false, String x r).
Proof.
  destruct x as [[] [] [] [] [] [] [] []]; intros H;
    try reflexivity; discriminate H.
Qed.

Lemma sub_non_numeric_chars t :
  forallb pd.numeric_char (list_ascii_of_string (pd.sub_non_numeric t)) = true.
Proof.
  induction t as [|a t IH]; simpl; [reflexivity|].
  destruct (pd.numeric_char a) eqn:E; simpl; [now rewrite E|exact IH].
Qed.

Lemma rtrim_numeric u :
  forallb pd.numeric_char (list_ascii_of_string u) = true -> pd.rtrim u = u.
Proof.
  induction u as [|a u IH]; simpl; [reflexivity|].
  intros H. apply andb_true_iff in H as [Ha Hu]. rewrite (IH Hu).
  destruct u; [now rewrite (numeric_not_space _ Ha) | reflexivity].
Qed.

Lemma trim_numeric u :
  forallb pd.numeric_char (list_ascii_of_string u) = true -> pd.trim u = u.
Proof.
  intros H. unfold pd.trim.
  assert (Hl : pd.ltrim u = u).
  { destruct u as [|a u]; [reflexivity|]. simpl in H |- *.
    apply andb_true_iff in H as [Ha _]. now rewrite (numeric_not_space _ Ha). }
  rewrite Hl. now apply rtrim_numeric.
Qed.

Lemma take_digits_digits i : pd.all_digits i = true -> pd.take_digits i = (i, "").
Proof.
  induction i as [|a i IH]; simpl; [reflexivity|].
  intros H. apply andb_true_iff in H as [Ha Hi]. now rewrite Ha, (IH Hi).
Qed.

Lemma take_digits_app i x r :
  pd.all_digits i = true -> pd.is_digit x = false ->
  pd.take_digits (i ++ String x r) = (i, String x r).
Proof.
  intros Hi Hx. induction i as [|a i IH]; simpl.
  - now rewrite Hx.
  - simpl in Hi. apply andb_true_iff in Hi as [Ha Hi]. now rewrite Ha, (IH Hi).
Qed.

(** A text of digits and points is a run of digits, followed by nothing
    or by a point and another such text. *)
Lemma numeric_shape u :
  forallb pd.numeric_char (list_ascii_of_string u) = true ->
  exists i, pd.all_digits i = true
    /\ ((u = i /\ split "."%char u = [i])
        \/ exists r, u = i ++ String "."%char r
             /\ forallb pd.numeric_char (list_ascii_of_string r) = true
             /\ split "."%char u = i :: split "."%char r).
Proof.
  induction u as [|a u IH]; simpl.
  - intros _. exists "". split; [reflexivity|]. left. now split.
  - intros H. apply andb_true_iff in H as [Ha Hu].
    destruct (IH Hu) as (i & Hi & Hshape).
    unfold pd.numeric_char in Ha. destruct (pd.is_digit a) eqn:Ed.
    + rewrite (digit_not_point _ Ed). exists (String a i). split.
      { simpl. now rewrite Ed, Hi. }
      destruct Hshape as [[-> Hs] | (r & -> & Hr & Hs)].
      * left. rewrite Hs. now split.
      * right. exists r. rewrite Hs. now repeat split.
    + simpl in Ha. rewrite Ha. exists "". split; [reflexivity|].
      right. exists u. apply Ascii.eqb_eq in Ha. subst a. now repeat split.
Qed.

Lemma split_nonempty c s : split c s <> [].
Proof.
  destruct s as [|a s]; simpl; [discriminate|].
  destruct (Ascii.eqb a c); [discriminate|].
  destruct (split c s); discriminate.
Qed.

Lemma count_digits_app s t :
  count_digits (s ++ t) = (count_digits s + count_digits t)%nat.
Proof. induction s as [|a s IH]; simpl; [reflexivity | rewrite IH; lia]. Qed.

Lemma count_digits_all i : pd.all_digits i = true -> count_digits i = String.length i.
Proof.
  induction i as [|a i IH]; simpl; [reflexivity|].
  intros H. apply andb_true_iff in H as [Ha Hi]. now rewrite Ha, (IH Hi).
Qed.

Lemma count_digits_sub t : count_digits (pd.sub_non_numeric t) = count_digits t.
Proof.
  induction t as [|a t IH]; simpl; [reflexivity|].
  unfold pd.numeric_char. destruct (pd.is_digit a) eqn:E; simpl.
  - now rewrite E, IH.
  - destruct (Ascii.eqb a "."); simpl; [rewrite E|]; now rewrite IH.
Qed.

Lemma digit_of_nonneg a d : pd.digit_of a = Some d -> (0 <= d <= 9)%Z.
Proof.
  unfold pd.digit_of.
  destruct ((48 <=? nat_of_ascii a)%nat && (nat_of_ascii a <=? 57)%nat) eqn:E;
    [|discriminate].
  apply andb_true_iff in E as [E1 E2].
  apply Nat.leb_le in E1, E2. intros [= <-]. lia.
Qed.

Lemma digits_value_nonneg s : forall acc, (0 <= acc)%Z -> (0 <= pd.digits_value acc s)%Z.
Proof.
  induction s as [|a s IH]; intros acc Hacc; cbn [pd.digits_value]; [exact Hacc|].
  apply IH. destruct (pd.digit_of a) as [d|] eqn:E; cbn iota.
  - apply digit_of_nonneg in E. lia.
  - lia.
Qed.

Lemma digits_value_bound s :
  forall acc, (0 <= acc)%Z ->
    (pd.digits_value acc s < (acc + 1) * 10 ^ Z.of_nat (String.length s))%Z.
Proof.
  induction s as [|a s IH]; intros acc Hacc; cbn [pd.digits_value String.length].
  - rewrite Z.pow_0_r. lia.
  - set (d := match pd.digit_of a with Some d => d | None => 0%Z end).
    assert (Hd : (0 <= d <= 9)%Z).
    { unfold d. destruct (pd.digit_of a) eqn:E; [now apply digit_of_nonneg in E | lia]. }
    specialize (IH (10 * acc + d)%Z ltac:(lia)).
    rewrite Nat2Z.inj_succ, Z.pow_succ_r by lia.
    assert (0 < 10 ^ Z.of_nat (String.length s))%Z by (apply Z.pow_pos_nonneg; lia).
    nia.
Qed.

Lemma substring_whole s n : (String.length s <= n)%nat -> substring 0 n s = s.
Proof.
  revert n. induction s as [|a s IH]; intros n H.
  - destruct n; reflexivity.
  - destruct n; simpl in H; [lia|]. simpl. rewrite IH by lia. reflexivity.
Qed.

Lemma scale_nonneg m e : (0 <= m)%Z -> 0 <= pd.scale m e.
Proof.
  intros Hm. unfold pd.scale. destruct (e <? 0)%Z.
  - rewrite Qred_correct. unfold Qle; simpl. lia.
  - unfold Qle; simpl. assert (0 <= 10 ^ e)%Z by (apply Z.pow_nonneg; lia). nia.
Qed.

Lemma float_of_digits_nonneg i f e q :
  pd.float_of_digits i f e = Some q -> 0 <= q.
Proof.
  unfold pd.float_of_digits. destruct (_ || _); [discriminate|].
  intros [= <-]. apply scale_nonneg, digits_value_nonneg. lia.
Qed.

(** Up to 17 digits are all kept, and their value is far from the limit
    of a double. *)
Lemma float_of_digits_short i f :
  pd.all_digits i = true -> pd.all_digits f = true ->
  (String.length i + String.length f <= 17)%nat ->
  pd.float_of_digits i f 0
  = Some (pd.scale (pd.digits_value 0 (i ++ f)) (- Z.of_nat (String.length f))).
Proof.
  intros Hi Hf Hlen. unfold pd.float_of_digits, pd.MAX_DIGITS.
  rewrite substring_whole by (rewrite string_length_app; lia).
  replace (String.length i - 17)%nat with 0%nat by lia.
  rewrite Nat.min_l by lia.
  replace (Z.of_nat 0 - Z.of_nat (String.length f) + 0)%Z
    with (- Z.of_nat (String.length f))%Z by lia.
  set (m := pd.digits_value 0 (i ++ f)).
  set (k := Z.of_nat (String.length f)).
  assert (Hm : (0 <= m < 10 ^ 17)%Z).
  { split; [apply digits_value_nonneg; lia|].
    pose proof (digits_value_bound (i ++ f) 0 ltac:(lia)) as Hb. fold m in Hb.
    rewrite string_length_app in Hb.
    assert (10 ^ Z.of_nat (String.length i + String.length f) <= 10 ^ 17)%Z
      by (apply Z.pow_le_mono_r; lia).
    lia. }
  assert (Hk : (0 <= k)%Z) by (unfold k; lia).
  replace (308 <? - k)%Z with false by (symmetry; apply Z.ltb_ge; lia).
  cbn [orb].
  destruct (Qle_bool (pd.DOUBLE_LIMIT # 1) (pd.scale m (- k))) eqn:E; [|reflexivity].
  exfalso. apply Qle_bool_iff in E. unfold pd.scale in E.
  assert (Hlim : (10 ^ 17 < pd.DOUBLE_LIMIT)%Z) by (unfold pd.DOUBLE_LIMIT; reflexivity).
  destruct (- k <? 0)%Z eqn:Ek.
  - rewrite Qred_correct in E. unfold Qle in E. cbn [Qnum Qden] in E.
    assert (0 < Z.pos (Z.to_pos (10 ^ (- - k))))%Z by lia.
    nia.
  - apply Z.ltb_ge in Ek. assert (k = 0%Z) by lia. subst k.
    replace (- 0)%Z with 0%Z in E by lia. rewrite H in E.
    unfold Qle in E. cbn [Qnum Qden] in E.
    change (10 ^ (-0))%Z with 1%Z in E. lia.
Qed.

Lemma Qred_int z : Qred (z # 1) = z # 1.
Proof.
  unfold Qred.
  pose proof (Z.ggcd_gcd z 1) as Hg.
  pose proof (Z.ggcd_correct_divisors z 1) as Hd.
  destruct (Z.ggcd z 1) as (g & aa & bb). cbn [fst snd] in *.
  rewrite Z.gcd_1_r in Hg. subst g. destruct Hd as [Ha Hb].
  rewrite Z.mul_1_l in Ha, Hb. subst aa bb. reflexivity.
Qed.

Lemma scale_decimal m k :
  pd.scale m (- Z.of_nat k) = Qred (m # Z.to_pos (10 ^ Z.of_nat k)).
Proof.
  unfold pd.scale. destruct k as [|k].
  - cbn [Z.of_nat Z.opp Z.ltb Z.compare]. rewrite Z.pow_0_r, Z.mul_1_r.
    change (Z.to_pos 1) with 1%positive. now rewrite Qred_int.
  - replace (- Z.of_nat (S k) <? 0)%Z with true by (symmetry; apply Z.ltb_lt; lia).
    now rewrite Z.opp_involutive.
Qed.

Lemma nonempty_app_digits i f :
  pd.nonempty (i ++ f) = pd.nonempty i || pd.nonempty f.
Proof. destruct i; [destruct f|]; reflexivity. Qed.

(** On a text of digits and points that holds at most 17 digits, the
    parser reads the number the text spells; an integer literal has the
    same value as a float. *)
Lemma parse_stripped u :
  forallb pd.numeric_char (list_ascii_of_string u) = true ->
  (count_digits u <= 17)%nat ->
  option_map pd.number_value (pd.parse_number u) = amount u
  /\ forall z q, pd.parse_number u = Some (pd.NInt z q) -> q = z # 1.
Proof.
  intros Hu Hlen. unfold pd.parse_number. rewrite (trim_numeric _ Hu).
  assert (Hsign : pd.split_sign u = (false, u)).
  { destruct u as [|x r]; [reflexivity|]. simpl in Hu.
    apply andb_true_iff in Hu as [Hx _]. now apply split_sign_numeric. }
  rewrite Hsign. unfold amount, pd.mantissa.
  destruct (numeric_shape u Hu) as (i & Hi & [[-> Hs] | (r & -> & Hr & Hs)]).
  - rewrite Hs, (take_digits_digits _ Hi), string_app_nil.
    destruct (pd.nonempty i) eqn:En; [|split; [reflexivity | discriminate]].
    cbn [pd.exponent_of].
    assert (Hfl : pd.float_of_digits i "" 0 = Some (pd.digits_value 0 i # 1)).
    { rewrite (float_of_digits_short i "" Hi eq_refl)
        by (rewrite (count_digits_all _ Hi) in Hlen; simpl; lia).
      rewrite string_app_nil. cbn [String.length].
      rewrite (scale_decimal _ 0). cbn [Z.of_nat]. rewrite Z.pow_0_r.
      change (Z.to_pos 1) with 1%positive. now rewrite Qred_int. }
    rewrite Hfl.
    cbn [orb pd.is_some option_map pd.number_value].
    split; [reflexivity|]. now intros z q [= <- <-].
  - rewrite Hs, (take_digits_app i "."%char r Hi eq_refl).
    rewrite count_digits_app, (count_digits_all _ Hi) in Hlen.
    cbn [count_digits] in Hlen. change (pd.is_digit ".") with false in Hlen.
    destruct (numeric_shape r Hr) as (f & Hf & [[-> Hs'] | (r' & -> & Hr' & Hs')]).
    + rewrite Hs', (take_digits_digits _ Hf).
      rewrite (count_digits_all _ Hf) in Hlen.
      destruct (pd.nonempty (i ++ f)) eqn:En; [|split; [reflexivity | discriminate]].
      cbn [pd.exponent_of].
      rewrite (float_of_digits_short i f Hi Hf) by lia.
      rewrite scale_decimal.
      cbn [orb pd.is_some option_map pd.number_value].
      split; [reflexivity | discriminate].
    + rewrite Hs', (take_digits_app f "."%char r' Hf eq_refl).
      assert (Hno : match f :: split "." r' with [_] => false | _ => true end = true).
      { pose proof (split_nonempty "."%char r'). destruct (split "." r'); [congruence|reflexivity]. }
      destruct (pd.nonempty (i ++ f)).
      * cbn [pd.exponent_of]. change (Ascii.eqb "." "e" || Ascii.eqb "." "E") with false.
        cbn iota. split; [|discriminate].
        destruct (split "." r') as [|x l]; [discriminate Hno | reflexivity].
      * split; [|discriminate].
        destruct (split "." r') as [|x l]; [discriminate Hno | reflexivity].
Qed.

(** No sign survives the strip, so no parsed amount is negative. *)
Lemma stripped_nonneg t n :
  pd.parse_number (pd.sub_non_numeric t) = Some n -> 0 <= pd.number_value n.
Proof.
  pose proof (sub_non_numeric_chars t) as Hu.
  set (u := pd.sub_non_numeric t) in *.
  unfold pd.parse_number. rewrite (trim_numeric _ Hu).
  assert (Hsign : pd.split_sign u = (false, u)).
  { destruct u as [|x r]; [reflexivity|]. simpl in Hu.
    apply andb_true_iff in Hu as [Hx _]. now apply split_sign_numeric. }
  rewrite Hsign.
  destruct (pd.mantissa u) as [[[i point] f] r2].
  destruct (pd.nonempty (i ++ f)); [|discriminate].
  destruct (pd.exponent_of r2) as [ex|]; [|discriminate].
  destruct (pd.float_of_digits i f _) as [q|] eqn:E; [|discriminate].
  apply float_of_digits_nonneg in E.
  destruct (point || pd.is_some ex); intros [= <-]; exact E.
Qed.

Lemma stripped_int_nonneg t z q :
  pd.parse_number (pd.sub_non_numeric t) = Some (pd.NInt z q) -> (0 <= z)%Z.
Proof.
  pose proof (sub_non_numeric_chars t) as Hu.
  set (u := pd.sub_non_numeric t) in *.
  unfold pd.parse_number. rewrite (trim_numeric _ Hu).
  assert (Hsign : pd.split_sign u = (false, u)).
  { destruct u as [|x r]; [reflexivity|]. simpl in Hu.
    apply andb_true_iff in Hu as [Hx _]. now apply split_sign_numeric. }
  rewrite Hsign.
  destruct (pd.mantissa u) as [[[i point] f] r2].
  destruct (pd.nonempty (i ++ f)); [|discriminate].
  destruct (pd.exponent_of r2) as [ex|]; [|discriminate].
  destruct (pd.float_of_digits i f _) as [q0|]; [|discriminate].
  destruct (point || pd.is_some ex); [discriminate|].
  intros [= <- _]. apply digits_value_nonneg. lia.
Qed.

(** The pounds-and-pence form: digits, a comma, digits, a point, digits. *)
Lemma strip_pounds a b c :
  pd.all_digits a = true -> pd.all_digits b = true -> pd.all_digits c = true ->
  pd.sub_non_numeric ("£" ++ a ++ "," ++ b ++ "." ++ c) = (a ++ b) ++ "." ++ c.
Proof.
  intros Ha Hb Hc.
  change ("£" ++ a ++ "," ++ b ++ "." ++ c)
    with (String "194" (String "163" (a ++ String "," (b ++ String "." c)))).
  cbn [pd.sub_non_numeric]. change (pd.numeric_char "194") with false.
  change (pd.numeric_char "163") with false. cbn iota.
  rewrite sub_non_numeric_app, (sub_non_numeric_digits _ Ha).
  cbn [pd.sub_non_numeric]. change (pd.numeric_char ",") with false. cbn iota.
  rewrite sub_non_numeric_app, (sub_non_numeric_digits _ Hb).
  cbn [pd.sub_non_numeric]. change (pd.numeric_char ".") with true. cbn iota.
  rewrite (sub_non_numeric_digits _ Hc).
  now rewrite string_app_assoc.
Qed.

(** ** The currency normalizer *)

Lemma text_like_texts texts : pd.text_like (map CStr texts) = true.
Proof. destruct texts; reflexivity. Qed.

(** With [errors='coerce'] no slot raises. *)
Lemma collect_coerce vals :
  pd.collect (pd.to_numeric_slot pd.errors_coerce) vals
  = Ok (map (fun v => match v with
                      | Some t => pd.parse_number t
                      | None => None
                      end) vals).
Proof.
  induction vals as [|v vals IH]; simpl; [reflexivity|].
  rewrite IH. destruct v as [t|]; simpl; [|reflexivity].
  destruct t as [|a t]; [reflexivity|].
  destruct (pd.parse_number (String a t)); reflexivity.
Qed.

Lemma currency_object s w :
  dtype s = object -> pd.text_like (values s) = true ->
  currency_to_float s w = (Ok (pd.numeric_series (cleaned_numbers (values s))), w).
Proof.
  intros Hd Ht. unfold currency_to_float, bind, lift, pd.str_accessor, pd.to_numeric.
  rewrite Hd, Ht. simpl. now rewrite collect_coerce.
Qed.

Lemma currency_texts texts w :
  currency_to_float (text_column texts) w
  = (Ok (pd.numeric_series (cleaned_numbers (map CStr texts))), w).
Proof. apply currency_object; [reflexivity | apply text_like_texts]. Qed.

Lemma numeric_series_values nums c :
  In c (values (pd.numeric_series nums)) ->
  exists v, In v nums /\ (c = pd.float_cell v \/ c = pd.int_cell v).
Proof.
  unfold pd.numeric_series.
  destruct (forallb _ nums); [|destruct (forallb _ nums)]; simpl;
    intros H; apply in_map_iff in H as (v & <- & Hv); eauto.
Qed.

Lemma numeric_cell_nonneg v c x :
  c = pd.float_cell v \/ c = pd.int_cell v ->
  (forall n, v = Some n -> 0 <= pd.number_value n) ->
  (forall z q, v = Some (pd.NInt z q) -> (0 <= z)%Z) ->
  cell_value c = Some x -> 0 <= x.
Proof.
  intros [-> | ->] Hq Hz; destruct v as [[z q|q]|]; simpl; intros [= <-].
  - exact (Hq _ eq_refl).
  - exact (Hq _ eq_refl).
  - specialize (Hz _ _ eq_refl). unfold Qle; simpl. lia.
Qed.

Lemma cleaned_numbers_in vals v :
  In v (cleaned_numbers vals) ->
  v = None \/ exists t, In (CStr t) vals /\ v = pd.parse_number (pd.sub_non_numeric t).
Proof.
  unfold cleaned_numbers, pd.str_replace_non_numeric. rewrite map_map.
  intros H. apply in_map_iff in H as (c & <- & Hc).
  destruct c; eauto.
Qed.

Lemma forallb_nth_error {A : Type} (p : A -> bool) l i (x : A) :
  forallb p l = true -> nth_error l i = Some x -> p x = true.
Proof.
  intros H Hn. rewrite forallb_forall in H. apply H. eapply nth_error_In; eauto.
Qed.

Lemma numeric_series_nth nums i v :
  nth_error nums i = Some v ->
  match v with
  | Some n =>
      exists c, nth_error (values (pd.numeric_series nums)) i = Some c
                /\ (c = CFloat (pd.number_value n)
                    \/ exists z q, n = pd.NInt z q /\ c = CInt z)
  | None => nth_error (values (pd.numeric_series nums)) i = Some CNaN
  end.
Proof.
  intros Hn. unfold pd.numeric_series.
  destruct (forallb (pd.int_within pd.INT64_MIN pd.INT64_MAX) nums) eqn:E1;
    [|destruct (forallb (pd.int_within 0 pd.UINT64_MAX) nums) eqn:E2];
    cbn [values]; rewrite nth_error_map, Hn; cbn [option_map].
  - pose proof (forallb_nth_error _ _ _ _ E1 Hn) as Hv.
    destruct v as [[z q|x]|]; try discriminate Hv. eexists. split; [reflexivity|].
    right. eauto.
  - pose proof (forallb_nth_error _ _ _ _ E2 Hn) as Hv.
    destruct v as [[z q|x]|]; try discriminate Hv. eexists. split; [reflexivity|].
    right. eauto.
  - destruct v as [[z q|x]|]; [| |reflexivity]; eexists; (split; [reflexivity|]);
      now left.
Qed.

Lemma numeric_series_length nums :
  List.length (values (pd.numeric_series nums)) = List.length nums.
Proof.
  unfold pd.numeric_series.
  destruct (forallb _ nums); [|destruct (forallb _ nums)]; cbn [values];
    apply length_map.
Qed.

Lemma cleaned_numbers_nth vals i c :
  nth_error vals i = Some c ->
  nth_error (cleaned_numbers vals) i
  = Some (match c with
          | CStr t => pd.parse_number (pd.sub_non_numeric t)
          | _ => None
          end).
Proof.
  intros H. unfold cleaned_numbers, pd.str_replace_non_numeric.
  rewrite map_map, nth_error_map, H. destruct c; reflexivity.
Qed.

Lemma amount_pounds a b c :
  pd.all_digits a = true -> pd.all_digits b = true -> pd.all_digits c = true ->
  a <> "" ->
  amount (pd.sub_non_numeric ("£" ++ a ++ "," ++ b ++ "." ++ c))
  = Some (Qred (pd.digits_value 0 ((a ++ b) ++ c)
                  # Z.to_pos (10 ^ Z.of_nat (String.length c)))).
Proof.
  intros Ha Hb Hc Hne. rewrite (strip_pounds _ _ _ Ha Hb Hc). unfold amount.
  rewrite split_at_point by (rewrite ?all_digits_app, ?Ha, ?Hb; auto).
  destruct a; [congruence | reflexivity].
Qed.

Lemma strip_minus_pounds a :
  pd.sub_non_numeric ("-£" ++ a) = pd.sub_non_numeric a.
Proof. reflexivity. Qed.

Lemma amount_minus_pence a c :
  pd.all_digits a = true -> pd.all_digits c = true -> a <> "" ->
  amount (pd.sub_non_numeric ("-£" ++ a ++ "." ++ c))
  = Some (Qred (pd.digits_value 0 (a ++ c)
                  # Z.to_pos (10 ^ Z.of_nat (String.length c)))).
Proof.
  intros Ha Hc Hne. rewrite strip_minus_pounds, sub_non_numeric_app.
  rewrite (sub_non_numeric_digits _ Ha).
  change (pd.sub_non_numeric ("." ++ c)) with (String "."%char (pd.sub_non_numeric c)).
  rewrite (sub_non_numeric_digits _ Hc). unfold amount.
  change (a ++ String "."%char c) with (a ++ "." ++ c).
  rewrite (split_at_point _ _ Ha Hc).
  destruct a; [congruence | reflexivity].
Qed.

Lemma amount_minus_pounds a :
  pd.all_digits a = true -> a <> "" ->
  amount (pd.sub_non_numeric ("-£" ++ a)) = Some (pd.digits_value 0 a # 1).
Proof.
  intros Ha Hne. rewrite strip_minus_pounds, (sub_non_numeric_digits _ Ha).
  unfold amount. rewrite (split_digits _ Ha).
  destruct a; [congruence | reflexivity].
Qed.

(** The slot a text of at most 17 digits ends in: the number its digits
    and point spell, or the missing marker when they spell none. *)
Lemma currency_slot texts i t :
  nth_error texts i = Some t -> (count_digits t <= 17)%nat ->
  match amount (pd.sub_non_numeric t) with
  | Some x =>
      option_map cell_value
        (nth_error (values (pd.numeric_series (cleaned_numbers (map CStr texts)))) i)
      = Some (Some x) /\ 0 <= x
  | None =>
      nth_error (values (pd.numeric_series (cleaned_numbers (map CStr texts)))) i
      = Some CNaN
  end.
Proof.
  intros Ht Hlen.
  assert (Hc : nth_error (map CStr texts) i = Some (CStr t))
    by (now rewrite nth_error_map, Ht).
  pose proof (numeric_series_nth _ _ _ (cleaned_numbers_nth _ _ _ Hc)) as H.
  cbn iota in H.
  destruct (parse_stripped (pd.sub_non_numeric t) (sub_non_numeric_chars t)
              ltac:(now rewrite count_digits_sub)) as [Hv Hint].
  destruct (pd.parse_number (pd.sub_non_numeric t)) as [n|] eqn:E;
    cbn [option_map] in Hv; rewrite <- Hv; [|exact H].
  destruct H as (c & Hn & Hcell). rewrite Hn. cbn [option_map].
  split; [|now apply (stripped_nonneg t)].
  destruct Hcell as [-> | (z & q & -> & ->)]; [reflexivity|].
  cbn [cell_value pd.number_value]. now rewrite (Hint z q eq_refl).
Qed.

(** C1: on a textual column the normalizer turns the text "£1,234.56"
    into 1234.56 and "-£12.34" into 12.34.  In every textual column, every
    slot whose text holds at most 15 digits becomes the number that the
    digits and the point of the text spell, whatever else the text holds,
    a sign included: a float, or the integer in a column of integers; it
    becomes the missing marker when they spell none.  For a text of the
    pounds-and-pence form that number is the one its digits read in base
    ten, and a text with a minus sign in front spells the number of the
    text without it: a column of negative amounts yields what the column
    of the positive amounts yields, and no result is negative. *)
Theorem C1_currency_values :
  (forall w,
      currency_to_float (text_column ["£1,234.56"; "-£12.34"]) w
      = (Ok (mkSeries float64 [CFloat (Qred 1234.56); CFloat (Qred 12.34)]), w))
  /\ (forall texts w,
         exists out,
           currency_to_float (text_column texts) w = (Ok out, w)
           /\ List.length (values out) = List.length texts
           /\ forall i t,
                nth_error texts i = Some t -> (count_digits t <= 15)%nat ->
                match amount (pd.sub_non_numeric t) with
                | Some x =>
                    option_map cell_value (nth_error (values out) i) = Some (Some x)
                    /\ 0 <= x
                | None => nth_error (values out) i = Some CNaN
                end)
  /\ (forall a b c,
         pd.all_digits a = true -> pd.all_digits b = true ->
         pd.all_digits c = true -> a <> "" ->
         amount (pd.sub_non_numeric ("£" ++ a ++ "," ++ b ++ "." ++ c))
         = Some (Qred (pd.digits_value 0 ((a ++ b) ++ c)
                         # Z.to_pos (10 ^ Z.of_nat (String.length c))))
         /\ amount (pd.sub_non_numeric ("-£" ++ a ++ "." ++ c))
            = Some (Qred (pd.digits_value 0 (a ++ c)
                            # Z.to_pos (10 ^ Z.of_nat (String.length c))))
         /\ amount (pd.sub_non_numeric ("-£" ++ a)) = Some (pd.digits_value 0 a # 1))
  /\ (forall t, pd.sub_non_numeric (String "-"%char t) = pd.sub_non_numeric t)
  /\ (forall texts w,
         currency_to_float (text_column (map (String "-"%char) texts)) w
         = currency_to_float (text_column texts) w)
  /\ (forall texts w out c x,
         currency_to_float (text_column texts) w = (Ok out, w) ->
         In c (values out) -> cell_value c = Some x -> 0 <= x).
Proof.
  split; [|split; [|split; [|split; [|split]]]].
  - intros w. rewrite currency_texts. vm_compute. reflexivity.
  - intros texts w. eexists. split; [apply currency_texts|]. split.
    + rewrite numeric_series_length. unfold cleaned_numbers, pd.str_replace_non_numeric.
      now rewrite !length_map.
    + intros i t Ht Hlen. apply (currency_slot texts i t Ht). lia.
  - intros a b c Ha Hb Hc Hne. split; [|split].
    + now apply amount_pounds.
    + now apply amount_minus_pence.
    + now apply amount_minus_pounds.
  - reflexivity.
  - intros texts w. rewrite !currency_texts. do 3 f_equal.
    unfold cleaned_numbers, pd.str_replace_non_numeric.
    rewrite !map_map. apply map_ext. intros t. reflexivity.
  - intros texts w out c x H Hin Hx. rewrite currency_texts in H.
    injection H as <-.
    apply numeric_series_values in Hin as (v & Hv & Hc).
    apply (numeric_cell_nonneg _ _ _ Hc); [| |exact Hx].
    + intros n ->.
      apply cleaned_numbers_in in Hv as [Hv | (t & _ & Hv)]; [discriminate|].
      symmetry in Hv. now apply stripped_nonneg in Hv.
    + intros z q ->.
      apply cleaned_numbers_in in Hv as [Hv | (t & _ & Hv)]; [discriminate|].
      symmetry in Hv. now apply stripped_int_nonneg in Hv.
Qed.

Lemma C1_currency_values_witness :
  exists out,
    currency_to_float (text_column ["-£12"; "£1,500"; "-£7"]) quiet_world
    = (Ok out, quiet_world)
    /\ option_map cell_value (nth_error (values out) 0) = Some (Some (12 # 1))
    /\ option_map cell_value (nth_error (values out) 2) = Some (Some (7 # 1)).
Proof.
  destruct (proj1 (proj2 C1_currency_values) ["-£12"; "£1,500"; "-£7"] quiet_world)
    as (out & Hrun & _ & Hslots).
  exists out. split; [exact Hrun|]. split.
  - exact (proj1 (Hslots 0%nat "-£12" eq_refl ltac:(vm_compute; lia))).
  - exact (proj1 (Hslots 2%nat "-£7" eq_refl ltac:(vm_compute; lia))).
Defined.

(** Every case of the normalizer.  It raises nothing on a float column,
    on an object column that the text accessor takes (text, gaps, a
    mixture), or on a column of any other type: the float column comes
    back as it is; in the object column a text that does not parse once
    stripped, and any slot that is not text, becomes the missing marker,
    and a text that parses becomes its number (the integer in a column of
    integers, the float otherwise); the column of another type
    comes back unchanged after one diagnostic line.  An object column that
    the text accessor refuses raises an attribute error. *)
Lemma currency_to_float_cases (s : Series) (w : World) :
  (dtype s = float64 -> currency_to_float s w = (Ok s, w))
  /\ (dtype s = object -> pd.text_like (values s) = true ->
      exists out,
        currency_to_float s w = (Ok out, w)
        /\ List.length (values out) = List.length (values s)
        /\ forall i c, nth_error (values s) i = Some c ->
             match c with
             | CStr t =>
                 match pd.parse_number (pd.sub_non_numeric t) with
                 | Some n =>
                     exists c', nth_error (values out) i = Some c'
                                /\ (c' = CFloat (pd.number_value n)
                                    \/ exists z q, n = pd.NInt z q /\ c' = CInt z)
                 | None => nth_error (values out) i = Some CNaN
                 end
             | _ => nth_error (values out) i = Some CNaN
             end)
  /\ (dtype s <> float64 -> dtype s <> object ->
      currency_to_float s w
      = (Ok s, set_console (console w ++ [MsgDtype (dtype s)]) w))
  /\ (dtype s = object -> pd.text_like (values s) = false ->
      currency_to_float s w = (Raise AttributeError, w)).
Proof.
  split; [|split; [|split]].
  4:{ intros Hd Ht. unfold currency_to_float, bind, lift, pd.str_accessor.
      rewrite Hd, Ht. reflexivity. }
  - intros Hd. unfold currency_to_float. rewrite Hd. reflexivity.
  - intros Hd Ht. eexists. split; [apply (currency_object _ _ Hd Ht)|]. split.
    + rewrite numeric_series_length. unfold cleaned_numbers, pd.str_replace_non_numeric.
      now rewrite !length_map.
    + intros i c Hc.
      pose proof (numeric_series_nth _ _ _ (cleaned_numbers_nth _ _ _ Hc)) as H.
      destruct c; try exact H.
  - intros Hf Ho. unfold currency_to_float.
    destruct (dtype s); try congruence; reflexivity.
Qed.

Example currency_to_float_coerces :
  exists out,
    currency_to_float (text_column ["£50.00"; "abc"; "1.2.3"]) quiet_world
    = (Ok out, quiet_world)
    /\ nth_error (values out) 1 = Some CNaN.
Proof.
  destruct (proj1 (proj2 (currency_to_float_cases
                            (text_column ["£50.00"; "abc"; "1.2.3"]) quiet_world))
              eq_refl eq_refl) as (out & Hrun & _ & Hslots).
  exists out. split; [exact Hrun|]. exact (Hslots 1%nat (CStr "abc") eq_refl).
Qed.

(** C7: a column whose fields read True and empty is read as an object
    column of a boolean and a gap; the normalizer takes it for text, and
    the text accessor raises an attribute error, where the claim has the
    normalizer raise nothing; the statement that holds such a column
    fails and uploads nothing. *)
Theorem C7_object_column_without_text :
  pd.infer_column [Some "True"; Some ""] = mkSeries object [CBool true; CNaN]
  /\ currency_to_float (mkSeries object [CBool true; CNaN]) quiet_world
     = (Raise AttributeError, quiet_world)
  /\ fst (process_csv_file "exports/a.csv"
            (world_of [("a.csv", statement_boolean_amounts)] (fun _ => mkDate 2024 1 5)))
     = Raise AttributeError
  /\ table (snd (process_csv_file "exports/a.csv"
                   (world_of [("a.csv", statement_boolean_amounts)]
                             (fun _ => mkDate 2024 1 5))))
     = [].
Proof. repeat split; vm_compute; reflexivity. Qed.

(** ** The account name *)

Lemma split_no_sep c s : contains c s = false -> split c s = [s].
Proof.
  induction s as [|a s IH]; simpl; [reflexivity|].
  intros H. apply orb_false_iff in H as [Ha Hs].
  now rewrite Ha, (IH Hs).
Qed.

Lemma split_app c f rest :
  contains c f = false ->
  split c (f ++ String c rest) = f :: split c rest.
Proof.
  induction f as [|a f IH]; simpl.
  - now rewrite Ascii.eqb_refl.
  - intros H. apply orb_false_iff in H as [Ha Hf].
    now rewrite Ha, (IH Hf).
Qed.

(** A line without a comma has one field, and the index 1 is out of range. *)
Lemma extract_account_name_one_field line :
  contains ","%char line = false -> extract_account_name line = Raise IndexError.
Proof.
  intros H. unfold extract_account_name. now rewrite (split_no_sep _ _ H).
Qed.

(** When a third field follows, the name is the second field without its
    quotes, whatever the first field and the rest of the line are. *)
Lemma extract_account_name_inner_field f0 f1 rest :
  contains ","%char f0 = false -> contains ","%char f1 = false ->
  extract_account_name (f0 ++ "," ++ f1 ++ "," ++ rest) = Ok (strip dquote f1).
Proof.
  intros H0 H1. unfold extract_account_name.
  change (f0 ++ "," ++ f1 ++ "," ++ rest)
    with (f0 ++ String "," (f1 ++ String "," rest)).
  now rewrite (split_app _ _ _ H0), (split_app _ _ _ H1).
Qed.

Lemma lstrip_app_other c s t x :
  Ascii.eqb x c = false -> lstrip c (s ++ String x t) = lstrip c s ++ String x t.
Proof.
  intros Hx. induction s as [|a s IH]; simpl.
  - now rewrite Hx.
  - destruct (Ascii.eqb a c); [exact IH | reflexivity].
Qed.

Lemma rstrip_app_other c s x :
  Ascii.eqb x c = false -> rstrip c (s ++ String x "") = s ++ String x "".
Proof.
  intros Hx. induction s as [|a s IH]; simpl.
  - now rewrite Hx.
  - rewrite IH. destruct s; reflexivity.
Qed.

(** When the name is the last field of the line, the line terminator that
    [readline] keeps shields the closing quote: only the opening quotes
    go. *)
Lemma extract_account_name_last_field f0 f1 :
  contains ","%char f0 = false -> contains ","%char f1 = false ->
  extract_account_name (f0 ++ "," ++ f1 ++ nl) = Ok (lstrip dquote f1 ++ nl).
Proof.
  intros H0 H1. unfold extract_account_name.
  change (f0 ++ "," ++ f1 ++ nl) with (f0 ++ String "," (f1 ++ nl)).
  rewrite (split_app _ _ _ H0), split_no_sep.
  - cbn [nth_error]. unfold strip, nl.
    rewrite lstrip_app_other by reflexivity.
    now rewrite rstrip_app_other by reflexivity.
  - unfold nl. induction f1 as [|a f1 IH]; simpl; [reflexivity|].
    simpl in H1. apply orb_false_iff in H1 as [Ha Hf]. now rewrite Ha, IH.
Qed.

(** C2: on a statement whose first line ends with the quoted account name,
    the code keeps the closing quote and the line terminator in the name it
    extracts and uploads, where the claim gives the field without its
    quotes. *)
Theorem C2_account_name_keeps_line_end :
  extract_account_name (readline (statement (row "05 Jan 2024" "Visa" "TESCO" "£50.00" "" "£1,239.56")))
  = Ok ("My Account" ++ String dquote nl)
  /\ map (fun r => nth 0 r BNull)
       (table (snd (process_csv_file "exports/a.csv"
                      (world_of [("a.csv", statement (row "05 Jan 2024" "Visa" "TESCO" "£50.00" "" "£1,239.56"))]
                                (fun _ => mkDate 2024 1 5)))))
     = [BString ("My Account" ++ String dquote nl)]
  /\ strip dquote (quoted "My Account") = "My Account".
Proof. repeat split; vm_compute; reflexivity. Qed.

(** ** The deduplicator *)

Lemma remove_duplicates_run w :
  remove_duplicates w
  = (Ok tt,
     set_console
       (console w ++ [MsgDuplicatesRemoved
                        (Z.of_nat (List.length (table w))
                         - Z.of_nat (List.length (select_distinct (table w))))])
       (set_table (select_distinct (table w))
          (set_trace (trace w ++ [DedupCalled]) w))).
Proof. reflexivity. Qed.

Lemma select_distinct_length t :
  (List.length (select_distinct t) <= List.length t)%nat.
Proof.
  unfold select_distinct. induction t as [|r t IH]; simpl; [lia|].
  destruct (in_dec Row_eq_dec r t); simpl; lia.
Qed.

Lemma select_distinct_idempotent t :
  select_distinct (select_distinct t) = select_distinct t.
Proof. unfold select_distinct. apply nodup_fixed_point, NoDup_nodup. Qed.

(** C3: a second run of the deduplicator, started in the world the first
    run left, keeps the table and its row count and reports zero rows
    removed. *)
Theorem C3_deduplication_idempotent (w : World) :
  let w1 := snd (remove_duplicates w) in
  exists w2,
    remove_duplicates w1 = (Ok tt, w2)
    /\ table w2 = table w1
    /\ List.length (table w2) = List.length (table w1)
    /\ console w2 = (console w1 ++ [MsgDuplicatesRemoved 0])%list.
Proof.
  cbv zeta. rewrite (remove_duplicates_run w). cbn [snd].
  eexists. split; [apply remove_duplicates_run|].
  cbn [table console set_console set_table set_trace].
  rewrite select_distinct_idempotent. repeat split.
  now rewrite Z.sub_diag.
Qed.

(** C10: one run of the deduplicator never lengthens the table, and the
    number it reports, the count before minus the count after, is not
    negative. *)
Theorem C10_deduplication_never_grows (w : World) :
  exists w' n,
    remove_duplicates w = (Ok tt, w')
    /\ (List.length (table w') <= List.length (table w))%nat
    /\ console w' = (console w ++ [MsgDuplicatesRemoved n])%list
    /\ n = (Z.of_nat (List.length (table w)) - Z.of_nat (List.length (table w')))%Z
    /\ (0 <= n)%Z.
Proof.
  eexists; eexists. split; [apply remove_duplicates_run|].
  cbn [table console set_console set_table set_trace].
  pose proof (select_distinct_length (table w)).
  repeat split; [assumption | lia].
Qed.

(** ** Steps of a computation *)

Lemma same_store_refl w : same_store w w.
Proof. repeat split. Qed.

Lemma same_store_trans w1 w2 w3 :
  same_store w1 w2 -> same_store w2 w3 -> same_store w1 w3.
Proof.
  unfold same_store. intros (a1 & a2 & a3 & a4 & a5 & a6) (b1 & b2 & b3 & b4 & b5 & b6).
  repeat split; congruence.
Qed.

Lemma bind_ok_inv {A B : Type} (c : M A) (k : A -> M B) w b w' :
  bind c k w = (Ok b, w') ->
  exists a w1, c w = (Ok a, w1) /\ k a w1 = (Ok b, w').
Proof.
  unfold bind. destruct (c w) as [[a|e] w1]; [eauto | discriminate].
Qed.

Lemma lift_inv {A : Type} (r : result A) w x w' :
  lift r w = (x, w') -> x = r /\ w' = w.
Proof. unfold lift. intros [= <- <-]. split; reflexivity. Qed.

Lemma currency_to_float_store s w :
  same_store w (snd (currency_to_float s w))
  /\ reads (snd (currency_to_float s w)) = reads w.
Proof.
  unfold currency_to_float.
  destruct (dtype_eqb (dtype s) float64); [split; [apply same_store_refl | reflexivity]|].
  destruct (dtype_eqb (dtype s) object).
  - unfold bind, lift. destruct (pd.str_accessor s); cbn;
      split; try apply same_store_refl; reflexivity.
  - cbn. split; [repeat split | reflexivity].
Qed.

Lemma currency_to_float_inv s w r w' :
  currency_to_float s w = (r, w') -> same_store w w' /\ reads w' = reads w.
Proof.
  intros H. pose proof (currency_to_float_store s w) as P.
  rewrite H in P. exact P.
Qed.

(** What a successful [normalize] did. *)
Lemma normalize_ok_inv account_name data w data' w' :
  normalize account_name data w = (Ok data', w') ->
  let d0 := prepared account_name (clock w (reads w)) data in
  exists po po' pi pi' ba ba' dt dt',
    getitem d0 "paid_out" = Ok po
    /\ getitem (setitem d0 "paid_out" po') "paid_in" = Ok pi
    /\ getitem (setitem (setitem d0 "paid_out" po') "paid_in" pi') "balance" = Ok ba
    /\ getitem (setitem (setitem (setitem d0 "paid_out" po') "paid_in" pi')
                  "balance" ba') "date" = Ok dt
    /\ pd.to_datetime dt = Ok dt'
    /\ data' = setitem (setitem (setitem (setitem d0 "paid_out" po') "paid_in" pi')
                          "balance" ba') "date" dt'
    /\ same_store w w' /\ reads w' = S (reads w).
Proof.
  intros H d0. unfold normalize in H.
  apply bind_ok_inv in H as (today & w1 & Hnow & H).
  unfold now_date in Hnow. injection Hnow as <- <-.
  fold (prepared account_name (clock w (reads w)) data) in H. fold d0 in H.
  apply bind_ok_inv in H as (po & w2 & H1 & H). apply lift_inv in H1 as [H1 ->].
  apply bind_ok_inv in H as (po' & w3 & H2 & H). apply currency_to_float_inv in H2 as [S2 R2].
  apply bind_ok_inv in H as (pi & w4 & H3 & H). apply lift_inv in H3 as [H3 ->].
  apply bind_ok_inv in H as (pi' & w5 & H4 & H). apply currency_to_float_inv in H4 as [S4 R4].
  apply bind_ok_inv in H as (ba & w6 & H5 & H). apply lift_inv in H5 as [H5 ->].
  apply bind_ok_inv in H as (ba' & w7 & H6 & H). apply currency_to_float_inv in H6 as [S6 R6].
  apply bind_ok_inv in H as (dt & w8 & H7 & H). apply lift_inv in H7 as [H7 ->].
  apply bind_ok_inv in H as (dt' & w9 & H8 & H). apply lift_inv in H8 as [H8 ->].
  unfold ret in H. injection H as <- <-.
  exists po, po', pi, pi', ba, ba', dt, dt'.
  repeat (split; [now auto|]). split.
  - eapply same_store_trans; [|exact S6].
    eapply same_store_trans; [|exact S4].
    eapply same_store_trans; [|exact S2]. repeat split.
  - rewrite R6, R4, R2. reflexivity.
Qed.

(** A failed [normalize] left the store as it was. *)
Lemma normalize_store account_name data w :
  same_store w (snd (normalize account_name data w)).
Proof.
  unfold normalize, bind, now_date, lift, ret.
  set (w1 := set_reads (S (reads w)) w).
  assert (S1 : same_store w w1) by (repeat split).
  repeat match goal with
  | |- context [match getitem ?d ?n with _ => _ end] =>
      destruct (getitem d n); cbn [snd]; [|exact S1]
  | |- context [match pd.to_datetime ?d with _ => _ end] =>
      destruct (pd.to_datetime d); cbn [snd]; [|exact S1]
  | |- context [currency_to_float ?s ?w0] =>
      let r := fresh "r" in let w2 := fresh "w" in let E := fresh "E" in
      destruct (currency_to_float s w0) as [r w2] eqn:E;
      apply currency_to_float_inv in E as [E _];
      pose proof (same_store_trans _ _ _ S1 E); clear S1 E;
      match goal with H : same_store w w2 |- _ => rename H into S1 end;
      destruct r; cbn [snd]; [|exact S1]
  end.
  exact S1.
Qed.

(** [normalize] reads the clock once, whatever happens next. *)
Lemma normalize_reads account_name data w :
  reads (snd (normalize account_name data w)) = S (reads w).
Proof.
  unfold normalize, bind, now_date, lift, ret.
  set (w1 := set_reads (S (reads w)) w).
  assert (R1 : reads w1 = S (reads w)) by reflexivity.
  repeat match goal with
  | |- context [match getitem ?d ?n with _ => _ end] =>
      destruct (getitem d n); cbn [snd]; [|exact R1]
  | |- context [match pd.to_datetime ?d with _ => _ end] =>
      destruct (pd.to_datetime d); cbn [snd]; [|exact R1]
  | |- context [currency_to_float ?s ?w0] =>
      let r := fresh "r" in let w2 := fresh "w" in let E := fresh "E" in
      destruct (currency_to_float s w0) as [r w2] eqn:E;
      apply currency_to_float_inv in E as [_ E];
      pose proof (eq_trans E R1); clear R1 E;
      match goal with H : reads w2 = S (reads w) |- _ => rename H into R1 end;
      destruct r; cbn [snd]; [|exact R1]
  end.
  exact R1.
Qed.

(** ** One file *)

(** A file costs at most one reading of the clock, and exactly one when it
    is uploaded. *)
Lemma process_csv_file_reads file_path w :
  (reads w <= reads (snd (process_csv_file file_path w)) <= S (reads w))%nat
  /\ (forall u, fst (process_csv_file file_path w) = Ok u ->
      reads (snd (process_csv_file file_path w)) = S (reads w)).
Proof.
  unfold process_csv_file, bind, open_read, lift.
  destruct (files w file_path) as [content|]; [|cbn; split; [lia | discriminate]].
  set (w0 := set_trace (trace w ++ [Opened file_path]) w).
  destruct (extract_account_name (readline content)) as [name|e];
    [|cbn; split; [lia | discriminate]].
  destruct (pd.read_csv content 4) as [data|e]; [|cbn; split; [lia | discriminate]].
  pose proof (normalize_reads name data w0) as Rn.
  destruct (normalize name data w0) as [[data'|e] w1]; cbn [snd] in Rn;
    change (reads w0) with (reads w) in Rn;
    [|cbn [fst snd]; split; [lia | discriminate]].
  unfold load_table_from_dataframe.
  destruct (schema_fits data' && types_fit data' && load_accepts w1 data');
    cbn [fst snd reads print set_console set_trace set_table]; rewrite Rn;
    split; try lia; try discriminate; reflexivity.
Qed.

(** Every way [process_csv_file] can end. *)
Lemma process_csv_file_cases file_path w :
  match process_csv_file file_path w with
  | (Ok _, w') =>
      exists content name data data' w1,
        files w file_path = Some content
        /\ extract_account_name (readline content) = Ok name
        /\ pd.read_csv content 4 = Ok data
        /\ normalize name data (set_trace (trace w ++ [Opened file_path]) w)
           = (Ok data', w1)
        /\ schema_fits data' = true /\ load_accepts w data' = true
        /\ table w' = (table w ++ frame_rows data')%list
        /\ trace w' = (trace w ++ [Opened file_path; LoadJob (frame_rows data')])%list
        /\ same_env w w'
  | (Raise _, w') =>
      table w' = table w
      /\ (trace w' = trace w \/ trace w' = (trace w ++ [Opened file_path])%list)
      /\ (files w file_path <> None -> trace w' = (trace w ++ [Opened file_path])%list)
      /\ same_env w w'
  end.
Proof.
  unfold process_csv_file, bind, open_read.
  destruct (files w file_path) as [content|] eqn:Ef.
  2:{ repeat split; auto. congruence. }
  set (w0 := set_trace (trace w ++ [Opened file_path]) w).
  unfold lift at 1.
  destruct (extract_account_name (readline content)) as [name|e] eqn:En.
  2:{ repeat split; auto. }
  unfold lift at 1.
  destruct (pd.read_csv content 4) as [data|e] eqn:Er.
  2:{ repeat split; auto. }
  pose proof (normalize_store name data w0) as Sn.
  destruct (normalize name data w0) as [[data'|e] w1] eqn:Enorm; cbn [snd] in Sn;
    destruct Sn as (s1 & s2 & s3 & s4 & s5 & s6).
  2:{ repeat split; auto; try congruence. }
  unfold load_table_from_dataframe.
  destruct (schema_fits data') eqn:Es; cbn [andb].
  2:{ repeat split; auto; try congruence. }
  destruct (types_fit data') eqn:Et; cbn [andb].
  2:{ repeat split; auto; try congruence. }
  destruct (load_accepts w1 data') eqn:El.
  2:{ repeat split; auto; try congruence. }
  cbn.
  exists content, name, data, data', w1.
  repeat split; auto; try congruence.
  - rewrite s4 in El. exact El.
  - now rewrite s5.
  - rewrite s6. cbn. now rewrite <- app_assoc.
Qed.

(** ** Frames *)

Lemma nrows_setitem data name col : nrows (setitem data name col) = nrows data.
Proof. unfold setitem. destruct (column_named name data); reflexivity. Qed.

Lemma nrows_prepared account_name today data :
  nrows (prepared account_name today data) = nrows data.
Proof. unfold prepared, rename_columns. cbn [nrows]. now rewrite !nrows_setitem. Qed.

Lemma column_named_in name s data :
  In (name, s) (columns data) -> In s (column_named name data).
Proof.
  intros H. unfold column_named. apply in_map_iff. exists (name, s).
  split; [reflexivity|]. apply filter_In. split; [exact H|].
  cbn. apply String.eqb_refl.
Qed.

Lemma column_named_inv name s data :
  In s (column_named name data) -> In (name, s) (columns data).
Proof.
  unfold column_named. intros H. apply in_map_iff in H as ([n s'] & <- & H).
  apply filter_In in H as [H E]. cbn in E. apply String.eqb_eq in E. now subst.
Qed.

Lemma in_setitem_self data name col : In (name, col) (columns (setitem data name col)).
Proof.
  unfold setitem. destruct (column_named name data) as [|s l] eqn:E; cbn [columns].
  - apply in_or_app. right. now left.
  - assert (H : In (name, s) (columns data))
      by (apply column_named_inv; rewrite E; now left).
    apply in_map_iff. exists (name, s). split; [|exact H].
    cbn. now rewrite String.eqb_refl.
Qed.

Lemma in_setitem_other data name other s col :
  name <> other ->
  In (name, s) (columns data) -> In (name, s) (columns (setitem data other col)).
Proof.
  intros Hne H. unfold setitem. destruct (column_named other data); cbn [columns].
  - apply in_or_app. now left.
  - apply in_map_iff. exists (name, s). split; [|exact H].
    cbn. apply String.eqb_neq in Hne. now rewrite Hne.
Qed.

Lemma in_rename data name s :
  In (name, s) (columns data) ->
  In (normalize_name name, s) (columns (rename_columns data)).
Proof.
  intros H. unfold rename_columns. cbn [columns].
  apply in_map_iff. exists (name, s). split; [reflexivity | exact H].
Qed.


Lemma nth_repeat_lt {A : Type} (c d : A) n i :
  (i < n)%nat -> nth i (repeat c n) d = c.
Proof.
  revert i. induction n as [|n IH]; intros i Hi; [lia|].
  destruct i; cbn; [reflexivity | apply IH; lia].
Qed.

(** A column present under a name stays when the four converted columns
    are stored back. *)
Lemma in_converted d0 name s po pi ba dt :
  name <> "paid_out" -> name <> "paid_in" -> name <> "balance" -> name <> "date" ->
  In (name, s) (columns d0) ->
  In (name, s)
     (columns (setitem (setitem (setitem (setitem d0 "paid_out" po) "paid_in" pi)
                          "balance" ba) "date" dt)).
Proof. intros. repeat apply in_setitem_other; auto. Qed.

(** ** The upload date *)

(** Every row one file uploads carries the date the clock showed at the
    one reading made for that file. *)
Lemma uploaded_rows_date account_name data w data' w' r :
  normalize account_name data w = (Ok data', w') ->
  schema_fits data' = true ->
  In r (frame_rows data') ->
  date_uploaded_of r = BDate (clock w (reads w)).
Proof.
  intros Hn Hs Hr.
  apply normalize_ok_inv in Hn
    as (po & po' & pi & pi' & ba & ba' & dt & dt' & _ & _ & _ & _ & _ & -> & _).
  set (today := clock w (reads w)) in *.
  set (d0 := prepared account_name today data) in *.
  set (final := setitem _ "date" dt') in *.
  set (col := broadcast (setitem data "account_name" (broadcast data (CStr account_name)))
                (CDate today)).
  assert (Hin : In ("date_uploaded", col) (columns final)).
  { apply in_converted; try discriminate.
    apply (in_rename _ "date_uploaded"). apply in_setitem_self. }
  assert (Hcol : column_named "date_uploaded" final = [col]).
  { unfold schema_fits, schema in Hs. cbn [forallb field_name] in Hs.
    repeat (apply andb_true_iff in Hs as [? Hs]).
    match goal with
    | H : (List.length (column_named "date_uploaded" final) =? 1)%nat = true |- _ =>
        apply Nat.eqb_eq in H; rename H into Hlen
    end.
    apply column_named_in in Hin.
    destruct (column_named "date_uploaded" final) as [|x [|y l]]; try discriminate Hlen.
    destruct Hin as [->|[]]. reflexivity. }
  unfold frame_rows in Hr. apply in_map_iff in Hr as (i & <- & Hi).
  apply in_seq in Hi.
  unfold date_uploaded_of, frame_row, schema. cbn [map nth field_name field_type].
  rewrite Hcol. unfold col, broadcast. cbn [values].
  rewrite nth_repeat_lt; [reflexivity|].
  assert (nrows final = nrows data)
    by (unfold final, d0; now rewrite !nrows_setitem, nrows_prepared).
  rewrite nrows_setitem. lia.
Qed.

(** ** The loop over the directory *)

Lemma dedup_calls_app a b : dedup_calls (a ++ b) = (dedup_calls a + dedup_calls b)%nat.
Proof. unfold dedup_calls. now rewrite filter_app, length_app. Qed.

Lemma dedup_calls_blocks blocks : dedup_calls (flat_map file_block blocks) = 0%nat.
Proof. induction blocks as [|b l IH]; [reflexivity | exact IH]. Qed.

Lemma same_env_refl w : same_env w w.
Proof. repeat split. Qed.

Lemma same_env_trans w1 w2 w3 : same_env w1 w2 -> same_env w2 w3 -> same_env w1 w3.
Proof.
  unfold same_env. intros (a1 & a2 & a3 & a4) (b1 & b2 & b3 & b4).
  repeat split; congruence.
Qed.

(** The shape of every run of the loop: the files read and uploaded, in
    the order of the selected entries; then, if the run stopped, at most
    the opening of the file that failed. *)
Lemma process_directory_run entries : forall w,
  exists blocks tail rest,
    trace (snd (process_directory entries w))
    = (trace w ++ flat_map file_block blocks ++ tail)%list
    /\ table (snd (process_directory entries w))
       = (table w ++ concat (map snd blocks))%list
    /\ same_env w (snd (process_directory entries w))
    /\ selected_paths entries = (map fst blocks ++ opened_paths tail ++ rest)%list
    /\ (tail = [] \/ exists p, tail = [Opened p])
    /\ (fst (process_directory entries w) = Ok tt -> tail = [] /\ rest = [])
    /\ (forall e, fst (process_directory entries w) = Raise e ->
        rest <> [] \/ tail <> [])
    /\ (forall b r, In b blocks -> In r (snd b) ->
        exists n, (reads w <= n < reads (snd (process_directory entries w)))%nat
                  /\ date_uploaded_of r = BDate (clock w n))
    /\ (reads w <= reads (snd (process_directory entries w)))%nat.
Proof.
  induction entries as [|f fs IH]; intros w.
  - exists [], [], []. cbn. rewrite app_nil_r.
    split; [reflexivity|]. split; [now rewrite app_nil_r|]. split; [apply same_env_refl|].
    split; [reflexivity|]. split; [now left|]. split; [auto|].
    split; [discriminate|]. split; [contradiction | lia].
  - assert (Hstep : process_directory (f :: fs) w
                    = if endswith f ".csv"
                      then match process_csv_file (path_join CSV_DIRECTORY f) w with
                           | (Ok _, w1) => process_directory fs w1
                           | (Raise e, w1) => (Raise e, w1)
                           end
                      else process_directory fs w).
    { unfold process_directory. cbn [for_each]. unfold bind.
      destruct (endswith f ".csv"); reflexivity. }
    rewrite Hstep. clear Hstep.
    unfold selected_paths in *. cbn [filter].
    destruct (endswith f ".csv") eqn:Ef; [|apply IH].
    pose proof (process_csv_file_cases (path_join CSV_DIRECTORY f) w) as Hc.
    pose proof (process_csv_file_reads (path_join CSV_DIRECTORY f) w) as [Hr1 Hr2].
    destruct (process_csv_file (path_join CSV_DIRECTORY f) w) as [[u|e] w1];
      cbn [fst snd] in Hr1, Hr2.
    + destruct Hc as (content & name & data & data' & w0 & _ & _ & _ & Hn & Hs & _
                      & Ht & Htr & He).
      specialize (Hr2 u eq_refl).
      destruct (IH w1)
        as (blocks & tail & rest & I1 & I2 & I3 & I4 & I5 & I6 & I7 & I8 & I9).
      exists ((path_join CSV_DIRECTORY f, frame_rows data') :: blocks), tail, rest.
      split; [rewrite I1, Htr; cbn; now rewrite <- !app_assoc|].
      split; [rewrite I2, Ht; cbn; now rewrite <- !app_assoc|].
      split; [apply (same_env_trans _ _ _ He I3)|].
      split; [cbn; now rewrite I4|].
      split; [exact I5|]. split; [exact I6|]. split; [exact I7|].
      split; [|lia].
      intros b r [<- | Hb] Hr.
      * cbn in Hr. exists (reads w). split; [lia|].
        apply (uploaded_rows_date _ _ _ _ _ _ Hn Hs Hr).
      * destruct (I8 b r Hb Hr) as (n & Hw & Hd). exists n. split; [lia|].
        destruct He as (_ & _ & Hck & _). now rewrite <- Hck.
    + destruct Hc as (Ht & Htr & _ & He).
      destruct Htr as [Htr | Htr].
      * exists [], [], (path_join CSV_DIRECTORY f
                         :: map (path_join CSV_DIRECTORY)
                              (filter (fun f0 => endswith f0 ".csv") fs)).
        cbn [fst snd flat_map map concat opened_paths app]. rewrite app_nil_r.
        split; [now rewrite Htr|]. split; [now rewrite Ht, app_nil_r|]. split; [exact He|].
        split; [reflexivity|]. split; [now left|].
        split; [discriminate|]. split; [left; discriminate|].
        split; [contradiction | lia].
      * exists [], [Opened (path_join CSV_DIRECTORY f)],
           (map (path_join CSV_DIRECTORY) (filter (fun f0 => endswith f0 ".csv") fs)).
        cbn [fst snd flat_map map concat opened_paths app]. rewrite app_nil_r.
        split; [exact Htr|]. split; [exact Ht|]. split; [exact He|].
        split; [reflexivity|]. split; [right; eauto|].
        split; [discriminate|]. split; [right; discriminate|].
        split; [contradiction | lia].
Qed.

(** What follows the loop reads no clock. *)
Lemma main_reads w entries :
  listing w = Some entries ->
  reads (snd (main w)) = reads (snd (process_directory entries w)).
Proof.
  intros Hl. unfold main, bind, listdir. rewrite Hl.
  destruct (process_directory entries w) as [[u|e] w1]; reflexivity.
Qed.

Lemma main_cases w :
  (listing w = None /\ main w = (Raise (FileNotFoundError "exports"), w))
  \/ exists entries,
       listing w = Some entries
       /\ match fst (process_directory entries w) with
          | Ok _ =>
              main w = remove_duplicates
                         (set_console
                            (console (snd (process_directory entries w)) ++ [MsgAllProcessed])
                            (snd (process_directory entries w)))
          | Raise e => main w = (Raise e, snd (process_directory entries w))
          end.
Proof.
  unfold main, bind, listdir. destruct (listing w) as [entries|]; [right | left; auto].
  exists entries. split; [reflexivity|].
  destruct (process_directory entries w) as [[u|e] w1]; reflexivity.
Qed.

(** The whole run: what [main] adds to the trace and to the table. *)
Lemma main_run w entries :
  listing w = Some entries ->
  exists blocks tail rest last,
    trace (snd (main w))
    = (trace w ++ flat_map file_block blocks ++ tail ++ last)%list
    /\ (tail = [] \/ exists p, tail = [Opened p])
    /\ selected_paths entries = (map fst blocks ++ opened_paths tail ++ rest)%list
    /\ match fst (main w) with
       | Ok _ => tail = [] /\ rest = [] /\ last = [DedupCalled]
                 /\ table (snd (main w))
                    = select_distinct (table w ++ concat (map snd blocks))
       | Raise _ => last = [] /\ (rest <> [] \/ tail <> [])
                    /\ table (snd (main w)) = (table w ++ concat (map snd blocks))%list
       end
    /\ (forall b r, In b blocks -> In r (snd b) ->
        exists n, (reads w <= n < reads (snd (main w)))%nat
                  /\ date_uploaded_of r = BDate (clock w n)).
Proof.
  intros Hl. destruct (main_cases w) as [[Hn _] | (entries' & Hl' & Hm)]; [congruence|].
  assert (entries' = entries) by congruence. subst entries'.
  rewrite (main_reads w entries Hl).
  destruct (process_directory_run entries w)
    as (blocks & tail & rest & I1 & I2 & I3 & I4 & I5 & I6 & I7 & I8 & _).
  destruct (fst (process_directory entries w)) as [[]|e] eqn:Er.
  - destruct (I6 eq_refl) as [-> ->].
    exists blocks, [], [], [DedupCalled].
    rewrite Hm, remove_duplicates_run.
    cbn [fst snd trace table set_console set_table set_trace].
    rewrite I1, I2. rewrite <- !app_assoc.
    repeat split; auto.
  - exists blocks, tail, rest, [].
    rewrite Hm. cbn [fst snd]. rewrite I1, I2, app_nil_r.
    repeat split; eauto.
Qed.

Lemma process_directory_skip entries w :
  filter (fun f => endswith f ".csv") entries = [] ->
  process_directory entries w = (Ok tt, w).
Proof.
  unfold process_directory.
  induction entries as [|f fs IH]; cbn [filter for_each]; [reflexivity|].
  destruct (endswith f ".csv") eqn:E; [discriminate|].
  intros H. unfold bind at 1. unfold ret at 1. exact (IH H).
Qed.

Lemma opened_paths_blocks blocks :
  opened_paths (flat_map file_block blocks) = map fst blocks.
Proof.
  induction blocks as [|b l IH]; [reflexivity|].
  unfold opened_paths in *. cbn [flat_map]. rewrite flat_map_app, IH. reflexivity.
Qed.

(** The run ends as the loop ends when the loop fails. *)
Lemma main_loop_result w entries :
  listing w = Some entries ->
  match fst (process_directory entries w) with
  | Ok _ => fst (main w) = Ok tt
  | Raise e => fst (main w) = Raise e
  end.
Proof.
  intros Hl. unfold main, bind, listdir. rewrite Hl.
  destruct (process_directory entries w) as [[u|e] w1]; reflexivity.
Qed.

(** C4, as amended: when the loop gets through every selected file, the
    deduplicator is called exactly once, after every file was opened and
    uploaded; when the loop fails at a file, the run ends with that
    failure and the deduplicator is not called; so it is when the
    directory cannot be listed; a directory without any entry ending in
    .csv gives a loop that does nothing at all, and that one call. *)
Theorem C4_deduplicator_once :
  (forall w entries,
      listing w = Some entries ->
      match fst (process_directory entries w) with
      | Ok _ =>
          exists evs,
            trace (snd (main w)) = (trace w ++ evs ++ [DedupCalled])%list
            /\ dedup_calls evs = 0%nat
            /\ opened_paths evs = selected_paths entries
      | Raise e =>
          fst (main w) = Raise e
          /\ exists evs, trace (snd (main w)) = (trace w ++ evs)%list
                         /\ dedup_calls evs = 0%nat
      end)
  /\ (forall w, listing w = None -> exists e, main w = (Raise e, w))
  /\ (forall w entries,
         listing w = Some entries ->
         filter (fun f => endswith f ".csv") entries = [] ->
         process_directory entries w = (Ok tt, w)
         /\ trace (snd (main w)) = (trace w ++ [DedupCalled])%list).
Proof.
  split; [|split].
  - intros w entries Hl.
    destruct (main_run w entries Hl)
      as (blocks & tail & rest & last & Ht & Htail & Hsel & Hm & _).
    assert (Hd : dedup_calls (flat_map file_block blocks ++ tail) = 0%nat).
    { rewrite dedup_calls_app, dedup_calls_blocks.
      destruct Htail as [-> | (p & ->)]; reflexivity. }
    pose proof (main_loop_result w entries Hl) as Hres.
    destruct (fst (process_directory entries w)) as [u|e]; rewrite Hres in Hm.
    + destruct Hm as (-> & -> & -> & _).
      exists (flat_map file_block blocks). split; [|split].
      * rewrite Ht. now rewrite app_nil_l.
      * now rewrite app_nil_r in Hd.
      * rewrite opened_paths_blocks, Hsel. cbn. now rewrite app_nil_r.
    + split; [exact Hres|]. destruct Hm as (-> & _).
      exists (flat_map file_block blocks ++ tail)%list. split; [|exact Hd].
      rewrite Ht. now rewrite app_nil_r.
  - intros w Hl. destruct (main_cases w) as [[_ Hm] | (entries & Hl' & _)]; [|congruence].
    eauto.
  - intros w entries Hl Hf. split; [exact (process_directory_skip _ _ Hf)|].
    unfold main, bind, listdir. rewrite Hl, (process_directory_skip _ _ Hf).
    reflexivity.
Qed.

Lemma C4_deduplicator_once_witness :
  process_directory ["notes.txt"; "OLD.CSV"] world_no_csv = (Ok tt, world_no_csv)
  /\ trace (snd (main world_no_csv)) = (trace world_no_csv ++ [DedupCalled])%list.
Proof.
  apply (proj2 (proj2 C4_deduplicator_once) world_no_csv ["notes.txt"; "OLD.CSV"]);
    reflexivity.
Defined.

(** C4 as stated fails: a statement whose summary line has no comma stops
    the run with an index error, and the deduplicator is never called. *)
Lemma C4_counterexample :
  fst (main world_bad_summary) = Raise IndexError
  /\ trace (snd (main world_bad_summary)) = [Opened "exports/a.csv"]
  /\ dedup_calls (trace (snd (main world_bad_summary))) = 0%nat.
Proof. repeat split; vm_compute; reflexivity. Qed.

(** ** The suffix filter *)

Lemma substring_skip a b n :
  substring (String.length a) n (a ++ b) = substring 0 n b.
Proof. induction a as [|x a IH]; simpl; [reflexivity | exact IH]. Qed.

Lemma substring_all b : substring 0 (String.length b) b = b.
Proof. induction b as [|x b IH]; simpl; [reflexivity | now rewrite IH]. Qed.

Lemma substring_cut n : forall s,
  (n <= String.length s)%nat ->
  s = substring 0 n s ++ substring n (String.length s - n) s.
Proof.
  induction n as [|n IH]; intros s Hn.
  - rewrite Nat.sub_0_r, substring_all. now destruct s.
  - destruct s as [|x s]; simpl in *; [lia|].
    f_equal. apply IH. lia.
Qed.

(** A name is measured against a suffix of the same length by plain
    equality of texts. *)
Lemma endswith_app stem tail suffix :
  String.length tail = String.length suffix ->
  endswith (stem ++ tail) suffix = String.eqb tail suffix.
Proof.
  intros Hlen. unfold endswith. rewrite string_length_app, <- Hlen.
  replace (String.length stem + String.length tail - String.length tail)%nat
    with (String.length stem) by lia.
  rewrite substring_skip, substring_all.
  replace (String.length tail <=? String.length stem + String.length tail)%nat
    with true by (symmetry; apply Nat.leb_le; lia).
  reflexivity.
Qed.

Lemma endswith_inv name suffix :
  endswith name suffix = true -> exists stem, name = stem ++ suffix.
Proof.
  unfold endswith. intros H. apply andb_true_iff in H as [Hlen Heq].
  apply Nat.leb_le in Hlen. apply String.eqb_eq in Heq.
  exists (substring 0 (String.length name - String.length suffix) name).
  pose proof (substring_cut (String.length name - String.length suffix) name
                ltac:(lia)) as Hcut.
  replace (String.length name - (String.length name - String.length suffix))%nat
    with (String.length suffix) in Hcut by lia.
  now rewrite Heq in Hcut.
Qed.

(** C9, as amended: the loop takes an entry exactly when its name ends in
    the lower-case text .csv, so a name ending in .CSV, or in any other
    four characters, is passed over; the files a run opens are the
    selected entries in order, all of them when the loop gets through
    them and the first ones when a failure stops it; every upload belongs
    to one of them, and no other file is opened. *)
Theorem C9_csv_suffix_filter :
  (forall name, endswith name ".csv" = true <-> exists stem, name = stem ++ ".csv")
  /\ (forall stem, endswith (stem ++ ".CSV") ".csv" = false)
  /\ (forall stem tail,
         String.length tail = 4%nat -> tail <> ".csv" ->
         endswith (stem ++ tail) ".csv" = false)
  /\ (forall w entries,
         listing w = Some entries ->
         exists blocks tail rest last,
           trace (snd (main w))
           = (trace w ++ flat_map file_block blocks ++ tail ++ last)%list
           /\ (tail = [] \/ exists p, tail = [Opened p])
           /\ (last = [] \/ last = [DedupCalled])
           /\ selected_paths entries = (map fst blocks ++ opened_paths tail ++ rest)%list
           /\ (forall u, fst (process_directory entries w) = Ok u ->
               tail = [] /\ rest = [])
           /\ (forall p, In p (map fst blocks ++ opened_paths tail) ->
               exists name, In name entries /\ endswith name ".csv" = true
                            /\ p = path_join CSV_DIRECTORY name)).
Proof.
  split; [|split; [|split]].
  - intros name. split; [apply endswith_inv|].
    intros (stem & ->). now rewrite endswith_app.
  - intros stem. now rewrite endswith_app.
  - intros stem tail Hlen Hne. rewrite endswith_app by exact Hlen.
    now apply String.eqb_neq.
  - intros w entries Hl.
    destruct (main_run w entries Hl)
      as (blocks & tail & rest & last & Ht & Htail & Hsel & Hm & _).
    exists blocks, tail, rest, last.
    split; [exact Ht|]. split; [exact Htail|].
    split; [destruct (fst (main w)); [right | left]; tauto|].
    split; [exact Hsel|].
    split.
    { intros u Hok. pose proof (main_loop_result w entries Hl) as Hres.
      rewrite Hok in Hres. rewrite Hres in Hm. tauto. }
    intros p Hp.
    assert (Hin : In p (selected_paths entries))
      by (rewrite Hsel, app_assoc; apply in_or_app; now left).
    unfold selected_paths in Hin. apply in_map_iff in Hin as (name & <- & Hin).
    apply filter_In in Hin as [Hin Hcsv]. eauto.
Qed.

Lemma C9_csv_suffix_filter_witness :
  endswith ("statement" ++ ".Csv") ".csv" = false.
Proof.
  apply (proj1 (proj2 (proj2 C9_csv_suffix_filter)) "statement" ".Csv");
    [reflexivity | discriminate].
Defined.

(** C9 as stated fails: the entry b.csv ends in .csv and is a statement in
    good order, yet the run never opens it, because the entry before it
    fails. *)
Lemma C9_counterexample :
  listing world_stopped = Some ["a.csv"; "b.csv"]
  /\ endswith "b.csv" ".csv" = true
  /\ fst (main world_stopped) = Raise IndexError
  /\ opened_paths (trace (snd (main world_stopped))) = ["exports/a.csv"]
  /\ table (snd (main world_stopped)) = []
  /\ fst (process_csv_file "exports/b.csv" world_stopped) = Ok tt.
Proof. repeat split; vm_compute; reflexivity. Qed.

(** ** The upload date, over a run *)

(** C5, as amended: the rows one file uploads all carry the date of the
    one clock reading made for that file; over a run, every uploaded row
    carries the date of a reading made during the run, so the rows of all
    files share one date whenever the clock shows the same date at every
    reading the run makes. *)
Theorem C5_upload_date :
  (forall file_path w w',
      process_csv_file file_path w = (Ok tt, w') ->
      exists rows,
        table w' = (table w ++ rows)%list
        /\ forall r, In r rows -> date_uploaded_of r = BDate (clock w (reads w)))
  /\ (forall w today,
         (forall n, (reads w <= n < reads (snd (main w)))%nat -> clock w n = today) ->
         forall r, In r (table (snd (main w))) ->
                   In r (table w) \/ date_uploaded_of r = BDate today).
Proof.
  split.
  - intros file_path w w' H.
    pose proof (process_csv_file_cases file_path w) as Hc. rewrite H in Hc.
    destruct Hc as (content & name & data & data' & w1 & _ & _ & _ & Hn & Hs & _
                    & Ht & _).
    exists (frame_rows data'). split; [exact Ht|].
    intros r Hr. apply (uploaded_rows_date _ _ _ _ _ _ Hn Hs Hr).
  - intros w today Hclock r Hr.
    destruct (listing w) as [entries|] eqn:Hl.
    + destruct (main_run w entries Hl)
        as (blocks & tail & rest & last & _ & _ & _ & Hm & Hd).
      assert (Hin : In r (table w ++ concat (map snd blocks))).
      { destruct (fst (main w)).
        - destruct Hm as (_ & _ & _ & Hm). rewrite Hm in Hr.
          unfold select_distinct in Hr. now apply nodup_In in Hr.
        - destruct Hm as (_ & _ & Hm). now rewrite Hm in Hr. }
      apply in_app_or in Hin as [Hin | Hin]; [now left | right].
      apply in_concat in Hin as (rows & Hrows & Hin).
      apply in_map_iff in Hrows as (b & <- & Hb).
      destruct (Hd b r Hb Hin) as (n & Hw & Hn). now rewrite Hn, (Hclock n Hw).
    + destruct (main_cases w) as [[_ Hm] | (entries & Hl' & _)]; [|congruence].
      rewrite Hm in Hr. now left.
Qed.

(** Three rows of two files, uploaded in a run that reads the clock twice
    on one day; the clock shows the next day afterwards. *)
Lemma C5_upload_date_witness :
  List.length (table (snd (main world_two_statements))) = 3%nat
  /\ Forall (fun r => In r (table world_two_statements)
                      \/ date_uploaded_of r = BDate (mkDate 2024 1 31))
       (table (snd (main world_two_statements))).
Proof.
  split; [vm_compute; reflexivity|].
  apply Forall_forall.
  apply (proj2 C5_upload_date world_two_statements (mkDate 2024 1 31)).
  intros n [_ Hn].
  assert (Hr : reads (snd (main world_two_statements)) = 2%nat)
    by (vm_compute; reflexivity).
  rewrite Hr in Hn. destruct n as [|[|n]]; [reflexivity | reflexivity | lia].
Defined.

(** C5 as stated fails: the clock is read once for each file, so two
    files processed on either side of midnight get different dates. *)
Lemma C5_counterexample :
  fst (main world_midnight) = Ok tt
  /\ map date_uploaded_of (table (snd (main world_midnight)))
     = [BDate (mkDate 2024 1 31); BDate (mkDate 2024 2 1)].
Proof. split; vm_compute; reflexivity. Qed.

(** ** Dates that do not parse *)












(** ** A statement without rows *)

Lemma column_named_map_other name other col l :
  name <> other ->
  map snd (filter (fun p : string * Series => String.eqb (fst p) name)
             (map (fun p => if String.eqb (fst p) other then (other, col) else p) l))
  = map snd (filter (fun p : string * Series => String.eqb (fst p) name) l).
Proof.
  intros Hne. induction l as [|[n s] l IH]; [reflexivity|].
  cbn [map filter fst]. destruct (String.eqb_spec n other) as [-> | Hn]; cbn [fst].
  - apply not_eq_sym in Hne. apply String.eqb_neq in Hne. rewrite Hne. exact IH.
  - destruct (String.eqb n name); cbn [map snd]; now rewrite IH.
Qed.

Lemma column_named_map_self name col l :
  map snd (filter (fun p : string * Series => String.eqb (fst p) name)
             (map (fun p => if String.eqb (fst p) name then (name, col) else p) l))
  = map (fun _ => col)
      (map snd (filter (fun p : string * Series => String.eqb (fst p) name) l)).
Proof.
  induction l as [|[n s] l IH]; [reflexivity|].
  cbn [map filter fst]. destruct (String.eqb n name) eqn:E; cbn [fst].
  - rewrite String.eqb_refl. cbn [map snd]. now rewrite IH.
  - rewrite E. exact IH.
Qed.

Lemma column_named_setitem_other data name other col :
  name <> other ->
  column_named name (setitem data other col) = column_named name data.
Proof.
  intros Hne. unfold setitem.
  destruct (column_named other data); unfold column_named; cbn [columns].
  - rewrite filter_app, map_app. cbn [filter fst].
    apply not_eq_sym in Hne. apply String.eqb_neq in Hne. rewrite Hne.
    apply app_nil_r.
  - now apply column_named_map_other.
Qed.

Lemma column_named_setitem_self data name col s :
  column_named name data = [s] ->
  column_named name (setitem data name col) = [col].
Proof.
  intros H. unfold setitem. rewrite H. unfold column_named in *. cbn [columns].
  now rewrite column_named_map_self, H.
Qed.

Lemma getitem_unique data name s :
  column_named name data = [s] -> getitem data name = Ok s.
Proof. intros H. unfold getitem. now rewrite H. Qed.

Lemma schema_fits_column data name :
  schema_fits data = true ->
  In name (map field_name schema) ->
  exists s, column_named name data = [s].
Proof.
  unfold schema_fits. rewrite forallb_forall. intros H Hin.
  apply in_map_iff in Hin as (f & <- & Hf). specialize (H f Hf).
  apply Nat.eqb_eq in H.
  destruct (column_named (field_name f) data) as [|s [|]]; try discriminate; eauto.
Qed.

Lemma forallb_same {A : Type} (f g : A -> bool) l :
  (forall a, f a = g a) -> forallb f l = forallb g l.
Proof. intros H. induction l as [|a l IH]; cbn; [reflexivity | now rewrite H, IH]. Qed.

Lemma schema_fits_setitem data name col s :
  column_named name data = [s] ->
  schema_fits (setitem data name col) = schema_fits data.
Proof.
  intros H. unfold schema_fits. apply forallb_same. intros f.
  destruct (String.eqb_spec (field_name f) name) as [-> | Hne].
  - now rewrite (column_named_setitem_self _ _ _ _ H), H.
  - now rewrite column_named_setitem_other.
Qed.

Lemma blank_columns_setitem data name c :
  blank_columns data -> blank_columns (setitem data name (broadcast data c)).
Proof.
  intros [Hn Hc]. split; [now rewrite nrows_setitem|].
  assert (Hb : broadcast data c = mkSeries object [])
    by (unfold broadcast; now rewrite Hn).
  rewrite Hb. unfold setitem. destruct (column_named name data); cbn [columns].
  - rewrite map_app. intros x Hs. apply in_app_or in Hs as [Hs | [<- | []]]; auto.
  - intros x Hs. apply in_map_iff in Hs as ([n s'] & <- & Hs).
    apply in_map_iff in Hs as ([n0 s0] & Hp & Hs).
    cbn [fst] in Hp. destruct (String.eqb n0 name).
    + now injection Hp as _ <-.
    + injection Hp as _ <-. apply Hc. apply in_map_iff. now exists (n0, s0).
Qed.

Lemma blank_columns_prepared account_name today data :
  blank_columns data -> blank_columns (prepared account_name today data).
Proof.
  intros H. unfold prepared.
  pose proof (blank_columns_setitem _ "date_uploaded" (CDate today)
                (blank_columns_setitem _ "account_name" (CStr account_name) H))
    as [Hn Hc].
  split; [exact Hn|]. unfold rename_columns. cbn [columns].
  intros s Hs. apply Hc. rewrite map_map in Hs. cbn [snd] in Hs. exact Hs.
Qed.

Lemma blank_column_named data name s :
  blank_columns data -> column_named name data = [s] -> s = mkSeries object [].
Proof.
  intros [_ Hc] H. apply Hc. apply in_map_iff. exists (name, s).
  split; [reflexivity|]. apply column_named_inv. rewrite H. now left.
Qed.

Lemma mangled_columns names : forall start : nat,
  map (fun p : nat * string => (snd p, pd.infer_column []))
      (combine (seq start (List.length names)) names)
  = map (fun name : string => (name, mkSeries object [])) names.
Proof.
  induction names as [|n names IH]; intros start; [reflexivity|].
  cbn [List.length seq combine map snd]. f_equal. apply IH.
Qed.

Lemma read_csv_header_only content header :
  pd.open_quote 4 pd.StartField content = false ->
  kept_lines content = [header] ->
  pd.read_csv content 4 = Ok (header_frame header).
Proof.
  intros Hq H. unfold pd.read_csv. unfold kept_lines in H. rewrite Hq, H.
  cbn [map existsb List.length].
  unfold header_frame. f_equal. f_equal.
  rewrite <- (mangled_columns _ 0). apply map_ext. now intros [i name].
Qed.

Lemma currency_to_float_blank w :
  currency_to_float (mkSeries object []) w = (Ok (mkSeries int64 []), w).
Proof. reflexivity. Qed.

Lemma bind_ok {A B : Type} (c : M A) (k : A -> M B) w a w1 :
  c w = (Ok a, w1) -> bind c k w = k a w1.
Proof. intros H. unfold bind. now rewrite H. Qed.

(** On a frame without rows whose columns fit the schema, [normalize]
    succeeds, and the frame it makes is one the load job takes. *)
Lemma normalize_blank account_name data w :
  blank_columns data ->
  schema_fits (prepared account_name (clock w (reads w)) data) = true ->
  exists data',
    normalize account_name data w = (Ok data', set_reads (S (reads w)) w)
    /\ schema_fits data' = true /\ types_fit data' = true /\ nrows data' = 0%nat.
Proof.
  intros Hb Hs. unfold normalize.
  rewrite (bind_ok now_date _ w (clock w (reads w)) (set_reads (S (reads w)) w) eq_refl).
  fold (prepared account_name (clock w (reads w)) data).
  set (d0 := prepared account_name (clock w (reads w)) data) in *.
  set (w1 := set_reads (S (reads w)) w).
  pose proof (blank_columns_prepared account_name (clock w (reads w)) data Hb) as B0.
  fold d0 in B0.
  destruct (schema_fits_column d0 "paid_out" Hs ltac:(cbn; tauto)) as (s1 & H1).
  destruct (schema_fits_column d0 "paid_in" Hs ltac:(cbn; tauto)) as (s2 & H2).
  destruct (schema_fits_column d0 "balance" Hs ltac:(cbn; tauto)) as (s3 & H3).
  destruct (schema_fits_column d0 "date" Hs ltac:(cbn; tauto)) as (s4 & H4).
  pose proof (blank_column_named _ _ _ B0 H1). subst s1.
  pose proof (blank_column_named _ _ _ B0 H2). subst s2.
  pose proof (blank_column_named _ _ _ B0 H3). subst s3.
  pose proof (blank_column_named _ _ _ B0 H4). subst s4.
  set (x := mkSeries int64 []).
  set (d1 := setitem d0 "paid_out" x).
  set (d2 := setitem d1 "paid_in" x).
  set (d3 := setitem d2 "balance" x).
  assert (G2 : column_named "paid_in" d1 = [mkSeries object []])
    by (unfold d1; now rewrite column_named_setitem_other).
  assert (G3 : column_named "balance" d2 = [mkSeries object []])
    by (unfold d2, d1; now rewrite !column_named_setitem_other).
  assert (G4 : column_named "date" d3 = [mkSeries object []])
    by (unfold d3, d2, d1; now rewrite !column_named_setitem_other).
  rewrite (bind_ok (lift (getitem d0 "paid_out")) _ w1 (mkSeries object []) w1)
    by (unfold lift; now rewrite (getitem_unique _ _ _ H1)).
  rewrite (bind_ok (currency_to_float _) _ w1 x w1) by reflexivity.
  fold d1.
  rewrite (bind_ok (lift (getitem d1 "paid_in")) _ w1 (mkSeries object []) w1)
    by (unfold lift; now rewrite (getitem_unique _ _ _ G2)).
  rewrite (bind_ok (currency_to_float _) _ w1 x w1) by reflexivity.
  fold d2.
  rewrite (bind_ok (lift (getitem d2 "balance")) _ w1 (mkSeries object []) w1)
    by (unfold lift; now rewrite (getitem_unique _ _ _ G3)).
  rewrite (bind_ok (currency_to_float _) _ w1 x w1) by reflexivity.
  fold d3.
  rewrite (bind_ok (lift (getitem d3 "date")) _ w1 (mkSeries object []) w1)
    by (unfold lift; now rewrite (getitem_unique _ _ _ G4)).
  rewrite (bind_ok (lift (pd.to_datetime _)) _ w1 (mkSeries datetime64 []) w1)
    by reflexivity.
  exists (setitem d3 "date" (mkSeries datetime64 [])).
  split; [reflexivity|]. split; [|split].
  - rewrite (schema_fits_setitem _ _ _ _ G4). unfold d3.
    rewrite (schema_fits_setitem _ _ _ _ G3). unfold d2.
    rewrite (schema_fits_setitem _ _ _ _ G2). unfold d1.
    now rewrite (schema_fits_setitem _ _ _ _ H1).
  - assert (Hkeep : forall n, In n (map field_name schema) ->
              n <> "paid_out" -> n <> "paid_in" -> n <> "balance" -> n <> "date" ->
              column_named n (setitem d3 "date" (mkSeries datetime64 []))
              = [mkSeries object []]).
    { intros n Hn N1 N2 N3 N4. unfold d3, d2, d1.
      rewrite !column_named_setitem_other by assumption.
      destruct (schema_fits_column d0 n Hs Hn) as (s0 & Hq).
      now rewrite Hq, (blank_column_named _ _ _ B0 Hq). }
    assert (Fd : column_named "date" (setitem d3 "date" (mkSeries datetime64 []))
                 = [mkSeries datetime64 []])
      by exact (column_named_setitem_self _ _ _ _ G4).
    assert (Fb : column_named "balance" (setitem d3 "date" (mkSeries datetime64 []))
                 = [x]).
    { rewrite column_named_setitem_other by discriminate.
      exact (column_named_setitem_self _ _ _ _ G3). }
    assert (Fi : column_named "paid_in" (setitem d3 "date" (mkSeries datetime64 []))
                 = [x]).
    { rewrite column_named_setitem_other by discriminate. unfold d3.
      rewrite column_named_setitem_other by discriminate.
      exact (column_named_setitem_self _ _ _ _ G2). }
    assert (Fo : column_named "paid_out" (setitem d3 "date" (mkSeries datetime64 []))
                 = [x]).
    { rewrite column_named_setitem_other by discriminate. unfold d3.
      rewrite column_named_setitem_other by discriminate. unfold d2.
      rewrite column_named_setitem_other by discriminate.
      exact (column_named_setitem_self _ _ _ _ H1). }
    unfold types_fit, schema. cbn [forallb field_name field_type].
    rewrite (Hkeep "account_name"), (Hkeep "transaction_type"), (Hkeep "description"),
      (Hkeep "date_uploaded") by (cbn; try tauto; discriminate).
    rewrite Fd, Fb, Fi, Fo. reflexivity.
  - unfold d3, d2, d1. rewrite !nrows_setitem. apply B0.
Qed.

Lemma blank_line_cons a l : pd.blank_line l = false -> pd.blank_line (String a l) = false.
Proof. intros H. cbn [pd.blank_line]. rewrite H. apply andb_false_r. Qed.

(** A text that ends inside a quoted field of a line that is kept has a
    kept line that is not blank. *)
Lemma open_quote_kept content : forall skip st,
  pd.open_quote skip st content = true ->
  (st = pd.InQuoted /\ skip = 0%nat)
  \/ filter (fun l => negb (pd.blank_line l))
       (skipn skip (pd.logical_lines skip st content)) <> [].
Proof.
  induction content as [|a rest IH]; intros skip st H; cbn [pd.open_quote] in H.
  - left. apply andb_true_iff in H as [Hs Hq]. apply Nat.eqb_eq in Hs.
    destruct st; try discriminate Hq. now split.
  - cbn [pd.logical_lines].
    destruct (Ascii.eqb a newline && negb (pd.in_quotes st)) eqn:Enl.
    + right. destruct (IH _ _ H) as [[Hst _] | Hk]; [discriminate Hst|].
      destruct skip as [|k]; cbn [Nat.pred skipn filter pd.blank_line negb] in *;
        exact Hk.
    + destruct (IH _ _ H) as [[Hst ->] | Hk].
      * destruct (pd.in_quotes st) eqn:Eq; [left; destruct st; try discriminate Eq; auto|].
        right. cbn [Nat.ltb Nat.leb] in Hst.
        assert (Ha : Ascii.eqb a dquote = true).
        { unfold pd.next_state in Hst. change (0 <? 0)%nat with false in Hst.
          rewrite andb_false_r in Hst.
          destruct st; try discriminate Eq;
            destruct (Ascii.eqb a dquote); try reflexivity;
            destruct (Ascii.eqb a ","%char); discriminate Hst. }
        apply Ascii.eqb_eq in Ha. subst a.
        destruct (pd.logical_lines 0 _ rest); cbn [skipn filter pd.blank_line];
          discriminate.
      * right. destruct (pd.logical_lines skip _ rest) as [|l ls] eqn:El.
        { destruct skip; cbn in Hk; congruence. }
        destruct skip as [|k]; [|exact Hk].
        cbn [skipn filter] in *.
        destruct (pd.blank_line l) eqn:Eb; cbn [negb] in *.
        -- destruct (pd.blank_line (String a l)); cbn [negb]; [exact Hk | discriminate].
        -- rewrite (blank_line_cons a l Eb). discriminate.
Qed.

(** C8, as amended: a statement whose text after the four skipped lines
    is the header line alone, no quoted field left open, the header
    naming (once the derived columns are added and the names normalised)
    each field of the schema exactly once, is processed without error and
    uploads zero rows, when the store accepts a load job without rows; a
    statement with nothing after the four skipped lines is rejected: an
    error is raised, the reader's own when the summary line is well
    formed, and no row is uploaded. *)
Theorem C8_header_only_statement :
  (forall file_path w content name header,
      files w file_path = Some content ->
      extract_account_name (readline content) = Ok name ->
      pd.open_quote 4 pd.StartField content = false ->
      kept_lines content = [header] ->
      schema_fits (prepared name (clock w (reads w)) (header_frame header)) = true ->
      (forall data, nrows data = 0%nat -> load_accepts w data = true) ->
      exists w',
        process_csv_file file_path w = (Ok tt, w')
        /\ table w' = table w
        /\ trace w' = (trace w ++ [Opened file_path; LoadJob []])%list)
  /\ (forall file_path w content,
         files w file_path = Some content ->
         kept_lines content = [] ->
         exists e w',
           process_csv_file file_path w = (Raise e, w')
           /\ table w' = table w
           /\ trace w' = (trace w ++ [Opened file_path])%list
           /\ (forall name, extract_account_name (readline content) = Ok name ->
               e = EmptyDataError)).
Proof.
  split.
  - intros file_path w content name header Hf Hn Hq Hh Hs Hl.
    set (w0 := set_trace (trace w ++ [Opened file_path]) w).
    assert (Hb : blank_columns (header_frame header)).
    { split; [reflexivity|]. unfold header_frame. cbn [columns].
      rewrite map_map. cbn [snd]. intros s Hin.
      apply in_map_iff in Hin as (n & <- & _). reflexivity. }
    destruct (normalize_blank name (header_frame header) w0 Hb Hs)
      as (data' & Hnorm & Hfit & Htypes & Hrows).
    unfold process_csv_file.
    rewrite (bind_ok (open_read file_path) _ w content w0)
      by (unfold open_read; now rewrite Hf).
    rewrite (bind_ok (lift _) _ w0 name w0) by (unfold lift; now rewrite Hn).
    rewrite (bind_ok (lift _) _ w0 (header_frame header) w0)
      by (unfold lift; now rewrite (read_csv_header_only _ _ Hq Hh)).
    rewrite (bind_ok _ _ w0 data' _ Hnorm).
    unfold bind, load_table_from_dataframe. rewrite Hfit, Htypes.
    cbn [load_accepts set_reads w0 set_trace]. rewrite (Hl data' Hrows). cbn [andb].
    unfold frame_rows. rewrite Hrows. cbn [seq map].
    eexists. split; [reflexivity|]. cbn. split; [apply app_nil_r|].
    now rewrite <- app_assoc.
  - intros file_path w content Hf Hh.
    assert (Hr : pd.read_csv content 4 = Raise EmptyDataError).
    { unfold pd.read_csv.
      destruct (pd.open_quote 4 pd.StartField content) eqn:Eq.
      - destruct (open_quote_kept _ _ _ Eq) as [[_ Hz] | Hk]; [discriminate Hz|].
        unfold kept_lines in Hh. congruence.
      - unfold kept_lines in Hh. now rewrite Hh. }
    unfold process_csv_file, bind, open_read, lift. rewrite Hf, Hr.
    destruct (extract_account_name (readline content)) as [name|e].
    + eexists; eexists. split; [reflexivity|]. repeat split.
    + eexists; eexists. split; [reflexivity|]. repeat split. discriminate.
Qed.

(** A store that takes load jobs without rows and no others. *)
Lemma C8_header_only_statement_witness :
  exists w',
    process_csv_file "exports/a.csv" world_header_only = (Ok tt, w')
    /\ table w' = []
    /\ trace w' = [Opened "exports/a.csv"; LoadJob []].
Proof.
  apply (proj1 C8_header_only_statement "exports/a.csv" world_header_only
           (statement "") ("My Account" ++ String dquote nl)
           (quoted "Date" ++ "," ++ quoted "Transaction type" ++ "," ++
            quoted "Description" ++ "," ++ quoted "Paid out" ++ "," ++
            quoted "Paid in" ++ "," ++ quoted "Balance"));
    try reflexivity.
  intros data Hrows. cbn. rewrite Hrows. reflexivity.
Defined.

(** C8 as stated fails, however its lines are counted: a statement of
    four lines, with nothing after the skipped rows, is rejected with an
    error; a statement with two lines after the skipped rows, the header
    and one transaction, uploads that transaction. *)
Lemma C8_counterexample :
  List.length (splitlines statement_four_lines) = 4%nat
  /\ List.length (pd.logical_lines 4 pd.StartField statement_four_lines) = 4%nat
  /\ process_csv_file "exports/a.csv"
       (world_of [("a.csv", statement_four_lines)] (fun _ => mkDate 2024 1 5))
     = (Raise EmptyDataError,
        set_trace [Opened "exports/a.csv"]
          (world_of [("a.csv", statement_four_lines)] (fun _ => mkDate 2024 1 5)))
  /\ List.length
       (kept_lines (statement (row "05 Jan 2024" "Visa" "TESCO" "£50.00" "" "£1,239.56")))
     = 2%nat
  /\ fst (process_csv_file "exports/a.csv"
            (world_of [("a.csv", statement (row "05 Jan 2024" "Visa" "TESCO" "£50.00" "" "£1,239.56"))]
                      (fun _ => mkDate 2024 1 5)))
     = Ok tt
  /\ List.length
       (table (snd (process_csv_file "exports/a.csv"
                      (world_of [("a.csv", statement (row "05 Jan 2024" "Visa" "TESCO" "£50.00" "" "£1,239.56"))]
                                (fun _ => mkDate 2024 1 5)))))
     = 1%nat.
Proof. repeat split; vm_compute; reflexivity. Qed.

(** * Further properties of the script *)

(** ** [extract_account_name] *)

Lemma split_not_nil c s : split c s <> [].
Proof.
  destruct s as [|a s]; cbn; [discriminate|].
  destruct (Ascii.eqb a c); [discriminate|].
  destruct (split c s); discriminate.
Qed.

Lemma contains_cut c s :
  contains c s = true ->
  exists f rest, s = f ++ String c rest /\ contains c f = false.
Proof.
  induction s as [|a s IH]; cbn; [discriminate|].
  destruct (Ascii.eqb_spec a c) as [-> | Hne]; cbn.
  - intros _. exists "", s. split; reflexivity.
  - intros H. destruct (IH H) as (f & rest & -> & Hf).
    exists (String a f), rest. split; [reflexivity|].
    cbn. apply Ascii.eqb_neq in Hne. now rewrite Hne.
Qed.

Lemma split_fields_clean c s f : In f (split c s) -> contains c f = false.
Proof.
  revert f. induction s as [|a s IH]; intros f; cbn.
  - intros [<- | []]. reflexivity.
  - destruct (Ascii.eqb a c) eqn:E.
    + intros [<- | H]; [reflexivity | now apply IH].
    + destruct (split c s) as [|g gs] eqn:Es.
      * intros [<- | []]. cbn. now rewrite E.
      * intros [<- | H].
        -- cbn. rewrite E. apply IH. now left.
        -- apply IH. now right.
Qed.

Lemma lstrip_contains c x s : contains x (lstrip c s) = true -> contains x s = true.
Proof.
  induction s as [|a s IH]; cbn; [auto|].
  destruct (Ascii.eqb a c); [|auto].
  intros H. rewrite (IH H). apply orb_true_r.
Qed.

Lemma rstrip_contains c x s : contains x (rstrip c s) = true -> contains x s = true.
Proof.
  induction s as [|a s IH]; cbn; [auto|].
  destruct (rstrip c s) as [|b r] eqn:E.
  - destruct (Ascii.eqb a c); cbn; [discriminate|].
    rewrite orb_false_r. intros ->. reflexivity.
  - cbn [contains]. intros H. apply orb_true_iff in H as [H | H].
    + now rewrite H.
    + rewrite (IH H). apply orb_true_r.
Qed.

Lemma lstrip_starts c s : starts_with c (lstrip c s) = false.
Proof.
  induction s as [|a s IH]; cbn; [reflexivity|].
  destruct (Ascii.eqb a c) eqn:E; [exact IH | cbn; exact E].
Qed.

Lemma rstrip_ends c s : ends_with c (rstrip c s) = false.
Proof.
  induction s as [|a s IH]; cbn [rstrip]; [reflexivity|].
  destruct (rstrip c s) as [|b r] eqn:E.
  - destruct (Ascii.eqb a c) eqn:Ea; cbn; [reflexivity | exact Ea].
  - exact IH.
Qed.

Lemma rstrip_starts c s :
  starts_with c s = false -> starts_with c (rstrip c s) = false.
Proof.
  destruct s as [|a s]; cbn [rstrip starts_with]; [auto|].
  intros Ha. destruct (rstrip c s); [rewrite Ha|]; cbn; auto.
Qed.

(** X1: the account name is found exactly when the summary line holds a
    comma; a line without one raises the index error. *)
Theorem extract_account_name_defined line :
  (contains ","%char line = true <-> exists name, extract_account_name line = Ok name)
  /\ (contains ","%char line = false <-> extract_account_name line = Raise IndexError).
Proof.
  assert (Hyes : contains ","%char line = true ->
                 exists name, extract_account_name line = Ok name).
  { intros H. destruct (contains_cut _ _ H) as (f & rest & -> & Hf).
    unfold extract_account_name. rewrite (split_app _ _ _ Hf).
    pose proof (split_not_nil ","%char rest) as Hne.
    destruct (split ","%char rest) as [|g gs]; [congruence|].
    cbn. eauto. }
  split; split.
  - exact Hyes.
  - intros (name & Hn). destruct (contains ","%char line) eqn:E; [reflexivity|].
    rewrite (extract_account_name_one_field _ E) in Hn. discriminate.
  - apply extract_account_name_one_field.
  - intros Hr. destruct (contains ","%char line) eqn:E; [|reflexivity].
    destruct (Hyes eq_refl) as (name & Hn). congruence.
Qed.

Lemma extract_account_name_defined_witness :
  exists name, extract_account_name "Statement,My Account,GBP" = Ok name.
Proof.
  apply (proj1 (proj1 (extract_account_name_defined "Statement,My Account,GBP"))).
  reflexivity.
Defined.

(** X2: an extracted account name never begins or ends with a quote mark
    and never holds a comma. *)
Theorem extract_account_name_clean line name :
  extract_account_name line = Ok name ->
  starts_with dquote name = false
  /\ ends_with dquote name = false
  /\ contains ","%char name = false.
Proof.
  unfold extract_account_name.
  destruct (nth_error (split ","%char line) 1) as [field|] eqn:E; [|discriminate].
  intros [= <-]. unfold strip. split; [|split].
  - apply rstrip_starts, lstrip_starts.
  - apply rstrip_ends.
  - apply nth_error_In in E. apply split_fields_clean in E.
    destruct (contains ","%char (rstrip dquote (lstrip dquote field))) eqn:C;
      [|reflexivity].
    apply rstrip_contains, lstrip_contains in C. congruence.
Qed.

Lemma extract_account_name_clean_witness :
  starts_with dquote "My Account" = false
  /\ ends_with dquote "My Account" = false
  /\ contains ","%char "My Account" = false.
Proof.
  apply (extract_account_name_clean
           (quoted "Statement" ++ "," ++ quoted "My Account" ++ "," ++ quoted "GBP")
           "My Account").
  reflexivity.
Defined.

(** X3: when the summary line has a third field, the name is the second
    field without its quotes, whatever the first field and the fields
    after the second hold. *)
Theorem extract_account_name_second_of_three f0 g0 f1 rest rest' :
  contains ","%char f0 = false -> contains ","%char g0 = false ->
  contains ","%char f1 = false ->
  extract_account_name (f0 ++ "," ++ f1 ++ "," ++ rest) = Ok (strip dquote f1)
  /\ extract_account_name (g0 ++ "," ++ f1 ++ "," ++ rest')
     = extract_account_name (f0 ++ "," ++ f1 ++ "," ++ rest).
Proof.
  intros H0 G0 H1.
  rewrite !extract_account_name_inner_field by assumption. split; reflexivity.
Qed.

Lemma extract_account_name_second_of_three_witness :
  extract_account_name (quoted "Statement" ++ "," ++ quoted "My Account" ++ "," ++ quoted "GBP")
  = Ok (strip dquote (quoted "My Account"))
  /\ extract_account_name ("x" ++ "," ++ quoted "My Account" ++ "," ++ "y,z")
     = extract_account_name
         (quoted "Statement" ++ "," ++ quoted "My Account" ++ "," ++ quoted "GBP").
Proof.
  apply (extract_account_name_second_of_three
           (quoted "Statement") "x" (quoted "My Account") (quoted "GBP") "y,z");
    reflexivity.
Defined.

(** ** [currency_to_float] *)

Lemma numeric_char_cases a :
  pd.numeric_char a = true ->
  (Ascii.eqb a "."%char = true /\ pd.is_digit a = false)
  \/ (Ascii.eqb a "."%char = false /\ pd.is_digit a = true).
Proof.
  unfold pd.numeric_char. destruct (Ascii.eqb_spec a "."%char) as [-> | Hne].
  - intros _. left. split; reflexivity.
  - rewrite orb_false_r. intros H. right. split; [reflexivity | exact H].
Qed.

(** The fields between the points of a stripped text: all digits, one
    more than there are points, and some of them non-empty exactly when
    the text holds a digit. *)
Lemma stripped_fields t :
  forallb pd.all_digits (split "."%char (pd.sub_non_numeric t)) = true
  /\ List.length (split "."%char (pd.sub_non_numeric t)) = S (count_char "."%char t)
  /\ existsb pd.nonempty (split "."%char (pd.sub_non_numeric t)) = has_digit t.
Proof.
  induction t as [|a t (IH1 & IH2 & IH3)]; [repeat split|].
  cbn [pd.sub_non_numeric count_char has_digit].
  destruct (pd.numeric_char a) eqn:Ea.
  - destruct (numeric_char_cases _ Ea) as [[Ep Ed] | [Ep Ed]]; rewrite Ep, Ed.
    + cbn [split]. rewrite Ep. cbn. repeat split; auto.
    + cbn [split]. rewrite Ep.
      pose proof (split_not_nil "."%char (pd.sub_non_numeric t)) as Hne.
      destruct (split "."%char (pd.sub_non_numeric t)) as [|f fs]; [congruence|].
      cbn in *. rewrite Ed. repeat split; auto.
  - unfold pd.numeric_char in Ea. apply orb_false_iff in Ea as [Ed Ep].
    rewrite Ed, Ep. cbn. repeat split; auto.
Qed.

(** A stripped text spells a number exactly when it holds a digit and at
    most one point. *)
Lemma amount_none t :
  amount (pd.sub_non_numeric t) = None
  <-> has_digit t = false \/ (2 <= count_char "."%char t)%nat.
Proof.
  unfold amount.
  destruct (stripped_fields t) as (Hd & Hl & He).
  destruct (split "."%char (pd.sub_non_numeric t)) as [|i [|f [|g fs]]];
    cbn in Hd, Hl, He.
  - discriminate.
  - rewrite orb_false_r in He. rewrite He.
    destruct (has_digit t); split; try discriminate; try (intros [H|H]; [discriminate | lia]);
      auto.
  - rewrite orb_false_r in He. rewrite nonempty_app_digits, He.
    destruct (has_digit t); split; try discriminate; try (intros [H|H]; [discriminate | lia]);
      auto.
  - split; [intros _; right; lia | reflexivity].
Qed.

(** X4: in a column of text, a text of at most 17 digits ends as the
    missing marker exactly when it holds no digit or holds two or more
    points; every other such text yields a number. *)
Theorem currency_to_float_missing_slots texts w i t :
  nth_error texts i = Some t -> (count_digits t <= 17)%nat ->
  exists out,
    currency_to_float (text_column texts) w = (Ok out, w)
    /\ (nth_error (values out) i = Some CNaN
        <-> has_digit t = false \/ (2 <= count_char "."%char t)%nat).
Proof.
  intros Ht Hlen. eexists. split; [apply currency_texts|].
  rewrite <- amount_none.
  pose proof (currency_slot texts i t Ht Hlen) as H.
  destruct (amount (pd.sub_non_numeric t)) as [x|].
  - split; [|discriminate]. intros Hnan. destruct H as [H _].
    rewrite Hnan in H. discriminate H.
  - split; auto.
Qed.

Lemma currency_to_float_missing_slots_witness :
  exists out,
    currency_to_float (text_column ["£1.234.56"; "£50"]) quiet_world = (Ok out, quiet_world)
    /\ (nth_error (values out) 0 = Some CNaN
        <-> has_digit "£1.234.56" = false \/ (2 <= count_char "."%char "£1.234.56")%nat).
Proof.
  apply (currency_to_float_missing_slots ["£1.234.56"; "£50"] quiet_world 0 "£1.234.56").
  - reflexivity.
  - vm_compute. lia.
Defined.

Lemma numeric_series_dtype nums : dtype (pd.numeric_series nums) <> object.
Proof.
  unfold pd.numeric_series.
  destruct (forallb _ nums); [|destruct (forallb _ nums)]; discriminate.
Qed.

Lemma currency_to_float_not_object s w :
  dtype s <> object -> exists w', currency_to_float s w = (Ok s, w').
Proof.
  intros H. unfold currency_to_float.
  destruct (dtype s) eqn:E; try congruence; eexists; reflexivity.
Qed.

(** X5: whatever column the normalizer returns is not an object column,
    has as many slots as the column it was given, and comes back as it is
    when it is normalized again; the run changes nothing but the
    console. *)
Theorem currency_to_float_settles s w out w' :
  currency_to_float s w = (Ok out, w') ->
  dtype out <> object
  /\ List.length (values out) = List.length (values s)
  /\ (exists w'', currency_to_float out w' = (Ok out, w''))
  /\ same_store w w'.
Proof.
  intros H.
  assert (Hmain : dtype out <> object
                  /\ List.length (values out) = List.length (values s)).
  { destruct (currency_to_float_cases s w) as (Hf & Ho & Hx & Hr).
    destruct (dtype s) eqn:Ed;
      try (rewrite Hx in H by discriminate; injection H as <- _;
           rewrite Ed; split; [discriminate | reflexivity]).
    - rewrite Hf in H by reflexivity. injection H as <- _.
      rewrite Ed. split; [discriminate | reflexivity].
    - destruct (pd.text_like (values s)) eqn:Et.
      + rewrite (currency_object _ _ Ed Et) in H. injection H as <- _.
        split; [apply numeric_series_dtype|].
        rewrite numeric_series_length. unfold cleaned_numbers, pd.str_replace_non_numeric.
        now rewrite !length_map.
      + rewrite Hr in H by auto. discriminate. }
  destruct Hmain as [Hd Hl]. split; [exact Hd|]. split; [exact Hl|].
  split; [now apply currency_to_float_not_object|].
  now apply currency_to_float_inv in H as [H _].
Qed.

Lemma currency_to_float_settles_witness :
  dtype (mkSeries float64 [CFloat (Qred 50.00); CNaN]) <> object
  /\ List.length (values (mkSeries float64 [CFloat (Qred 50.00); CNaN]))
     = List.length (values (text_column ["£50.00"; "n/a"]))
  /\ (exists w'', currency_to_float (mkSeries float64 [CFloat (Qred 50.00); CNaN]) quiet_world
                  = (Ok (mkSeries float64 [CFloat (Qred 50.00); CNaN]), w''))
  /\ same_store quiet_world quiet_world.
Proof.
  apply (currency_to_float_settles (text_column ["£50.00"; "n/a"]) quiet_world).
  reflexivity.
Defined.

(** ** [remove_duplicates] *)

Lemma nodup_length_eq (l : list Row) :
  List.length (select_distinct l) = List.length l -> NoDup l.
Proof.
  unfold select_distinct. induction l as [|x l IH]; [constructor|].
  cbn [nodup]. destruct (in_dec Row_eq_dec x l) as [Hin | Hnin].
  - intros H. pose proof (select_distinct_length l) as Hle.
    unfold select_distinct in Hle. cbn in H. lia.
  - cbn. intros H. constructor; [exact Hnin | apply IH; lia].
Qed.

(** X6: after the deduplicator has run, no row of the table occurs
    twice, and the table holds exactly the rows it held before: none is
    lost, none is invented. *)
Theorem remove_duplicates_keeps_rows (w : World) :
  fst (remove_duplicates w) = Ok tt
  /\ NoDup (table (snd (remove_duplicates w)))
  /\ forall r, In r (table (snd (remove_duplicates w))) <-> In r (table w).
Proof.
  rewrite remove_duplicates_run. cbn [fst snd table set_console set_table set_trace].
  split; [reflexivity|]. unfold select_distinct. split.
  - apply NoDup_nodup.
  - intros r. apply nodup_In.
Qed.

(** X7: the deduplicator reports zero rows removed exactly when the
    table held no row twice, and then it leaves the table as it was. *)
Theorem remove_duplicates_reports_zero (w : World) :
  (console (snd (remove_duplicates w)) = (console w ++ [MsgDuplicatesRemoved 0])%list
   <-> NoDup (table w))
  /\ (NoDup (table w) -> table (snd (remove_duplicates w)) = table w).
Proof.
  rewrite remove_duplicates_run. cbn [fst snd table console set_console set_table set_trace].
  split; [split|].
  - intros H. apply app_inv_head in H. injection H as H.
    apply nodup_length_eq. lia.
  - intros H. unfold select_distinct. rewrite (nodup_fixed_point Row_eq_dec H).
    now rewrite Z.sub_diag.
  - intros H. apply (nodup_fixed_point Row_eq_dec H).
Qed.

Lemma remove_duplicates_reports_zero_witness :
  table (snd (remove_duplicates
                (set_table [[BString "a"]; [BString "b"]] quiet_world)))
  = table (set_table [[BString "a"]; [BString "b"]] quiet_world).
Proof.
  apply (proj2 (remove_duplicates_reports_zero
                  (set_table [[BString "a"]; [BString "b"]] quiet_world))).
  cbn. repeat constructor; cbn; intuition discriminate.
Defined.

(** ** [process_csv_file] *)

Lemma uploaded_rows_account account_name data w data' w' r :
  normalize account_name data w = (Ok data', w') ->
  schema_fits data' = true ->
  In r (frame_rows data') ->
  account_name_of r = BString account_name.
Proof.
  intros Hn Hs Hr.
  apply normalize_ok_inv in Hn
    as (po & po' & pi & pi' & ba & ba' & dt & dt' & _ & _ & _ & _ & _ & -> & _).
  set (today := clock w (reads w)) in *.
  set (d0 := prepared account_name today data) in *.
  set (final := setitem _ "date" dt') in *.
  set (col := broadcast data (CStr account_name)).
  assert (Hin : In ("account_name", col) (columns final)).
  { apply in_converted; try discriminate.
    apply (in_rename _ "account_name").
    apply in_setitem_other; [discriminate|]. apply in_setitem_self. }
  assert (Hcol : column_named "account_name" final = [col]).
  { destruct (schema_fits_column final "account_name" Hs ltac:(cbn; tauto)) as (x & Hx).
    apply column_named_in in Hin. rewrite Hx in Hin.
    destruct Hin as [-> | []]. exact Hx. }
  unfold frame_rows in Hr. apply in_map_iff in Hr as (i & <- & Hi).
  apply in_seq in Hi.
  unfold account_name_of, frame_row, schema. cbn [map nth field_name field_type].
  rewrite Hcol. unfold col, broadcast. cbn [values].
  rewrite nth_repeat_lt; [reflexivity|].
  assert (nrows final = nrows data)
    by (unfold final, d0; now rewrite !nrows_setitem, nrows_prepared).
  lia.
Qed.

(** X8: every row a file uploads carries the account name extracted from
    the first line of that file. *)
Theorem process_csv_file_account_name file_path w w' :
  process_csv_file file_path w = (Ok tt, w') ->
  exists content name rows,
    files w file_path = Some content
    /\ extract_account_name (readline content) = Ok name
    /\ table w' = (table w ++ rows)%list
    /\ forall r, In r rows -> account_name_of r = BString name.
Proof.
  intros H. pose proof (process_csv_file_cases file_path w) as Hc. rewrite H in Hc.
  destruct Hc as (content & name & data & data' & w1 & Hf & He & _ & Hn & Hs & _
                  & Ht & _).
  exists content, name, (frame_rows data').
  repeat (split; [assumption|]).
  intros r Hr. apply (uploaded_rows_account _ _ _ _ _ _ Hn Hs Hr).
Qed.

Lemma process_csv_file_account_name_witness :
  exists content name rows,
    files world_one_statement "exports/a.csv" = Some content
    /\ extract_account_name (readline content) = Ok name
    /\ table (snd (process_csv_file "exports/a.csv" world_one_statement))
       = (table world_one_statement ++ rows)%list
    /\ forall r, In r rows -> account_name_of r = BString name.
Proof.
  apply (process_csv_file_account_name "exports/a.csv" world_one_statement).
  vm_compute. reflexivity.
Defined.

Lemma read_csv_nrows content data :
  pd.read_csv content 4 = Ok data ->
  S (nrows data) = List.length (kept_lines content).
Proof.
  unfold pd.read_csv, kept_lines.
  destruct (pd.open_quote 4 pd.StartField content); [discriminate|].
  destruct (filter _ (skipn 4 (pd.logical_lines 4 pd.StartField content)))
    as [|header rows]; [discriminate|].
  destruct (existsb _ _); [discriminate|].
  intros [= <-]. cbn. now rewrite length_map.
Qed.

(** X9: a file that is processed adds to the table one row for every
    line that is not blank after its four skipped lines, the header line
    aside; the lines are those the tokenizer cuts, a line break inside a
    quoted field ending none. *)
Theorem process_csv_file_row_count file_path w w' :
  process_csv_file file_path w = (Ok tt, w') ->
  exists content,
    files w file_path = Some content
    /\ S (List.length (table w'))
       = (List.length (table w) + List.length (kept_lines content))%nat.
Proof.
  intros H. pose proof (process_csv_file_cases file_path w) as Hc. rewrite H in Hc.
  destruct Hc as (content & name & data & data' & w1 & Hf & _ & Hr & Hn & _ & _
                  & Ht & _).
  exists content. split; [exact Hf|].
  apply normalize_ok_inv in Hn
    as (po & po' & pi & pi' & ba & ba' & dt & dt' & _ & _ & _ & _ & _ & -> & _).
  rewrite Ht, length_app. unfold frame_rows. rewrite length_map, length_seq.
  rewrite !nrows_setitem, nrows_prepared.
  rewrite <- (read_csv_nrows _ _ Hr). lia.
Qed.

(** One row whose description runs over a line break: one row is
    uploaded. *)
Lemma process_csv_file_row_count_witness :
  exists content,
    files world_long_description "exports/a.csv" = Some content
    /\ S (List.length (table (snd (process_csv_file "exports/a.csv"
                                     world_long_description))))
       = (List.length (table world_long_description)
          + List.length (kept_lines content))%nat.
Proof.
  apply (process_csv_file_row_count "exports/a.csv" world_long_description).
  vm_compute. reflexivity.
Defined.

Lemma getitem_ok_unique data name s :
  getitem data name = Ok s -> column_named name data = [s].
Proof.
  unfold getitem. destruct (column_named name data) as [|x [|y l]]; try discriminate.
  now intros [= ->].
Qed.

Lemma length_column_named_setitem data name other col s :
  column_named other data = [s] ->
  List.length (column_named name (setitem data other col))
  = List.length (column_named name data).
Proof.
  intros H. destruct (String.eqb_spec name other) as [-> | Hne].
  - now rewrite (column_named_setitem_self _ _ _ _ H), H.
  - now rewrite column_named_setitem_other.
Qed.

Lemma length_column_named_rename name data :
  List.length (column_named name (rename_columns data)) = count_normalized name data.
Proof.
  unfold column_named, count_normalized, rename_columns. cbn [columns].
  rewrite length_map. induction (columns data) as [|p l IH]; [reflexivity|].
  cbn [map filter fst]. destruct (String.eqb (normalize_name (fst p)) name);
    cbn [List.length]; now rewrite IH.
Qed.

Lemma count_normalized_setitem name data other col :
  normalize_name other <> name ->
  count_normalized name (setitem data other col) = count_normalized name data.
Proof.
  intros Hne. apply String.eqb_neq in Hne.
  unfold count_normalized, setitem.
  destruct (column_named other data) as [|x xs]; cbn [columns].
  - rewrite filter_app, length_app. cbn [filter fst]. rewrite Hne. cbn. lia.
  - induction (columns data) as [|p l IH]; [reflexivity|].
    cbn [map filter]. destruct (String.eqb_spec (fst p) other) as [Ep | Ep]; cbn [fst].
    + rewrite Ep, Hne. exact IH.
    + destruct (String.eqb (normalize_name (fst p)) name); cbn [List.length];
        now rewrite IH.
Qed.

Lemma count_normalized_prepared name account_name today data :
  name <> "account_name" -> name <> "date_uploaded" ->
  List.length (column_named name (prepared account_name today data))
  = count_normalized name data.
Proof.
  intros H1 H2. unfold prepared. rewrite length_column_named_rename.
  rewrite !count_normalized_setitem; [reflexivity | |];
    cbn; intros E; symmetry in E; contradiction.
Qed.

Lemma bind_raise {A B : Type} (c : M A) (k : A -> M B) w e w1 :
  c w = (Raise e, w1) -> bind c k w = (Raise e, w1).
Proof. intros H. unfold bind. now rewrite H. Qed.

(** X10: a file is processed only when its header brings each of the
    columns date, transaction type, description, paid out, paid in and
    balance exactly once, names being compared after normalisation; a
    header without a paid-out column raises the key error for that column
    and nothing is uploaded. *)
Theorem process_csv_file_needs_columns :
  (forall file_path w w',
      process_csv_file file_path w = (Ok tt, w') ->
      exists content data,
        files w file_path = Some content
        /\ pd.read_csv content 4 = Ok data
        /\ forall name, In name statement_columns -> count_normalized name data = 1%nat)
  /\ (forall file_path w content name data,
         files w file_path = Some content ->
         extract_account_name (readline content) = Ok name ->
         pd.read_csv content 4 = Ok data ->
         count_normalized "paid_out" data = 0%nat ->
         exists w',
           process_csv_file file_path w = (Raise (KeyError "paid_out"), w')
           /\ table w' = table w
           /\ trace w' = (trace w ++ [Opened file_path])%list).
Proof.
  split.
  - intros file_path w w' H.
    pose proof (process_csv_file_cases file_path w) as Hc. rewrite H in Hc.
    destruct Hc as (content & name & data & data' & w1 & Hf & _ & Hr & Hn & Hs & _).
    exists content, data. split; [exact Hf|]. split; [exact Hr|].
    apply normalize_ok_inv in Hn
      as (po & po' & pi & pi' & ba & ba' & dt & dt' & H1 & H2 & H3 & H4 & _ & -> & _).
    apply getitem_ok_unique in H1, H2, H3, H4.
    intros col Hcol.
    assert (Hschema : In col (map field_name schema))
      by (cbn in Hcol |- *; tauto).
    destruct (schema_fits_column _ col Hs Hschema) as (x & Hx).
    apply (f_equal (@List.length Series)) in Hx.
    rewrite (length_column_named_setitem _ _ _ _ _ H4) in Hx.
    rewrite (length_column_named_setitem _ _ _ _ _ H3) in Hx.
    rewrite (length_column_named_setitem _ _ _ _ _ H2) in Hx.
    rewrite (length_column_named_setitem _ _ _ _ _ H1) in Hx.
    rewrite count_normalized_prepared in Hx; [exact Hx | |];
      cbn in Hcol; intros ->; intuition discriminate.
  - intros file_path w content name data Hf He Hr Hc.
    set (w0 := set_trace (trace w ++ [Opened file_path]) w).
    eexists. unfold process_csv_file.
    rewrite (bind_ok (open_read file_path) _ w content w0)
      by (unfold open_read; now rewrite Hf).
    rewrite (bind_ok (lift _) _ w0 name w0) by (unfold lift; now rewrite He).
    rewrite (bind_ok (lift _) _ w0 data w0) by (unfold lift; now rewrite Hr).
    rewrite (bind_raise (normalize name data) _ w0 (KeyError "paid_out")
               (set_reads (S (reads w0)) w0)).
    + repeat split.
    + unfold normalize.
      rewrite (bind_ok now_date _ w0 (clock w0 (reads w0)) (set_reads (S (reads w0)) w0)
                 eq_refl).
      fold (prepared name (clock w0 (reads w0)) data).
      apply bind_raise. unfold lift, getitem.
      pose proof (count_normalized_prepared "paid_out" name (clock w0 (reads w0)) data
                    ltac:(discriminate) ltac:(discriminate)) as Hlen.
      rewrite Hc in Hlen.
      destruct (column_named "paid_out" _); [reflexivity | discriminate].
Qed.

Lemma process_csv_file_needs_columns_witness :
  exists w',
    process_csv_file "exports/a.csv"
      (world_of [("a.csv", "Account," ++ quoted "My Account" ++ ",x" ++ nl ++ nl ++ nl ++ nl
                           ++ "Date,Balance" ++ nl ++ "05 Jan 2024,£1.00" ++ nl)]
                (fun _ => mkDate 2024 1 5))
    = (Raise (KeyError "paid_out"), w')
    /\ table w' = []
    /\ trace w' = [Opened "exports/a.csv"].
Proof.
  apply (proj2 process_csv_file_needs_columns "exports/a.csv"
           (world_of [("a.csv", "Account," ++ quoted "My Account" ++ ",x" ++ nl ++ nl ++ nl ++ nl
                                ++ "Date,Balance" ++ nl ++ "05 Jan 2024,£1.00" ++ nl)]
                     (fun _ => mkDate 2024 1 5))
           ("Account," ++ quoted "My Account" ++ ",x" ++ nl ++ nl ++ nl ++ nl
            ++ "Date,Balance" ++ nl ++ "05 Jan 2024,£1.00" ++ nl)
           "My Account"
           (mkFrame 1 [("Date", text_column ["05 Jan 2024"]);
                       ("Balance", text_column ["£1.00"])]));
    reflexivity.
Defined.

Lemma diagnostics_added_refl w : diagnostics_added w w.
Proof. exists []. split; [now rewrite app_nil_r | reflexivity]. Qed.

Lemma diagnostics_added_trans w1 w2 w3 :
  diagnostics_added w1 w2 -> diagnostics_added w2 w3 -> diagnostics_added w1 w3.
Proof.
  intros (m1 & H1 & D1) (m2 & H2 & D2). exists (m1 ++ m2)%list. split.
  - now rewrite H2, H1, app_assoc.
  - now rewrite forallb_app, D1, D2.
Qed.

Lemma currency_to_float_console s w :
  diagnostics_added w (snd (currency_to_float s w)).
Proof.
  unfold currency_to_float.
  destruct (dtype_eqb (dtype s) float64); [apply diagnostics_added_refl|].
  destruct (dtype_eqb (dtype s) object).
  - unfold bind, lift. destruct (pd.str_accessor s); cbn; apply diagnostics_added_refl.
  - cbn. exists [MsgDtype (dtype s)]. split; reflexivity.
Qed.

Lemma normalize_console account_name data w :
  diagnostics_added w (snd (normalize account_name data w)).
Proof.
  unfold normalize, bind, now_date, lift, ret.
  set (w1 := set_reads (S (reads w)) w).
  assert (S1 : diagnostics_added w w1)
    by (exists []; split; [cbn; now rewrite app_nil_r | reflexivity]).
  repeat match goal with
  | |- context [match getitem ?d ?n with _ => _ end] =>
      destruct (getitem d n); cbn [snd]; [|exact S1]
  | |- context [match pd.to_datetime ?d with _ => _ end] =>
      destruct (pd.to_datetime d); cbn [snd]; [|exact S1]
  | |- context [currency_to_float ?s ?w0] =>
      let r := fresh "r" in let w2 := fresh "w" in let E := fresh "E" in
      pose proof (currency_to_float_console s w0) as E;
      destruct (currency_to_float s w0) as [r w2]; cbn [snd] in E;
      pose proof (diagnostics_added_trans _ _ _ S1 E); clear S1 E;
      match goal with H : diagnostics_added w w2 |- _ => rename H into S1 end;
      destruct r; cbn [snd]; [|exact S1]
  end.
  exact S1.
Qed.

Lemma diagnostics_added_same w w' : console w' = console w -> diagnostics_added w w'.
Proof. intros H. exists []. split; [now rewrite app_nil_r | reflexivity]. Qed.

(** What [process_csv_file] prints. *)
Lemma process_csv_file_console file_path w :
  match process_csv_file file_path w with
  | (Ok _, w') =>
      exists diags,
        console w' = (console w ++ diags ++ [MsgUploaded file_path])%list
        /\ forallb is_diagnostic diags = true
  | (Raise _, w') => diagnostics_added w w'
  end.
Proof.
  unfold process_csv_file, bind, open_read.
  destruct (files w file_path) as [content|]; [|apply diagnostics_added_refl].
  set (w0 := set_trace (trace w ++ [Opened file_path]) w).
  unfold lift at 1.
  destruct (extract_account_name (readline content)) as [name|e];
    [|now apply diagnostics_added_same].
  unfold lift at 1.
  destruct (pd.read_csv content 4) as [data|e]; [|now apply diagnostics_added_same].
  pose proof (normalize_console name data w0) as Sn.
  destruct (normalize name data w0) as [[data'|e] w1]; cbn [snd] in Sn;
    [|exact Sn].
  unfold load_table_from_dataframe.
  destruct (schema_fits data' && types_fit data' && load_accepts w1 data'); [|exact Sn].
  cbn. destruct Sn as (diags & Hc & Hd). exists diags.
  split; [|exact Hd]. rewrite Hc. now rewrite <- app_assoc.
Qed.

Lemma diagnostics_not_upload msgs p :
  forallb is_diagnostic msgs = true -> ~ In (MsgUploaded p) msgs.
Proof.
  intros H Hin. rewrite forallb_forall in H. specialize (H _ Hin). discriminate.
Qed.

(** X11: the line that reports a file as uploaded is printed exactly when
    the load job for that file went through; a file that fails prints no
    such line and sends, or completes, no load job. *)
Theorem process_csv_file_reports_upload file_path w :
  exists msgs evs,
    console (snd (process_csv_file file_path w)) = (console w ++ msgs)%list
    /\ trace (snd (process_csv_file file_path w)) = (trace w ++ evs)%list
    /\ (fst (process_csv_file file_path w) = Ok tt <-> In (MsgUploaded file_path) msgs)
    /\ (fst (process_csv_file file_path w) = Ok tt <-> exists rows, In (LoadJob rows) evs).
Proof.
  pose proof (process_csv_file_console file_path w) as Hc.
  pose proof (process_csv_file_cases file_path w) as Ht.
  destruct (process_csv_file file_path w) as [[[]|e] w']; cbn [fst snd].
  - destruct Hc as (diags & Hc & Hd).
    destruct Ht as (_ & _ & _ & data' & _ & _ & _ & _ & _ & _ & _ & _ & Ht & _).
    exists (diags ++ [MsgUploaded file_path])%list,
           [Opened file_path; LoadJob (frame_rows data')].
    split; [exact Hc|]. split; [exact Ht|]. split; split; auto.
    + intros _. apply in_or_app. right. now left.
    + intros _. exists (frame_rows data'). right. now left.
  - destruct Hc as (diags & Hc & Hd). destruct Ht as (_ & [Ht | Ht] & _).
    + exists diags, []. split; [exact Hc|]. split; [now rewrite app_nil_r|].
      split; split; try discriminate.
      * intros Hin. now apply diagnostics_not_upload in Hin.
      * intros (rows & []).
    + exists diags, [Opened file_path]. split; [exact Hc|]. split; [exact Ht|].
      split; split; try discriminate.
      * intros Hin. now apply diagnostics_not_upload in Hin.
      * intros (rows & [Hin | []]). discriminate.
Qed.

(** ** The run *)

Lemma process_directory_step f fs w :
  process_directory (f :: fs) w
  = if endswith f ".csv"
    then match process_csv_file (path_join CSV_DIRECTORY f) w with
         | (Ok _, w1) => process_directory fs w1
         | (Raise e, w1) => (Raise e, w1)
         end
    else process_directory fs w.
Proof.
  unfold process_directory. cbn [for_each]. unfold bind.
  destruct (endswith f ".csv"); reflexivity.
Qed.

Lemma uploaded_paths_app a b :
  uploaded_paths (a ++ b) = (uploaded_paths a ++ uploaded_paths b)%list.
Proof. apply flat_map_app. Qed.

Lemma uploaded_paths_diagnostics msgs :
  forallb is_diagnostic msgs = true -> uploaded_paths msgs = [].
Proof.
  induction msgs as [|m l IH]; [reflexivity|]. cbn [forallb].
  intros H. apply andb_true_iff in H as [Hm Hl].
  destruct m; try discriminate. cbn. now apply IH.
Qed.

Lemma diagnostics_file_messages msgs :
  forallb is_diagnostic msgs = true -> forallb is_file_message msgs = true.
Proof.
  induction msgs as [|m l IH]; [reflexivity|]. cbn [forallb].
  intros H. apply andb_true_iff in H as [Hm Hl].
  destruct m; try discriminate. cbn. now apply IH.
Qed.

(** What the loop prints: diagnostics and one upload line for each file
    that went through, in the order of the selected entries. *)
Lemma process_directory_console entries : forall w,
  exists msgs rest,
    console (snd (process_directory entries w)) = (console w ++ msgs)%list
    /\ forallb is_file_message msgs = true
    /\ selected_paths entries = (uploaded_paths msgs ++ rest)%list
    /\ (fst (process_directory entries w) = Ok tt -> rest = []).
Proof.
  induction entries as [|f fs IH]; intros w.
  - exists [], []. cbn. rewrite app_nil_r. repeat split.
  - rewrite process_directory_step. unfold selected_paths in *. cbn [filter].
    destruct (endswith f ".csv"); [|apply IH].
    pose proof (process_csv_file_console (path_join CSV_DIRECTORY f) w) as Hc.
    destruct (process_csv_file (path_join CSV_DIRECTORY f) w) as [[u|e] w1].
    + destruct Hc as (diags & Hc & Hd).
      destruct (IH w1) as (msgs & rest & I1 & I2 & I3 & I4).
      exists ((diags ++ [MsgUploaded (path_join CSV_DIRECTORY f)]) ++ msgs)%list, rest.
      split; [rewrite I1, Hc; now rewrite <- !app_assoc|].
      split.
      { rewrite !forallb_app, I2, (diagnostics_file_messages _ Hd). reflexivity. }
      split; [|exact I4].
      rewrite !uploaded_paths_app, (uploaded_paths_diagnostics _ Hd).
      cbn. now rewrite I3.
    + destruct Hc as (diags & Hc & Hd).
      exists diags, (path_join CSV_DIRECTORY f
                     :: map (path_join CSV_DIRECTORY)
                          (filter (fun f0 => endswith f0 ".csv") fs)).
      cbn [fst snd]. split; [exact Hc|].
      split; [now apply diagnostics_file_messages|].
      split; [now rewrite (uploaded_paths_diagnostics _ Hd) | discriminate].
Qed.

(** X12: when the loop gets through every selected file, the run has
    printed one upload line for each of them, in order, and then the line
    that all files are processed; when the run as a whole completes, the
    report of the deduplicator is the one line after it, and the table
    holds no row twice.  When the loop fails at a file, the run ends with
    that failure and has printed lines about files only. *)
Theorem main_console (w : World) (entries : list string) :
  listing w = Some entries ->
  match fst (process_directory entries w) with
  | Ok _ =>
      exists msgs rest,
        console (snd (main w))
        = (console w ++ msgs ++ MsgAllProcessed :: rest)%list
        /\ forallb is_file_message msgs = true
        /\ uploaded_paths msgs = selected_paths entries
        /\ (forall u, fst (main w) = Ok u ->
            (exists n, rest = [MsgDuplicatesRemoved n])
            /\ NoDup (table (snd (main w))))
  | Raise e =>
      fst (main w) = Raise e
      /\ exists msgs,
           console (snd (main w)) = (console w ++ msgs)%list
           /\ forallb is_file_message msgs = true
  end.
Proof.
  intros Hl0.
  destruct (main_cases w) as [[Hl Hm] | (entries' & Hl & Hm)]; [congruence|].
  assert (entries' = entries) by congruence. subst entries'.
  destruct (process_directory_console entries w) as (msgs & rest & I1 & I2 & I3 & I4).
  destruct (fst (process_directory entries w)) as [[]|e] eqn:Er.
  - rewrite Hm, remove_duplicates_run.
    cbn [fst snd table console set_console set_table set_trace].
    rewrite (I4 eq_refl), app_nil_r in I3.
    eexists msgs, _. split.
    { rewrite I1. rewrite <- !app_assoc. reflexivity. }
    split; [exact I2|]. split; [now symmetry|].
    intros u _. split; [eauto|]. unfold select_distinct. apply NoDup_nodup.
  - rewrite Hm. cbn [fst snd]. split; [reflexivity|]. exists msgs. split; assumption.
Qed.

Lemma main_console_witness :
  exists msgs rest,
    console (snd (main world_two_statements))
    = (console world_two_statements ++ msgs ++ MsgAllProcessed :: rest)%list
    /\ forallb is_file_message msgs = true
    /\ uploaded_paths msgs = selected_paths ["a.csv"; "b.csv"]
    /\ (forall u, fst (main world_two_statements) = Ok u ->
        (exists n, rest = [MsgDuplicatesRemoved n])
        /\ NoDup (table (snd (main world_two_statements)))).
Proof.
  exact (main_console world_two_statements ["a.csv"; "b.csv"] eq_refl).
Defined.

Lemma process_directory_all_read entries : forall w,
  fst (process_directory entries w) = Ok tt ->
  forall p, In p (selected_paths entries) -> files w p <> None.
Proof.
  induction entries as [|f fs IH]; intros w Hok p Hp; [contradiction|].
  rewrite process_directory_step in Hok. unfold selected_paths in *. cbn [filter] in Hp.
  destruct (endswith f ".csv"); [|now apply (IH w)].
  pose proof (process_csv_file_cases (path_join CSV_DIRECTORY f) w) as Hc.
  destruct (process_csv_file (path_join CSV_DIRECTORY f) w) as [[u|e] w1];
    [|discriminate].
  destruct Hc as (content & name & data & data' & w0 & Hf & _ & _ & _ & _ & _ & _ & _ & Henv).
  destruct Henv as (_ & He & _).
  destruct Hp as [<- | Hp]; [congruence|].
  rewrite <- He. now apply (IH w1).
Qed.

(** X13: when an entry that ends in .csv cannot be opened as a file, the
    run fails and the deduplicator is not called. *)
Theorem main_unreadable_entry w entries name :
  listing w = Some entries ->
  In name entries -> endswith name ".csv" = true ->
  files w (path_join CSV_DIRECTORY name) = None ->
  exists e evs,
    fst (main w) = Raise e
    /\ trace (snd (main w)) = (trace w ++ evs)%list
    /\ dedup_calls evs = 0%nat.
Proof.
  intros Hl Hin Hcsv Hnone.
  destruct (main_cases w) as [[Hn _] | (entries' & Hl' & Hm)]; [congruence|].
  assert (entries' = entries) by congruence. subst entries'.
  destruct (fst (process_directory entries w)) as [[]|e] eqn:Er.
  - exfalso. apply (process_directory_all_read entries w Er (path_join CSV_DIRECTORY name));
      [|exact Hnone].
    unfold selected_paths. apply in_map. apply filter_In. split; assumption.
  - destruct (main_run w entries Hl)
      as (blocks & tail & rest & last & Ht & Htail & _ & Hmr & _).
    rewrite Hm in Hmr |- *. cbn [fst snd] in *. destruct Hmr as (-> & _).
    exists e, (flat_map file_block blocks ++ tail)%list.
    split; [reflexivity|]. split.
    + rewrite Hm in Ht. cbn [snd] in Ht. now rewrite Ht, app_nil_r.
    + rewrite dedup_calls_app, dedup_calls_blocks.
      destruct Htail as [-> | (p & ->)]; reflexivity.
Qed.

Lemma main_unreadable_entry_witness :
  exists e evs,
    fst (main (mkWorld (Some ["a.csv"]) (fun _ => None) (fun _ => mkDate 2024 1 5)
                 0 (fun _ => true) [] [] []))
    = Raise e
    /\ trace (snd (main (mkWorld (Some ["a.csv"]) (fun _ => None)
                           (fun _ => mkDate 2024 1 5) 0 (fun _ => true) [] [] [])))
       = ([] ++ evs)%list
    /\ dedup_calls evs = 0%nat.
Proof.
  apply (main_unreadable_entry
           (mkWorld (Some ["a.csv"]) (fun _ => None) (fun _ => mkDate 2024 1 5)
              0 (fun _ => true) [] [] [])
           ["a.csv"] "a.csv");
    try reflexivity. now left.
Defined.

(** ** Running the loader again *)

Lemma shows_refl today w : shows today w w.
Proof. intros n Hn. lia. Qed.

(** A step that reads no clock and leaves the table alone. *)
Lemma agrees_quiet {A : Type} today (c : M A) :
  (forall w, reads (snd (c w)) = reads w /\ same_env w (snd (c w))
             /\ table (snd (c w)) = table w) ->
  (forall w1 w2, same_inputs w1 w2 -> fst (c w1) = fst (c w2)) ->
  agrees today c.
Proof.
  intros H1 H2. split.
  - intros w. destruct (H1 w) as (Hr & He & _). split; [lia | exact He].
  - intros w1 w2 R _ _. split; [now apply H2|].
    exists []. rewrite !app_nil_r. split; apply H1.
Qed.

Lemma agrees_ret {A : Type} today (a : A) : agrees today (ret a).
Proof. apply agrees_quiet; intros; cbn; repeat split. Qed.

Lemma agrees_lift {A : Type} today (r : result A) : agrees today (lift r).
Proof. apply agrees_quiet; intros; cbn; repeat split. Qed.

Lemma agrees_print today m : agrees today (print m).
Proof. apply agrees_quiet; intros; cbn; repeat split. Qed.

Lemma agrees_now_date today : agrees today now_date.
Proof.
  split.
  - intros w. cbn. split; [lia | repeat split].
  - intros w1 w2 R S1 S2. cbn in *. split.
    + rewrite (S1 (reads w1)), (S2 (reads w2)) by (unfold set_reads; cbn; lia).
      reflexivity.
    + exists []. now rewrite !app_nil_r.
Qed.

Lemma agrees_open_read today file_path : agrees today (open_read file_path).
Proof.
  apply agrees_quiet.
  - intros w. unfold open_read. destruct (files w file_path); cbn; repeat split.
  - intros w1 w2 (R1 & R2 & R3). unfold open_read. rewrite R2.
    destruct (files w2 file_path); reflexivity.
Qed.

Lemma agrees_listdir today path : agrees today (listdir path).
Proof.
  apply agrees_quiet.
  - intros w. unfold listdir. destruct (listing w); cbn; repeat split.
  - intros w1 w2 (R1 & R2 & R3). unfold listdir. rewrite R1.
    destruct (listing w2); reflexivity.
Qed.

Lemma agrees_load today data : agrees today (load_table_from_dataframe data).
Proof.
  split.
  - intros w. unfold load_table_from_dataframe.
    destruct (schema_fits data && types_fit data && load_accepts w data); cbn;
      (split; [lia | repeat split]).
  - intros w1 w2 (R1 & R2 & R3) _ _. unfold load_table_from_dataframe. rewrite R3.
    destruct (schema_fits data && types_fit data && load_accepts w2 data); cbn.
    + split; [reflexivity|]. exists (frame_rows data). split; reflexivity.
    + split; [reflexivity|]. exists []. now rewrite !app_nil_r.
Qed.

Lemma same_inputs_step w1 w2 v1 v2 :
  same_inputs w1 w2 -> same_env w1 v1 -> same_env w2 v2 -> same_inputs v1 v2.
Proof.
  intros (R1 & R2 & R3) (a1 & a2 & a3 & a4) (b1 & b2 & b3 & b4).
  repeat split; congruence.
Qed.

Lemma agrees_bind {A B : Type} today (c : M A) (k : A -> M B) :
  agrees today c -> (forall a, agrees today (k a)) -> agrees today (bind c k).
Proof.
  intros [Hc1 Hc2] Hk.
  assert (Hmono : forall w,
             (reads (snd (c w)) <= reads (snd (bind c k w)))%nat
             /\ same_env (snd (c w)) (snd (bind c k w))).
  { intros w. unfold bind. destruct (c w) as [[a|e] v]; cbn [snd].
    - apply (proj1 (Hk a)).
    - split; [lia | apply same_env_refl]. }
  split.
  - intros w. destruct (Hc1 w) as [M1 E1]. destruct (Hmono w) as [M2 E2].
    split; [lia | apply (same_env_trans _ _ _ E1 E2)].
  - intros w1 w2 R S1 S2.
    destruct (Hc1 w1) as [M1 E1]. destruct (Hmono w1) as [N1 F1].
    destruct (Hc1 w2) as [M2 E2]. destruct (Hmono w2) as [N2 F2].
    assert (T1 : shows today w1 (snd (c w1))) by (intros n Hn; apply S1; lia).
    assert (T2 : shows today w2 (snd (c w2))) by (intros n Hn; apply S2; lia).
    destruct (Hc2 w1 w2 R T1 T2) as (E & rows & U1 & U2).
    pose proof (same_inputs_step _ _ _ _ R E1 E2) as R'.
    assert (V1 : shows today (snd (c w1)) (snd (bind c k w1))).
    { intros n Hn. destruct E1 as (_ & _ & Hck & _). rewrite Hck. apply S1. lia. }
    assert (V2 : shows today (snd (c w2)) (snd (bind c k w2))).
    { intros n Hn. destruct E2 as (_ & _ & Hck & _). rewrite Hck. apply S2. lia. }
    unfold bind in *.
    destruct (c w1) as [r1 v1], (c w2) as [r2 v2]. cbn [fst snd] in *. subst r2.
    destruct r1 as [a|e].
    + destruct (proj2 (Hk a) v1 v2 R' V1 V2) as (E3 & rows2 & X1 & X2).
      split; [exact E3|].
      exists (rows ++ rows2)%list. rewrite X1, X2, U1, U2. now rewrite !app_assoc.
    + cbn. split; [reflexivity|]. eauto.
Qed.

Lemma agrees_currency_to_float today s : agrees today (currency_to_float s).
Proof.
  unfold currency_to_float.
  destruct (dtype_eqb (dtype s) float64); [apply agrees_ret|].
  destruct (dtype_eqb (dtype s) object).
  - apply agrees_bind; [apply agrees_lift | intros; apply agrees_lift].
  - apply agrees_bind; [apply agrees_print | intros; apply agrees_ret].
Qed.

Lemma agrees_normalize today account_name data :
  agrees today (normalize account_name data).
Proof.
  unfold normalize.
  repeat (apply agrees_bind;
          [first [apply agrees_now_date | apply agrees_lift
                 | apply agrees_currency_to_float] | intros]).
  apply agrees_ret.
Qed.

Lemma agrees_process_csv_file today file_path :
  agrees today (process_csv_file file_path).
Proof.
  unfold process_csv_file.
  apply agrees_bind; [apply agrees_open_read | intros].
  apply agrees_bind; [apply agrees_lift | intros].
  apply agrees_bind; [apply agrees_lift | intros].
  apply agrees_bind; [apply agrees_normalize | intros].
  apply agrees_bind; [apply agrees_load | intros]. apply agrees_print.
Qed.

Lemma agrees_process_directory today entries :
  agrees today (process_directory entries).
Proof.
  unfold process_directory. induction entries as [|f fs IH]; cbn [for_each].
  - apply agrees_ret.
  - apply agrees_bind; [|intros; exact IH].
    destruct (endswith f ".csv"); [apply agrees_process_csv_file | apply agrees_ret].
Qed.

(** X14: when the loader is run twice on the same directory, both runs
    complete, and the clock shows one date at every reading the two runs
    make, the second run leaves the table with the same rows and the same
    row count as the first: every row it uploads is removed again as a
    duplicate. *)
Theorem main_rerun_same_day w today :
  (forall n, (reads w <= n < reads (snd (main (snd (main w)))))%nat ->
             clock w n = today) ->
  fst (main w) = Ok tt ->
  fst (main (snd (main w))) = Ok tt ->
  (forall r, In r (table (snd (main (snd (main w)))))
             <-> In r (table (snd (main w))))
  /\ List.length (table (snd (main (snd (main w)))))
     = List.length (table (snd (main w))).
Proof.
  intros Hclock Hok Hok2.
  destruct (main_cases w) as [[_ Hm] | (entries & Hl & Hm)];
    [rewrite Hm in Hok; discriminate|].
  destruct (fst (process_directory entries w)) as [[]|e] eqn:Er;
    [|rewrite Hm in Hok; discriminate].
  set (wl := snd (process_directory entries w)) in *.
  rewrite remove_duplicates_run in Hm.
  cbn [table console trace set_console set_table set_trace] in Hm.
  set (w1 := snd (main w)) in *.
  assert (Hw1 : w1 = snd (main w)) by reflexivity. rewrite Hm in Hw1. cbn [snd] in Hw1.
  destruct (proj1 (agrees_process_directory today entries) w) as [Hmono Henv].
  fold wl in Hmono, Henv. destruct Henv as (E1 & E2 & E3 & E4).
  assert (R : same_inputs w w1).
  { rewrite Hw1. unfold same_inputs, set_console, set_table, set_trace.
    cbn [listing files load_accepts]. repeat split; congruence. }
  assert (Hl1 : listing w1 = Some entries) by (destruct R as (R1 & _); congruence).
  assert (Hck1 : clock w1 = clock w) by (rewrite Hw1; exact E3).
  assert (Hr1 : reads w1 = reads wl) by (rewrite Hw1; reflexivity).
  pose proof (main_reads w1 entries Hl1) as Hr2.
  destruct (proj1 (agrees_process_directory today entries) w1) as [Hmono1 _].
  assert (S1 : shows today w (snd (process_directory entries w))).
  { intros n Hn. apply Hclock. fold wl in Hn. lia. }
  assert (S2 : shows today w1 (snd (process_directory entries w1))).
  { intros n Hn. rewrite Hck1. apply Hclock. lia. }
  destruct (proj2 (agrees_process_directory today entries) w w1 R S1 S2)
    as (F & rows & T1 & T2).
  fold wl in T1. rewrite Er in F.
  destruct (main_cases w1) as [[Hn _] | (entries' & Hl' & Hm1)]; [congruence|].
  assert (entries' = entries) by congruence. subst entries'.
  rewrite <- F in Hm1. rewrite remove_duplicates_run in Hm1.
  cbn [table console trace set_console set_table set_trace] in Hm1.
  rewrite Hm1. cbn [fst snd table set_console set_table set_trace].
  rewrite T2.
  assert (Ht1 : table w1 = select_distinct (table w ++ rows)).
  { rewrite Hw1. unfold set_console, set_table. cbn [table]. now rewrite T1. }
  assert (Hsame : forall r, In r (select_distinct (table w1 ++ rows)) <-> In r (table w1)).
  { intros r. unfold select_distinct. rewrite nodup_In, in_app_iff. split; [|tauto].
    intros [H | H]; [exact H|].
    rewrite Ht1. unfold select_distinct. apply nodup_In. apply in_or_app. now right. }
  split; [exact Hsame|].
  apply Nat.le_antisymm; apply NoDup_incl_length.
  - unfold select_distinct. apply NoDup_nodup.
  - intros r Hr. now apply Hsame.
  - rewrite Ht1. unfold select_distinct. apply NoDup_nodup.
  - intros r Hr. now apply Hsame.
Qed.

(** Two runs over two files read the clock four times. *)
Lemma main_rerun_same_day_witness :
  (forall r, In r (table (snd (main (snd (main world_rerun)))))
             <-> In r (table (snd (main world_rerun))))
  /\ List.length (table (snd (main (snd (main world_rerun)))))
     = List.length (table (snd (main world_rerun))).
Proof.
  apply (main_rerun_same_day world_rerun (mkDate 2024 1 31)).
  - intros n [_ Hn].
    assert (Hr : reads (snd (main (snd (main world_rerun)))) = 4%nat)
      by (vm_compute; reflexivity).
    rewrite Hr in Hn.
    destruct n as [|[|[|[|n]]]]; try reflexivity. lia.
  - vm_compute. reflexivity.
  - vm_compute. reflexivity.
Defined.

(** ** The frame handed to the load job *)

Lemma currency_to_float_output s w out w' :
  currency_to_float s w = (Ok out, w') -> dtype out <> object.
Proof.
  intros H. destruct (currency_to_float_cases s w) as (Hf & Ho & Hx & Hr).
  destruct (dtype s) eqn:Ed;
    try (rewrite Hx in H by discriminate; injection H as <- _; rewrite Ed; discriminate).
  - rewrite Hf in H by reflexivity. injection H as <- _. rewrite Ed. discriminate.
  - destruct (pd.text_like (values s)) eqn:Et.
    + rewrite (currency_object _ _ Ed Et) in H. injection H as <- _.
      apply numeric_series_dtype.
    + rewrite Hr in H by auto. discriminate.
Qed.

Lemma to_datetime_dtype s out : pd.to_datetime s = Ok out -> dtype out = datetime64.
Proof.
  unfold pd.to_datetime. destruct (dtype_eqb (dtype s) bool_); [discriminate|].
  destruct (pd.collect _ _); [|discriminate].
  now intros [= <-].
Qed.

(** A successful [normalize], with what the normalizer returned. *)
Lemma normalize_ok_columns account_name data w data' w' :
  normalize account_name data w = (Ok data', w') ->
  let d0 := prepared account_name (clock w (reads w)) data in
  exists po pi ba dt,
    column_named "paid_out" d0 <> []
    /\ dtype po <> object /\ dtype pi <> object /\ dtype ba <> object
    /\ dtype dt = datetime64
    /\ (exists x, column_named "paid_in" (setitem d0 "paid_out" po) = [x])
    /\ (exists x, column_named "balance"
                    (setitem (setitem d0 "paid_out" po) "paid_in" pi) = [x])
    /\ (exists x, column_named "date"
                    (setitem (setitem (setitem d0 "paid_out" po) "paid_in" pi)
                       "balance" ba) = [x])
    /\ (exists x, column_named "paid_out" d0 = [x])
    /\ data' = setitem (setitem (setitem (setitem d0 "paid_out" po) "paid_in" pi)
                          "balance" ba) "date" dt.
Proof.
  intros H d0. unfold normalize in H.
  apply bind_ok_inv in H as (today & w1 & Hnow & H).
  unfold now_date in Hnow. injection Hnow as <- <-.
  fold (prepared account_name (clock w (reads w)) data) in H. fold d0 in H.
  apply bind_ok_inv in H as (po & w2 & H1 & H). apply lift_inv in H1 as [H1 ->].
  apply bind_ok_inv in H as (po' & w3 & H2 & H). apply currency_to_float_output in H2.
  apply bind_ok_inv in H as (pi & w4 & H3 & H). apply lift_inv in H3 as [H3 ->].
  apply bind_ok_inv in H as (pi' & w5 & H4 & H). apply currency_to_float_output in H4.
  apply bind_ok_inv in H as (ba & w6 & H5 & H). apply lift_inv in H5 as [H5 ->].
  apply bind_ok_inv in H as (ba' & w7 & H6 & H). apply currency_to_float_output in H6.
  apply bind_ok_inv in H as (dt & w8 & H7 & H). apply lift_inv in H7 as [H7 ->].
  apply bind_ok_inv in H as (dt' & w9 & H8 & H). apply lift_inv in H8 as [H8 ->].
  symmetry in H1, H3, H5, H7, H8.
  apply to_datetime_dtype in H8.
  unfold ret in H. injection H as <- <-.
  apply getitem_ok_unique in H1, H3, H5, H7.
  exists po', pi', ba', dt'.
  split; [rewrite H1; discriminate|].
  repeat (split; [now eauto|]). reflexivity.
Qed.

(** X15: the frame that [process_csv_file] hands to the load job has as
    many rows as the frame read from the file, exactly one column under
    each of the names date, paid_out, paid_in and balance, the date
    column of the date-time type and none of the three amount columns of
    the object type. *)
Theorem normalize_column_types account_name data w data' w' :
  normalize account_name data w = (Ok data', w') ->
  nrows data' = nrows data
  /\ (exists c, getitem data' "date" = Ok c /\ dtype c = datetime64)
  /\ (forall name, In name ["paid_out"; "paid_in"; "balance"] ->
      exists c, getitem data' name = Ok c /\ dtype c <> object).
Proof.
  intros H. apply normalize_ok_columns in H
    as (po & pi & ba & dt & _ & Dpo & Dpi & Dba & Ddt & (x2 & G2) & (x3 & G3)
        & (x4 & G4) & (x1 & G1) & ->).
  split; [now rewrite !nrows_setitem, nrows_prepared|]. split.
  - exists dt. split; [|exact Ddt].
    apply getitem_unique. apply (column_named_setitem_self _ _ _ _ G4).
  - intros name [<- | [<- | [<- | []]]].
    + exists po. split; [|exact Dpo]. apply getitem_unique.
      rewrite !column_named_setitem_other by discriminate.
      apply (column_named_setitem_self _ _ _ _ G1).
    + exists pi. split; [|exact Dpi]. apply getitem_unique.
      rewrite !column_named_setitem_other by discriminate.
      apply (column_named_setitem_self _ _ _ _ G2).
    + exists ba. split; [|exact Dba]. apply getitem_unique.
      rewrite !column_named_setitem_other by discriminate.
      apply (column_named_setitem_self _ _ _ _ G3).
Qed.

Lemma normalize_column_types_witness :
  nrows (fst (match normalize "My Account"
                      (mkFrame 1 [("Date", text_column ["05 Jan 2024"]);
                                  ("Paid out", text_column ["£50.00"]);
                                  ("Paid in", mkSeries float64 [CNaN]);
                                  ("Balance", text_column ["£1,239.56"])])
                      quiet_world with
              | (Ok d, w) => (d, w)
              | (Raise _, w) => (mkFrame 0 [], w)
              end))
  = 1%nat.
Proof.
  refine (proj1 (normalize_column_types "My Account"
                   (mkFrame 1 [("Date", text_column ["05 Jan 2024"]);
                               ("Paid out", text_column ["£50.00"]);
                               ("Paid in", mkSeries float64 [CNaN]);
                               ("Balance", text_column ["£1,239.56"])])
                   quiet_world _ _ _)).
  vm_compute. reflexivity.
Defined.

(** ** Column names *)

Lemma lower_ascii_small a :
  ((65 <=? nat_of_ascii (lower_ascii a)) && (nat_of_ascii (lower_ascii a) <=? 90))%nat
  = false.
Proof. destruct a as [[] [] [] [] [] [] [] []]; reflexivity. Qed.

Lemma lower_ascii_idempotent a : lower_ascii (lower_ascii a) = lower_ascii a.
Proof. destruct a as [[] [] [] [] [] [] [] []]; reflexivity. Qed.

Lemma lower_ascii_blank a :
  Ascii.eqb (lower_ascii (if Ascii.eqb a " "%char then "_"%char else a)) " "%char = false.
Proof. destruct a as [[] [] [] [] [] [] [] []]; reflexivity. Qed.

Lemma lower_ascii_replace a :
  lower_ascii
    (if Ascii.eqb (lower_ascii (if Ascii.eqb a " "%char then "_"%char else a)) " "%char
     then "_"%char
     else lower_ascii (if Ascii.eqb a " "%char then "_"%char else a))
  = lower_ascii (if Ascii.eqb a " "%char then "_"%char else a).
Proof. destruct a as [[] [] [] [] [] [] [] []]; reflexivity. Qed.

Lemma lower_ascii_keeps a :
  (nat_of_ascii a <? 128)%nat = true -> (nat_of_ascii (lower_ascii a) <? 128)%nat = true.
Proof. destruct a as [[] [] [] [] [] [] [] []]; intros H; try reflexivity; discriminate H. Qed.

Lemma normalize_name_normal name :
  contains " "%char (normalize_name name) = false
  /\ has_capital (normalize_name name) = false
  /\ normalize_name (normalize_name name) = normalize_name name.
Proof.
  unfold normalize_name.
  induction name as [|a name (I1 & I2 & I4)]; [repeat split|].
  cbn [replace_char lower contains has_capital].
  rewrite lower_ascii_replace, lower_ascii_blank, lower_ascii_small, I1, I2, I4.
  repeat split.
Qed.

Lemma normalize_name_ascii name :
  is_ascii name = true -> is_ascii (normalize_name name) = true.
Proof.
  unfold normalize_name. induction name as [|a name IH]; [reflexivity|].
  cbn [is_ascii replace_char lower]. intros H. apply andb_true_iff in H as [Ha Hn].
  rewrite (IH Hn), andb_true_r. apply lower_ascii_keeps.
  destruct (Ascii.eqb a " "%char); [reflexivity | exact Ha].
Qed.

(** X16: the renaming of columns leaves no blank and no capital letter in
    a name written in ASCII, and such a name renamed twice is the name
    renamed once; the renaming changes neither the number of columns,
    nor their order, nor what they hold; and renaming twice a frame whose
    names are written in ASCII is renaming it once. *)
Theorem rename_columns_normal_form :
  (forall name,
      is_ascii name = true ->
      contains " "%char (normalize_name name) = false
      /\ has_capital (normalize_name name) = false
      /\ is_ascii (normalize_name name) = true
      /\ normalize_name (normalize_name name) = normalize_name name)
  /\ (forall data,
         map snd (columns (rename_columns data)) = map snd (columns data)
         /\ map fst (columns (rename_columns data))
            = map normalize_name (map fst (columns data))
         /\ nrows (rename_columns data) = nrows data
         /\ (forallb is_ascii (map fst (columns data)) = true ->
             rename_columns (rename_columns data) = rename_columns data)).
Proof.
  split.
  - intros name Ha. destruct (normalize_name_normal name) as (H1 & H2 & H3).
    repeat split; auto. now apply normalize_name_ascii.
  - intros data. unfold rename_columns. cbn [columns nrows].
    split; [rewrite map_map; reflexivity|].
    split; [rewrite !map_map; reflexivity|].
    split; [reflexivity|].
    intros _. f_equal. rewrite map_map. apply map_ext. intros [n c]. cbn [fst snd].
    f_equal. apply normalize_name_normal.
Qed.

Lemma rename_columns_normal_form_witness :
  contains " "%char (normalize_name "Paid out") = false
  /\ has_capital (normalize_name "Paid out") = false
  /\ is_ascii (normalize_name "Paid out") = true
  /\ normalize_name (normalize_name "Paid out") = normalize_name "Paid out".
Proof.
  exact (proj1 rename_columns_normal_form "Paid out" eq_refl).
Defined.
